(** * The request-orchestration pipeline of the MCP AI agent

    A shallow embedding of [src/mcp_client.py] (the connector registry and
    its HTTP client) and of [src/ai_agent_debug.py] (tool selection,
    sequential execution, summarisation), with the properties the
    specification states about them.

    Conventions.
    - A Python [str] is a [string]; a character stands for the code point
      of the same number, so the texts covered are those whose code points
      lie below 256.
    - A value decoded from JSON (what [json.loads] and [response.json()]
      return) is a [json]; a Python [dict] is an association list kept in
      insertion order whose look-ups return the first binding of a key.
    - [async] functions run to completion one after the other, so they are
      functions of a state monad over the [World]: the registry table and
      the history of calls made to the outside.  Logging and [print] are
      not recorded.
    - Whatever the code obtains from outside the repository (the wording of
      the interpreter's faults, [json.loads], pydantic's coercions, the HTTP
      session, the two reasoning backends) is a field of the class
      [Outside]; every function of the model is parametric in it.  Only
      exceptions deriving from [Exception] are modelled. *)

From Stdlib Require Import String Ascii List Arith ZArith Bool Lia DecimalString.
Import ListNotations.
Local Open Scope string_scope.

(** ** Texts *)

Definition nl : string := String (ascii_of_nat 10) EmptyString.
Definition dq : string := String (ascii_of_nat 34) EmptyString.

(** A JSON or Python string literal: the text between double quotes. *)
Definition quoted (s : string) : string := dq ++ s ++ dq.

(** [sep.join(parts)] *)
Fixpoint join (sep : string) (parts : list string) : string :=
  match parts with
  | [] => ""
  | [p] => p
  | p :: rest => p ++ sep ++ join sep rest
  end.

(** [str.isspace] on one character: the code points below 256 that Python
    counts as whitespace. *)
Definition isspace (c : ascii) : bool :=
  let n := nat_of_ascii c in
  (((9 <=? n) && (n <=? 13)) || ((28 <=? n) && (n <=? 32))
   || (n =? 133) || (n =? 160))%nat.

Fixpoint lstrip (s : string) : string :=
  match s with
  | String c rest => if isspace c then lstrip rest else s
  | EmptyString => EmptyString
  end.

Fixpoint rstrip (s : string) : string :=
  match s with
  | String c rest =>
      match rstrip rest with
      | EmptyString => if isspace c then EmptyString else String c EmptyString
      | kept => String c kept
      end
  | EmptyString => EmptyString
  end.

(** [s.strip()] *)
Definition strip (s : string) : string := rstrip (lstrip s).

(** [s.rstrip('/')] *)
Fixpoint rstrip_slash (s : string) : string :=
  match s with
  | String c rest =>
      match rstrip_slash rest with
      | EmptyString =>
          if Ascii.eqb c "/"%char then EmptyString else String c EmptyString
      | kept => String c kept
      end
  | EmptyString => EmptyString
  end.

(** [s.startswith(p)] *)
Definition startswith (s p : string) : bool := String.prefix p s.

(** [s.endswith(p)] *)
Definition endswith (s p : string) : bool :=
  (String.length p <=? String.length s)%nat
  && String.eqb (substring (String.length s - String.length p) (String.length p) s) p.

(** [s[n:]] for a non-negative [n] *)
Definition slice_from (n : nat) (s : string) : string :=
  substring n (String.length s - n) s.

(** [s[:-n]] for a positive [n] *)
Definition slice_drop_last (n : nat) (s : string) : string :=
  substring 0 (String.length s - n) s.

(** [p in s] for two strings *)
Fixpoint is_substring (p s : string) : bool :=
  String.prefix p s
  || match s with
     | String _ rest => is_substring p rest
     | EmptyString => false
     end.

(** [str(n)] for a non-negative integer *)
Definition string_of_nat (n : nat) : string :=
  NilEmpty.string_of_uint (Nat.to_uint n).

(** ** Values decoded from JSON *)

#[local] Set Warnings "-register-all".

Inductive json : Type :=
| JNull
| JBool (b : bool)
| JInt (n : Z)
| JFloat (lexeme : string)
| JStr (s : string)
| JArr (items : list json)
| JObj (fields : list (string * json)).

(** ** Dictionaries in insertion order *)

Section Dict.
Context {V : Type}.

Fixpoint dict_get (k : string) (d : list (string * V)) : option V :=
  match d with
  | [] => None
  | (k', v) :: rest => if String.eqb k k' then Some v else dict_get k rest
  end.

Definition dict_mem (k : string) (d : list (string * V)) : bool :=
  match dict_get k d with Some _ => true | None => false end.

(** [d[k] = v]: an existing key keeps its place. *)
Fixpoint dict_set (k : string) (v : V) (d : list (string * V)) : list (string * V) :=
  match d with
  | [] => [(k, v)]
  | (k', v') :: rest =>
      if String.eqb k k' then (k, v) :: rest else (k', v') :: dict_set k v rest
  end.

(** [del d[k]] *)
Fixpoint dict_del (k : string) (d : list (string * V)) : list (string * V) :=
  match d with
  | [] => []
  | (k', v') :: rest =>
      if String.eqb k k' then dict_del k rest else (k', v') :: dict_del k rest
  end.

Definition dict_keys (d : list (string * V)) : list string := map fst d.
End Dict.

(** ** Exceptions *)

Inductive exn_class : Type :=
| ValueError | RuntimeError | KeyError | TypeError | AttributeError
| UnboundLocalError | JSONDecodeError | ValidationError
| LibraryError (name : string).

(** An exception; [exn_str] is what [str(e)] gives. *)
Record exn : Type := Exn { exn_cls : exn_class; exn_str : string }.

(** [isinstance(e, json.JSONDecodeError)] *)
Definition is_JSONDecodeError (e : exn) : bool :=
  match exn_cls e with JSONDecodeError => true | _ => false end.

(** The faults the interpreter raises by itself on ill-typed values. *)
Inductive fault : Type :=
| NotIterable (ty : string)          (* for x in v *)
| NotAContainer (ty : string)        (* k in v *)
| NoAttribute (ty attr : string)     (* v.get *)
| BadIndex (ty : string)             (* v[k] on a list or a str *)
| NotSubscriptable (ty : string)     (* v[k] *)
| MissingKey (k : string)            (* d[k] *)
| Unhashable (ty : string)           (* v in d *)
| Unbound (var : string).            (* a local read before assignment *)

Definition fault_class (f : fault) : exn_class :=
  match f with
  | NoAttribute _ _ => AttributeError
  | MissingKey _ => KeyError
  | Unbound _ => UnboundLocalError
  | _ => TypeError
  end.

(** [type(v).__name__] *)
Definition type_name (v : json) : string :=
  match v with
  | JNull => "NoneType"
  | JBool _ => "bool"
  | JInt _ => "int"
  | JFloat _ => "float"
  | JStr _ => "str"
  | JArr _ => "list"
  | JObj _ => "dict"
  end.

(** ** The data model *)

(** [mcp_client.MCPToolResult], a pydantic model:
    [content: List[Dict[str, Any]]], [error: Optional[str] = None]. *)
Module MCPToolResult.
Record t : Type := Build {
  content : list (list (string * json));
  error : option string
}.
End MCPToolResult.

(** [mcp_client.MCPClient]; [session] holds the number that identifies the
    [aiohttp.ClientSession], once [__aenter__] has created it. *)
Module MCPClient.
Record t : Type := Build {
  base_url : string;
  mcp_endpoint : string;
  session : option nat
}.
End MCPClient.

(** [ai_agent_debug.ToolCall], a dataclass.  Its fields are annotated
    [str], [str], [Dict[str, Any]], [str], but a dataclass checks nothing:
    each field holds whatever value the decoded response had there. *)
Module ToolCall.
Record t : Type := Build {
  connector_name : json;
  tool_name : json;
  arguments : json;
  reasoning : json
}.
End ToolCall.

(** [ai_agent_debug.AITool], a pydantic model. *)
Module AITool.
Record t : Type := Build {
  name : string;
  description : string;
  connector_name : string;
  schema : list (string * json)
}.
End AITool.

(** One entry of the list [_execute_tool_calls] returns: a dict with the
    keys [tool_call], [success], [result], [error]. *)
Module Outcome.
Record t : Type := Build {
  tool_call : ToolCall.t;
  success : bool;
  result : option MCPToolResult.t;
  error : option string
}.
End Outcome.

(** The dict [process_request] returns.  [tool_calls] holds the
    [__dict__] of each call, that is its four fields; [summary] is [None]
    where the Python value is [None]. *)
Module RequestResult.
Record t : Type := Build {
  success : bool;
  reasoning : json;
  tool_calls : list ToolCall.t;
  results : list Outcome.t;
  summary : option string
}.
End RequestResult.

(** [AIAgentDebug]'s own fields; [connector_manager] is the registry of the
    [World].  A backend is [Some] when the constructor was given its key. *)
Module AIAgentDebug.
Record t : Type := Build {
  model : string;
  gemini_model : option string;
  anthropic_client : option string
}.
End AIAgentDebug.

(** ** The outside world *)

(** A call that leaves the process. *)
Inductive Event : Type :=
| SessionOpened (sid : nat)
| SessionClosed (sid : nat)
| Posted (sid : nat) (url : string) (body : json)
| GeminiAsked (model prompt : string)
| AnthropicAsked (model : string) (max_tokens : nat) (prompt : string).

(** The registry [MCPConnectorManager.connectors] and the calls made so
    far, oldest first. *)
Record World : Type := mkWorld {
  connectors : list (string * MCPClient.t);
  history : list Event
}.

(** What the code gets from outside the repository.  The replies of remote
    parties may depend on everything that happened before. *)
Class Outside : Type := {
  (** [str(e)] of a fault raised by the interpreter *)
  fault_str : fault -> string;
  (** [str(v)] of a value that is not a [str] *)
  repr_value : json -> string;
  (** [json.loads] *)
  json_loads : string -> exn + json;
  (** pydantic on a [str] field given a value that is not a [str] *)
  coerce_str : json -> option string;
  (** pydantic on a [Dict[str, Any]] field given a value that is not a dict *)
  coerce_dict : json -> option (list (string * json));
  (** pydantic on a [List] field given a value that is not a list *)
  coerce_list : json -> option (list json);
  (** [str(e)] of the [ValidationError] of a model for its arguments *)
  validation_str : string -> list (string * json) -> string;
  (** [session.post(url, json=body, ...)], [raise_for_status()] and
      [response.json()] together *)
  session_post : list Event -> nat -> string -> json -> exn + json;
  (** [generate_content_async(prompt)] followed by [response.text] *)
  gemini_generate : list Event -> string -> string -> exn + string;
  (** [messages.create(...)] followed by [response.content[0].text] *)
  anthropic_create : list Event -> string -> nat -> string -> exn + string
}.

(** ** The monad of the [async] functions *)

Definition M (A : Type) : Type := World -> (exn + A) * World.

Definition ret {A} (a : A) : M A := fun w => (inr a, w).

Definition raise {A} (e : exn) : M A := fun w => (inl e, w).

Definition bind {A B} (c : M A) (k : A -> M B) : M B :=
  fun w =>
    match c w with
    | (inr a, w') => k a w'
    | (inl e, w') => (inl e, w')
    end.

(** [try: c except Exception as e: handler(e)]; what [c] did before it
    raised stays done. *)
Definition try_except {A} (c : M A) (handler : exn -> M A) : M A :=
  fun w =>
    match c w with
    | (inr a, w') => (inr a, w')
    | (inl e, w') => handler e w'
    end.

(** A step that cannot touch the world. *)
Definition lift {A} (r : exn + A) : M A :=
  match r with
  | inr a => ret a
  | inl e => raise e
  end.

Definition get_connectors : M (list (string * MCPClient.t)) :=
  fun w => (inr (connectors w), w).

Definition set_connectors (d : list (string * MCPClient.t)) : M unit :=
  fun w => (inr tt, mkWorld d (history w)).

Definition get_history : M (list Event) :=
  fun w => (inr (history w), w).

Definition emit (ev : Event) : M unit :=
  fun w => (inr tt, mkWorld (connectors w) (history w ++ [ev])).

Declare Scope monad_scope.
Delimit Scope monad_scope with monad.
Notation "x <- c ;; k" := (bind c (fun x => k))
  (at level 61, c at next level, right associativity) : monad_scope.
Notation "c ;; k" := (bind c (fun _ => k))
  (at level 61, right associativity) : monad_scope.
Local Open Scope monad_scope.

(** [for x in xs: acc = body(x, acc)] *)
Fixpoint for_each {A S} (xs : list A) (body : A -> S -> M S) (acc : S) : M S :=
  match xs with
  | [] => ret acc
  | x :: rest => acc' <- body x acc ;; for_each rest body acc'
  end.

(** The same loop for a body that makes no call. *)
Fixpoint for_each_pure {A S} (xs : list A) (body : A -> S -> exn + S) (acc : S)
  : exn + S :=
  match xs with
  | [] => inr acc
  | x :: rest =>
      match body x acc with
      | inr acc' => for_each_pure rest body acc'
      | inl e => inl e
      end
  end.

(** [enumerate(xs)] *)
Fixpoint enumerate_from {A} (i : nat) (xs : list A) : list (nat * A) :=
  match xs with
  | [] => []
  | x :: rest => (i, x) :: enumerate_from (S i) rest
  end.

Definition enumerate {A} (xs : list A) : list (nat * A) := enumerate_from 0 xs.

(** ** Python's operations on decoded values *)

Section Values.
Context `{O : Outside}.

Definition fault_exn (f : fault) : exn := Exn (fault_class f) (fault_str f).

(** [str(v)], as an f-string applies it *)
Definition py_str (v : json) : string :=
  match v with
  | JStr s => s
  | _ => repr_value v
  end.

Fixpoint chars (s : string) : list json :=
  match s with
  | String c rest => JStr (String c EmptyString) :: chars rest
  | EmptyString => []
  end.

(** The values [for x in v] runs through. *)
Definition py_iter (v : json) : exn + list json :=
  match v with
  | JArr items => inr items
  | JObj fields => inr (map (fun kv => JStr (fst kv)) fields)
  | JStr s => inr (chars s)
  | _ => inl (fault_exn (NotIterable (type_name v)))
  end.

(** [v.get(k, default)] *)
Definition py_get (v : json) (k : string) (default : json) : exn + json :=
  match v with
  | JObj fields =>
      inr (match dict_get k fields with Some x => x | None => default end)
  | _ => inl (fault_exn (NoAttribute (type_name v) "get"))
  end.

(** [v[k]] for a string [k] *)
Definition py_getitem (v : json) (k : string) : exn + json :=
  match v with
  | JObj fields =>
      match dict_get k fields with
      | Some x => inr x
      | None => inl (fault_exn (MissingKey k))
      end
  | JArr _ | JStr _ => inl (fault_exn (BadIndex (type_name v)))
  | _ => inl (fault_exn (NotSubscriptable (type_name v)))
  end.

Definition is_str (k : string) (v : json) : bool :=
  match v with
  | JStr s => String.eqb s k
  | _ => false
  end.

(** [k in v] for a string [k] *)
Definition py_in (k : string) (v : json) : exn + bool :=
  match v with
  | JObj fields => inr (dict_mem k fields)
  | JArr items => inr (existsb (is_str k) items)
  | JStr s => inr (is_substring k s)
  | _ => inl (fault_exn (NotAContainer (type_name v)))
  end.

(** [key in d] for a dict [d] whose keys are strings *)
Definition key_in {V} (key : json) (d : list (string * V)) : exn + bool :=
  match key with
  | JStr s => inr (dict_mem s d)
  | JArr _ | JObj _ => inl (fault_exn (Unhashable (type_name key)))
  | _ => inr false
  end.

(** [d[key]] for a dict [d] whose keys are strings *)
Definition key_getitem {V} (key : json) (d : list (string * V)) : exn + V :=
  match key with
  | JStr s =>
      match dict_get s d with
      | Some x => inr x
      | None => inl (fault_exn (MissingKey s))
      end
  | JArr _ | JObj _ => inl (fault_exn (Unhashable (type_name key)))
  | _ => inl (fault_exn (MissingKey (repr_value key)))
  end.

(** *** pydantic's validation of the two models *)

Definition validate_str (v : json) : option string :=
  match v with
  | JStr s => Some s
  | _ => coerce_str v
  end.

Definition validate_optional_str (v : json) : option (option string) :=
  match v with
  | JNull => Some None
  | _ => option_map Some (validate_str v)
  end.

Definition validate_dict (v : json) : option (list (string * json)) :=
  match v with
  | JObj fields => Some fields
  | _ => coerce_dict v
  end.

Fixpoint validate_each {A} (f : json -> option A) (vs : list json)
  : option (list A) :=
  match vs with
  | [] => Some []
  | v :: rest =>
      match f v, validate_each f rest with
      | Some a, Some others => Some (a :: others)
      | _, _ => None
      end
  end.

Definition validate_list_of_dict (v : json)
  : option (list (list (string * json))) :=
  match (match v with JArr items => Some items | _ => coerce_list v end) with
  | Some items => validate_each validate_dict items
  | None => None
  end.

(** [MCPToolResult(content=c, error=e)]; [e] is absent where the call
    leaves the default. *)
Definition new_MCPToolResult (c : json) (e : option json)
  : exn + MCPToolResult.t :=
  let given :=
    ("content", c) :: match e with Some v => [("error", v)] | None => [] end in
  match validate_list_of_dict c,
        match e with Some v => validate_optional_str v | None => Some None end
  with
  | Some blocks, Some err => inr (MCPToolResult.Build blocks err)
  | _, _ => inl (Exn ValidationError (validation_str "MCPToolResult" given))
  end.

(** [AITool(name=n, description=d, connector_name=c, schema=s)] *)
Definition new_AITool (n d : json) (c : string) (s : json) : exn + AITool.t :=
  match validate_str n, validate_str d, validate_dict s with
  | Some n', Some d', Some s' => inr (AITool.Build n' d' c s')
  | _, _, _ =>
      inl (Exn ValidationError
             (validation_str "AITool"
                [("name", n); ("description", d);
                 ("connector_name", JStr c); ("schema", s)]))
  end.
End Values.

(** ** [mcp_client.py] *)

Section Client.
Context `{O : Outside}.

(** [MCPClient.__init__] *)
Definition MCPClient_init (base_url : string) : MCPClient.t :=
  let base := rstrip_slash base_url in
  MCPClient.Build base (base ++ "/mcp") None.

(** [MCPClient.__aenter__]: a new session, numbered by the length of the
    history, which no earlier session can have. *)
Definition __aenter__ (self : MCPClient.t) : M MCPClient.t :=
  h <- get_history ;;
  emit (SessionOpened (length h)) ;;
  ret (MCPClient.Build (MCPClient.base_url self) (MCPClient.mcp_endpoint self)
         (Some (length h))).

(** [MCPClient.__aexit__] *)
Definition __aexit__ (self : MCPClient.t) : M unit :=
  match MCPClient.session self with
  | Some sid => emit (SessionClosed sid)
  | None => ret tt
  end.

(** [async with self.session.post(...) as response:
       response.raise_for_status(); result = await response.json()] *)
Definition post (sid : nat) (url : string) (body : json) : M json :=
  fun w =>
    (session_post (history w) sid url body,
     mkWorld (connectors w) (history w ++ [Posted sid url body])).

Definition not_initialized : exn :=
  Exn RuntimeError "Client not initialized. Use async context manager.".

(** The [request_data] of [call_tool] *)
Definition tools_call_request (tool_name arguments : json) : json :=
  JObj [("jsonrpc", JStr "2.0"); ("id", JInt 1);
        ("method", JStr "tools/call");
        ("params", JObj [("name", tool_name); ("arguments", arguments)])].

(** [MCPClient.call_tool] *)
Definition call_tool (self : MCPClient.t) (tool_name arguments : json)
  : M MCPToolResult.t :=
  match MCPClient.session self with
  | None => raise not_initialized
  | Some sid =>
      let request_data := tools_call_request tool_name arguments in
      try_except
        (result <- post sid (MCPClient.mcp_endpoint self) request_data ;;
         has_error <- lift (py_in "error" result) ;;
         if has_error : bool then
           err <- lift (py_getitem result "error") ;;
           message <- lift (py_get err "message" (JStr "Unknown error")) ;;
           lift (new_MCPToolResult (JArr []) (Some message))
         else
           res <- lift (py_get result "result" (JObj [])) ;;
           content <- lift (py_get res "content" (JArr [])) ;;
           lift (new_MCPToolResult content None))
        (fun e => lift (new_MCPToolResult (JArr []) (Some (JStr (exn_str e)))))
  end.

(** [MCPClient.list_tools] *)
Definition list_tools (self : MCPClient.t) : M json :=
  match MCPClient.session self with
  | None => raise not_initialized
  | Some sid =>
      let request_data :=
        JObj [("jsonrpc", JStr "2.0"); ("id", JInt 1);
              ("method", JStr "tools/list")] in
      try_except
        (result <- post sid (MCPClient.mcp_endpoint self) request_data ;;
         has_error <- lift (py_in "error" result) ;;
         if has_error : bool then ret (JArr [])
         else
           res <- lift (py_get result "result" (JObj [])) ;;
           lift (py_get res "tools" (JArr [])))
        (fun e => ret (JArr []))
  end.

(** The loop of [get_tool_schema]: the first entry whose [name] equals
    [tool_name], or [None]. *)
Fixpoint find_tool (tool_name : string) (tools : list json) : exn + option json :=
  match tools with
  | [] => inr None
  | tool :: rest =>
      match py_get tool "name" JNull with
      | inr n =>
          if is_str tool_name n then inr (Some tool) else find_tool tool_name rest
      | inl e => inl e
      end
  end.

(** [MCPClient.get_tool_schema] *)
Definition get_tool_schema (self : MCPClient.t) (tool_name : string)
  : M (option json) :=
  tools <- list_tools self ;;
  entries <- lift (py_iter tools) ;;
  lift (find_tool tool_name entries).

(** [MCPConnectorManager.add_connector] *)
Definition add_connector (name base_url : string) : M MCPClient.t :=
  client <- __aenter__ (MCPClient_init base_url) ;;
  d <- get_connectors ;;
  set_connectors (dict_set name client d) ;;
  ret client.

(** [MCPConnectorManager.remove_connector] *)
Definition remove_connector (name : string) : M unit :=
  d <- get_connectors ;;
  match dict_get name d with
  | Some client =>
      __aexit__ client ;;
      d' <- get_connectors ;;
      set_connectors (dict_del name d')
  | None => ret tt
  end.

(** [MCPConnectorManager.call_tool_on_connector] *)
Definition call_tool_on_connector (connector_name tool_name arguments : json)
  : M MCPToolResult.t :=
  d <- get_connectors ;;
  registered <- lift (key_in connector_name d) ;;
  if negb registered then
    raise (Exn ValueError ("Connector '" ++ py_str connector_name ++ "' not found"))
  else
    client <- lift (key_getitem connector_name d) ;;
    call_tool client tool_name arguments.

(** [MCPConnectorManager.list_all_tools] *)
Definition list_all_tools : M (list (string * json)) :=
  d <- get_connectors ;;
  for_each d
    (fun '(name, client) result =>
       tools <- list_tools client ;;
       ret (dict_set name tools result))
    [].

(** [MCPConnectorManager.close_all] *)
Definition close_all : M unit :=
  d <- get_connectors ;;
  for_each (dict_keys d) (fun name _ => remove_connector name) tt.
End Client.

(** ** [ai_agent_debug.py] *)

(** Sequencing of steps that make no call. *)
Definition and_then {A B} (r : exn + A) (k : A -> exn + B) : exn + B :=
  match r with
  | inr a => k a
  | inl e => inl e
  end.

(** [try: c except cls as e: handler(e)] for one class of exceptions; any
    other exception goes on to the enclosing handler. *)
Definition try_except_when {A} (caught : exn -> bool) (c : M A)
  (handler : exn -> M A) : M A :=
  fun w =>
    match c w with
    | (inr a, w') => (inr a, w')
    | (inl e, w') => if caught e then handler e w' else (inl e, w')
    end.

Definition is_None {A} (o : option A) : bool :=
  match o with None => true | Some _ => false end.

(** [bool(s)] for a string that may be [None] *)
Definition truthy (o : option string) : bool :=
  match o with
  | Some (String _ _) => true
  | _ => false
  end.

Section Agent.
Context `{O : Outside}.

(** [AIAgentDebug.__init__] *)
Definition AIAgentDebug_init (gemini_api_key anthropic_api_key : option string)
  (model : string) : exn + AIAgentDebug.t :=
  let gemini_model := if truthy gemini_api_key then Some model else None in
  let anthropic_client :=
    if truthy anthropic_api_key then anthropic_api_key else None in
  if is_None gemini_model && is_None anthropic_client then
    inl (Exn ValueError
           "At least one AI provider (Gemini or Anthropic) must be configured")
  else inr (AIAgentDebug.Build model gemini_model anthropic_client).

(** [await self.gemini_model.generate_content_async(prompt)] and
    [response.text] *)
Definition ask_gemini (model prompt : string) : M string :=
  fun w =>
    (gemini_generate (history w) model prompt,
     mkWorld (connectors w) (history w ++ [GeminiAsked model prompt])).

(** [await self.anthropic_client.messages.create(...)] and
    [response.content[0].text] *)
Definition ask_anthropic (model : string) (max_tokens : nat) (prompt : string)
  : M string :=
  fun w =>
    (anthropic_create (history w) model max_tokens prompt,
     mkWorld (connectors w)
       (history w ++ [AnthropicAsked model max_tokens prompt])).

(** [AIAgentDebug._get_available_tools] *)
Definition _get_available_tools : M (list AITool.t) :=
  all_tools <- list_all_tools ;;
  lift
    (for_each_pure all_tools
       (fun '(connector_name, connector_tools) tools =>
          and_then (py_iter connector_tools) (fun items =>
          for_each_pure items
            (fun tool tools =>
               and_then (py_get tool "name" (JStr "")) (fun n =>
               and_then (py_get tool "description" (JStr "")) (fun d =>
               and_then (py_get tool "inputSchema" (JObj [])) (fun s =>
               and_then (new_AITool n d connector_name s) (fun t =>
               inr (tools ++ [t])%list)))))
            tools))
       []).

(** [AIAgentDebug._create_tool_selection_prompt] *)
Definition _create_tool_selection_prompt (user_query : string)
  (available_tools : list AITool.t) : string :=
  let tools_description :=
    join nl
      (map (fun tool =>
              "- " ++ AITool.name tool ++ " (" ++ AITool.connector_name tool
              ++ "): " ++ AITool.description tool)
         available_tools) in
  join nl
    [ "";
      "You are an AI assistant that can use various tools to help users. Based on the user's request, determine which tools to use and how to use them.";
      "";
      "Available tools:";
      tools_description;
      "";
      "User request: " ++ user_query;
      "";
      "Please analyze the request and determine:";
      "1. Which tools are needed";
      "2. The order to call them";
      "3. The arguments for each tool call";
      "4. Your reasoning for each decision";
      "";
      "Respond in the following JSON format:";
      "{";
      "    " ++ quoted "reasoning" ++ ": "
        ++ quoted "Your overall reasoning for the approach" ++ ",";
      "    " ++ quoted "tool_calls" ++ ": [";
      "        {";
      "            " ++ quoted "connector_name" ++ ": "
        ++ quoted "name of the connector" ++ ",";
      "            " ++ quoted "tool_name" ++ ": "
        ++ quoted "name of the tool" ++ ",";
      "            " ++ quoted "arguments" ++ ": {" ++ quoted "param1" ++ ": "
        ++ quoted "value1" ++ ", " ++ quoted "param2" ++ ": "
        ++ quoted "value2" ++ "},";
      "            " ++ quoted "reasoning" ++ ": "
        ++ quoted "Why this tool call is needed";
      "        }";
      "    ]";
      "}";
      "";
      "Only include tools that are actually needed for the request. If no tools are needed, return an empty tool_calls array.";
      "";
      "IMPORTANT: Respond ONLY with valid JSON. Do not include any other text before or after the JSON.";
      "" ].

(** The cleaning of the response inside [_select_tools]:
    [content.strip()], the two fence tests, [content.strip()]. *)
Definition clean_response (content : string) : string :=
  let content := strip content in
  let content :=
    if startswith content "```json" then slice_from 7 content else content in
  let content :=
    if endswith content "```" then slice_drop_last 3 content else content in
  strip content.

(** The body of the loop of [_select_tools]: the four subscripts, the
    [ToolCall] and [tool_calls.append]. *)
Definition read_tool_call (call_data : json) (tool_calls : list ToolCall.t)
  : exn + list ToolCall.t :=
  and_then (py_getitem call_data "connector_name") (fun c =>
  and_then (py_getitem call_data "tool_name") (fun t =>
  and_then (py_getitem call_data "arguments") (fun a =>
  and_then (py_getitem call_data "reasoning") (fun r =>
  inr (tool_calls ++ [ToolCall.Build c t a r])%list)))).

(** The loop of [_select_tools] that builds one [ToolCall] per entry. *)
Definition read_tool_calls (entries : list json) : exn + list ToolCall.t :=
  for_each_pure entries read_tool_call [].

(** The inner [try] block of [_select_tools], from [json.loads] to its
    [return]. *)
Definition parse_selection (content : string) : exn + (json * list ToolCall.t) :=
  and_then (json_loads content) (fun result =>
  and_then (py_get result "reasoning" (JStr "")) (fun reasoning =>
  and_then (py_get result "tool_calls" (JArr [])) (fun calls_data =>
  and_then (py_iter calls_data) (fun entries =>
  and_then (read_tool_calls entries) (fun tool_calls =>
  inr (reasoning, tool_calls)))))).

(** The [if]/[elif] over the two backends in [_select_tools], up to
    the first use of [content]; with no backend that use finds the
    variable unbound. *)
Definition ask_for_selection (self : AIAgentDebug.t) (prompt : string)
  : M string :=
  match AIAgentDebug.gemini_model self with
  | Some gemini => ask_gemini gemini prompt
  | None =>
      match AIAgentDebug.anthropic_client self with
      | Some _ => ask_anthropic "claude-3-sonnet-20240229" 2000 prompt
      | None => raise (fault_exn (Unbound "content"))
      end
  end.

(** [AIAgentDebug._select_tools] *)
Definition _select_tools (self : AIAgentDebug.t) (user_query : string)
  : M (json * list ToolCall.t) :=
  available_tools <- _get_available_tools ;;
  let prompt := _create_tool_selection_prompt user_query available_tools in
  try_except
    (content <- ask_for_selection self prompt ;;
     let content := clean_response content in
     try_except_when is_JSONDecodeError
       (lift (parse_selection content))
       (fun e => ret (JStr "Failed to parse tool selection", [])))
    (fun e => ret (JStr ("Error in tool selection: " ++ exn_str e), [])).

(** The body of the loop of [_execute_tool_calls] for one call. *)
Definition execute_one (tool_call : ToolCall.t) : M Outcome.t :=
  try_except
    (result <- call_tool_on_connector (ToolCall.connector_name tool_call)
                 (ToolCall.tool_name tool_call) (ToolCall.arguments tool_call) ;;
     ret (Outcome.Build tool_call (is_None (MCPToolResult.error result))
            (Some result) (MCPToolResult.error result)))
    (fun e => ret (Outcome.Build tool_call false None (Some (exn_str e)))).

(** The body of the loop of [_execute_tool_calls]: the attempt and
    [results.append]. *)
Definition execute_body (entry : nat * ToolCall.t) (results : list Outcome.t)
  : M (list Outcome.t) :=
  let '(i, tool_call) := entry in
  outcome <- execute_one tool_call ;;
  ret (results ++ [outcome])%list.

(** [AIAgentDebug._execute_tool_calls] *)
Definition _execute_tool_calls (tool_calls : list ToolCall.t)
  : M (list Outcome.t) :=
  for_each (enumerate tool_calls) execute_body [].

(** [f"{v}"] for a string that may be [None] *)
Definition str_optional (o : option string) : string :=
  match o with Some s => s | None => "None" end.

(** The line of the summary prompt for the entry at index [i]. *)
Definition summary_entry (i : nat) (outcome : Outcome.t) : exn + string :=
  let tool_call := Outcome.tool_call outcome in
  let head :=
    "Tool " ++ string_of_nat (i + 1) ++ ": "
    ++ py_str (ToolCall.tool_name tool_call) in
  if Outcome.success outcome then
    match Outcome.result outcome with
    | None => inl (fault_exn (NoAttribute "NoneType" "content"))
    | Some result =>
        match MCPToolResult.content result with
        | first :: _ =>
            let text_content :=
              match dict_get "text" first with
              | Some v => v
              | None => JStr "No text content"
              end in
            inr (head ++ " - Success" ++ nl ++ "Result: " ++ py_str text_content)
        | [] => inr (head ++ " - Success (no content)")
        end
    end
  else
    inr (head ++ " - Failed" ++ nl ++ "Error: "
         ++ str_optional (Outcome.error outcome)).

(** The body of the loop of [_create_summary_prompt]: the line and
    [results_summary.append]. *)
Definition summary_body (entry : nat * Outcome.t) (results_summary : list string)
  : exn + list string :=
  let '(i, outcome) := entry in
  and_then (summary_entry i outcome) (fun line =>
  inr (results_summary ++ [line])%list).

(** [AIAgentDebug._create_summary_prompt] *)
Definition _create_summary_prompt (user_query : string) (reasoning : json)
  (results : list Outcome.t) : exn + string :=
  and_then
    (for_each_pure (enumerate results) summary_body [])
    (fun results_summary =>
       inr (join nl
              [ "";
                "You are an AI assistant that has executed some tools based on a user's request. Please provide a clear, helpful summary of what was accomplished.";
                "";
                "Original user request: " ++ user_query;
                "";
                "Your reasoning: " ++ py_str reasoning;
                "";
                "Tool execution results:";
                join nl results_summary;
                "";
                "Please provide a natural language summary of what was accomplished, what the results mean, and any next steps the user might want to take. Be conversational and helpful.";
                "" ])).

(** The [if]/[elif] over the two backends in [_generate_summary]; with
    no backend the function falls off its end and returns [None]. *)
Definition ask_for_summary (self : AIAgentDebug.t) (prompt : string)
  : M (option string) :=
  match AIAgentDebug.gemini_model self with
  | Some gemini => text <- ask_gemini gemini prompt ;; ret (Some text)
  | None =>
      match AIAgentDebug.anthropic_client self with
      | Some _ =>
          text <- ask_anthropic "claude-3-sonnet-20240229" 1000 prompt ;;
          ret (Some text)
      | None => ret None
      end
  end.

(** [AIAgentDebug._generate_summary] *)
Definition _generate_summary (self : AIAgentDebug.t) (user_query : string)
  (reasoning : json) (results : list Outcome.t) : M (option string) :=
  prompt <- lift (_create_summary_prompt user_query reasoning results) ;;
  try_except
    (ask_for_summary self prompt)
    (fun e => ret (Some ("Error generating summary: " ++ exn_str e))).

(** [AIAgentDebug.process_request] *)
Definition process_request (self : AIAgentDebug.t) (user_query : string)
  : M RequestResult.t :=
  selection <- _select_tools self user_query ;;
  let '(reasoning, tool_calls) := selection in
  match tool_calls with
  | [] =>
      ret (RequestResult.Build true reasoning [] []
             (Some "No tools were needed for this request."))
  | _ :: _ =>
      results <- _execute_tool_calls tool_calls ;;
      summary <- _generate_summary self user_query reasoning results ;;
      ret (RequestResult.Build true reasoning tool_calls results summary)
  end.

(** The first loop of [get_available_tools_summary]: the tools grouped by
    connector, in the order the connectors first appear. *)
Definition group_by_connector (tools : list AITool.t)
  : list (string * list AITool.t) :=
  fold_left
    (fun connectors tool =>
       let k := AITool.connector_name tool in
       let connectors :=
         if dict_mem k connectors then connectors else dict_set k [] connectors in
       match dict_get k connectors with
       | Some group => dict_set k (group ++ [tool])%list connectors
       | None => connectors
       end)
    tools [].

(** The second loop of [get_available_tools_summary], from the text
    [summary] built so far. *)
Definition render_connectors (connectors : list (string * list AITool.t))
  (summary : string) : string :=
  fold_left
    (fun summary '(connector_name, connector_tools) =>
       let summary := summary ++ "**" ++ connector_name ++ "**" ++ nl in
       let summary :=
         fold_left
           (fun summary tool =>
              summary ++ "- " ++ AITool.name tool ++ ": "
              ++ AITool.description tool ++ nl)
           connector_tools summary in
       summary ++ nl)
    connectors summary.

(** [AIAgentDebug.get_available_tools_summary] *)
Definition get_available_tools_summary : M string :=
  tools <- _get_available_tools ;;
  match tools with
  | [] => ret "No tools are currently available."
  | _ :: _ =>
      ret (render_connectors (group_by_connector tools)
             ("Available tools:" ++ nl ++ nl))
  end.
End Agent.

(** ** What a batch is expected to send

    The request one call sends: none when its connector is not a
    registered name or its client has no session, otherwise one
    [tools/call] to that client's endpoint. *)
Definition expected_posts (d : list (string * MCPClient.t)) (tool_call : ToolCall.t)
  : list Event :=
  match ToolCall.connector_name tool_call with
  | JStr name =>
      match dict_get name d with
      | Some client =>
          match MCPClient.session client with
          | Some sid =>
              [Posted sid (MCPClient.mcp_endpoint client)
                 (tools_call_request (ToolCall.tool_name tool_call)
                    (ToolCall.arguments tool_call))]
          | None => []
          end
      | None => []
      end
  | _ => []
  end.

(** The world after the calls [evs] were made. *)
Definition sent (w : World) (evs : list Event) : World :=
  mkWorld (connectors w) (history w ++ evs).

(** The entry the [except] branch of [_execute_tool_calls] appends. *)
Definition failed (tool_call : ToolCall.t) (reason : string) : Outcome.t :=
  Outcome.Build tool_call false None (Some reason).

(** An entry marked as a success holds a result. *)
Definition holds_result (outcome : Outcome.t) : Prop :=
  Outcome.success outcome = true -> Outcome.result outcome <> None.

(** [reason] contains [name]. *)
Definition mentions (reason name : string) : Prop :=
  is_substring name reason = true.

(** What the two handlers of [_select_tools] make of an answer of the
    reasoning call. *)
Definition selection_of `{O : Outside} (content : string) : json * list ToolCall.t :=
  match parse_selection (clean_response content) with
  | inr selection => selection
  | inl e =>
      if is_JSONDecodeError e then (JStr "Failed to parse tool selection", [])
      else (JStr ("Error in tool selection: " ++ exn_str e), [])
  end.

(** The keys every entry of [tool_calls] is subscripted with. *)
Definition required_keys : list string :=
  ["connector_name"; "tool_name"; "arguments"; "reasoning"].

(** An entry that is an object without one of the required keys. *)
Definition lacks_required_key (entry : json) : Prop :=
  exists fields key,
    entry = JObj fields /\ In key required_keys /\ dict_get key fields = None.

(** [block.get("text", "No text content")] *)
Definition text_of (block : list (string * json)) : json :=
  match dict_get "text" block with
  | Some v => v
  | None => JStr "No text content"
  end.

(** A successful entry for [tool_call] whose result holds [blocks]. *)
Definition succeeded_with (tool_call : ToolCall.t)
  (blocks : list (list (string * json))) (result_error error : option string)
  : Outcome.t :=
  Outcome.Build tool_call true (Some (MCPToolResult.Build blocks result_error)) error.

(** ** What the registry is expected to send and to keep *)

(** The [request_data] of [list_tools] *)
Definition tools_list_request : json :=
  JObj [("jsonrpc", JStr "2.0"); ("id", JInt 1); ("method", JStr "tools/list")].

(** No name is bound twice. *)
Definition unique_keys {V} (d : list (string * V)) : Prop := NoDup (dict_keys d).

(** Every client of the table has a session. *)
Definition all_connected (d : list (string * MCPClient.t)) : Prop :=
  Forall (fun entry => MCPClient.session (snd entry) <> None) d.

(** One [tools/list] per client that has a session, in the order of the
    table. *)
Definition listing (d : list (string * MCPClient.t)) : list Event :=
  flat_map
    (fun entry =>
       match MCPClient.session (snd entry) with
       | Some sid => [Posted sid (MCPClient.mcp_endpoint (snd entry)) tools_list_request]
       | None => []
       end) d.

(** The closing of every session of the table, in the order of the table. *)
Definition closing (d : list (string * MCPClient.t)) : list Event :=
  flat_map
    (fun entry =>
       match MCPClient.session (snd entry) with
       | Some sid => [SessionClosed sid]
       | None => []
       end) d.

(** The body of the loop of [list_all_tools]. *)
Definition list_all_body `{O : Outside} (entry : string * MCPClient.t)
  : list (string * json) -> M (list (string * json)) :=
  let '(name, client) := entry in
  fun result =>
    tools <- list_tools client ;;
    ret (dict_set name tools result).

(** The body of the loop of [close_all]. *)
Definition close_body (name : string) (_ : unit) : M unit := remove_connector name.

(** ** What the agent is expected to build *)

(** The call an entry of [tool_calls] stands for: defined when the entry is
    an object with the four keys. *)
Definition entry_call (entry : json) : option ToolCall.t :=
  match entry with
  | JObj fields =>
      match dict_get "connector_name" fields, dict_get "tool_name" fields,
            dict_get "arguments" fields, dict_get "reasoning" fields with
      | Some c, Some t, Some a, Some r => Some (ToolCall.Build c t a r)
      | _, _, _, _ => None
      end
  | _ => None
  end.

(** An outcome whose three status fields agree: it is a success exactly
    when it carries no error, a success holds a result, and an error
    beside a result is the result's own. *)
Definition consistent (outcome : Outcome.t) : Prop :=
  Outcome.success outcome = is_None (Outcome.error outcome)
  /\ (Outcome.success outcome = true -> Outcome.result outcome <> None)
  /\ (forall r, Outcome.result outcome = Some r ->
                 Outcome.error outcome = MCPToolResult.error r).

(** An event that is a request to a provider or to a reasoning backend. *)
Definition is_request (ev : Event) : Prop :=
  match ev with
  | Posted _ _ _ | GeminiAsked _ _ | AnthropicAsked _ _ _ => True
  | SessionOpened _ | SessionClosed _ => False
  end.

(** An event that is not a call to the Anthropic backend. *)
Definition not_anthropic (ev : Event) : Prop :=
  match ev with
  | AnthropicAsked _ _ _ => False
  | _ => True
  end.

(** A computation that, from any world and whether it returns or raises,
    leaves the registry as it is and only adds events satisfying [P] to the
    history. *)
Definition only_adds {A} (P : Event -> Prop) (c : M A) : Prop :=
  forall w,
    connectors (snd (c w)) = connectors w
    /\ exists evs, history (snd (c w)) = (history w ++ evs)%list /\ Forall P evs.

(** The inner loop body of [_get_available_tools]: the descriptor of one
    listed tool and [tools.append]. *)
Definition add_tool `{O : Outside} (connector_name : string) (tool : json)
  (tools : list AITool.t) : exn + list AITool.t :=
  and_then (py_get tool "name" (JStr "")) (fun n =>
  and_then (py_get tool "description" (JStr "")) (fun d =>
  and_then (py_get tool "inputSchema" (JObj [])) (fun s =>
  and_then (new_AITool n d connector_name s) (fun t =>
  inr (tools ++ [t])%list)))).

(** The outer loop body of [_get_available_tools]. *)
Definition add_connector_tools `{O : Outside} (entry : string * json)
  : list AITool.t -> exn + list AITool.t :=
  let '(connector_name, connector_tools) := entry in
  fun tools =>
    and_then (py_iter connector_tools) (fun items =>
    for_each_pure items (add_tool connector_name) tools).

(** ** Texts without surrounding whitespace *)

(** [s] consists of whitespace only. *)
Fixpoint all_space (s : string) : bool :=
  match s with
  | String c rest => isspace c && all_space rest
  | EmptyString => true
  end.

(** [s] does not begin with whitespace. *)
Definition starts_clean (s : string) : bool :=
  match s with
  | String c _ => negb (isspace c)
  | EmptyString => true
  end.

(** The line of the selection prompt for one tool. *)
Definition tool_line (tool : AITool.t) : string :=
  "- " ++ AITool.name tool ++ " (" ++ AITool.connector_name tool ++ "): "
  ++ AITool.description tool.

(** The line of the tools summary for one tool. *)
Definition summary_line (tool : AITool.t) : string :=
  "- " ++ AITool.name tool ++ ": " ++ AITool.description tool ++ nl.

(** The heading of the tools summary for one connector. *)
Definition summary_heading (connector_name : string) : string :=
  "**" ++ connector_name ++ "**" ++ nl.

(** The step of [group_by_connector] for one tool. *)
Definition group_step (connectors : list (string * list AITool.t))
  (tool : AITool.t) : list (string * list AITool.t) :=
  let k := AITool.connector_name tool in
  let connectors :=
    if dict_mem k connectors then connectors else dict_set k [] connectors in
  match dict_get k connectors with
  | Some group => dict_set k (group ++ [tool])%list connectors
  | None => connectors
  end.

(** What [render_connectors] appends for one connector. *)
Definition connector_text (entry : string * list AITool.t) : string :=
  summary_heading (fst entry)
  ++ fold_left (fun text tool => text ++ summary_line tool) (snd entry) ""
  ++ nl.

(** ** What the summary prompt is expected to be *)

(** The lines of the entries of [results], the first of which has index
    [i]; the fault of the first entry that cannot be rendered. *)
Fixpoint entry_lines `{O : Outside} (i : nat) (results : list Outcome.t)
  : exn + list string :=
  match results with
  | [] => inr []
  | outcome :: rest =>
      match summary_entry i outcome with
      | inl e => inl e
      | inr line =>
          match entry_lines (S i) rest with
          | inl e => inl e
          | inr lines => inr (line :: lines)
          end
      end
  end.

(** The text [_create_summary_prompt] returns around the lines of the
    entries. *)
Definition summary_text `{O : Outside} (user_query : string) (reasoning : json)
  (lines : list string) : string :=
  join nl
    [ "";
      "You are an AI assistant that has executed some tools based on a user's request. Please provide a clear, helpful summary of what was accomplished.";
      "";
      "Original user request: " ++ user_query;
      "";
      "Your reasoning: " ++ py_str reasoning;
      "";
      "Tool execution results:";
      join nl lines;
      "";
      "Please provide a natural language summary of what was accomplished, what the results mean, and any next steps the user might want to take. Be conversational and helpful.";
      "" ].

(** The prompt for the entries [before], an entry rendered as [line], and
    the entries [after]. *)
Definition prompt_around `{O : Outside} (user_query : string) (reasoning : json)
  (before : list Outcome.t) (line : string) (after : list Outcome.t)
  : exn + string :=
  match entry_lines 0 before with
  | inl e => inl e
  | inr lines_before =>
      match entry_lines (length before + 1) after with
      | inl e => inl e
      | inr lines_after =>
          inr (summary_text user_query reasoning
                 (lines_before ++ line :: lines_after)%list)
      end
  end.

(** ** A reference instance of the outside

    Used to run the model on concrete inputs: CPython 3.11's wording of
    faults, a decoder for the part of JSON without [\u] escapes, [NaN] and
    [Infinity] (the decoder's messages are not reproduced), pydantic
    without coercions, and remote parties given as scripts. *)
Module Ref.

Definition fault_str (f : fault) : string :=
  match f with
  | NotIterable ty => "'" ++ ty ++ "' object is not iterable"
  | NotAContainer ty => "argument of type '" ++ ty ++ "' is not iterable"
  | NoAttribute ty attr => "'" ++ ty ++ "' object has no attribute '" ++ attr ++ "'"
  | BadIndex ty =>
      if String.eqb ty "str" then "string indices must be integers, not 'str'"
      else ty ++ " indices must be integers or slices, not str"
  | NotSubscriptable ty => "'" ++ ty ++ "' object is not subscriptable"
  | MissingKey k => "'" ++ k ++ "'"
  | Unhashable ty => "unhashable type: '" ++ ty ++ "'"
  | Unbound var =>
      "cannot access local variable '" ++ var
      ++ "' where it is not associated with a value"
  end.

Definition string_of_Z (n : Z) : string := NilZero.string_of_int (Z.to_int n).

(** [repr(v)]; a string is quoted without escapes. *)
Fixpoint repr (v : json) : string :=
  match v with
  | JNull => "None"
  | JBool true => "True"
  | JBool false => "False"
  | JInt n => string_of_Z n
  | JFloat lexeme => lexeme
  | JStr s => "'" ++ s ++ "'"
  | JArr items => "[" ++ join ", " (map repr items) ++ "]"
  | JObj fields =>
      "{" ++ join ", " (map (fun '(k, x) => "'" ++ k ++ "': " ++ repr x) fields)
      ++ "}"
  end.

(** *** The decoder *)

Definition code (c : ascii) : nat := nat_of_ascii c.

Definition is_digit (c : ascii) : bool :=
  ((48 <=? code c) && (code c <=? 57))%nat.

Definition json_space (c : ascii) : bool :=
  ((code c =? 32) || (code c =? 9) || (code c =? 10) || (code c =? 13))%nat.

Fixpoint skip_ws (s : string) : string :=
  match s with
  | String c rest => if json_space c then skip_ws rest else s
  | EmptyString => EmptyString
  end.

(** The character an escape letter stands for. *)
Definition unescape (c : ascii) : option ascii :=
  match code c with
  | 34 => Some c                   (* a double quote *)
  | 92 => Some c                   (* a backslash *)
  | 47 => Some c                   (* a slash *)
  | 98 => Some (ascii_of_nat 8)    (* b *)
  | 102 => Some (ascii_of_nat 12)  (* f *)
  | 110 => Some (ascii_of_nat 10)  (* n *)
  | 114 => Some (ascii_of_nat 13)  (* r *)
  | 116 => Some (ascii_of_nat 9)   (* t *)
  | _ => None
  end.

(** The text of a string literal after its opening quote, and what
    follows the closing quote. *)
Fixpoint parse_string (s : string) : option (string * string) :=
  match s with
  | EmptyString => None
  | String c rest =>
      if (code c =? 34)%nat then Some (EmptyString, rest)
      else if (code c =? 92)%nat then
        match rest with
        | String e rest' =>
            match unescape e, parse_string rest' with
            | Some c', Some (text, after) => Some (String c' text, after)
            | _, _ => None
            end
        | EmptyString => None
        end
      else if (code c <? 32)%nat then None
      else
        match parse_string rest with
        | Some (text, after) => Some (String c text, after)
        | None => None
        end
  end.

(** The longest prefix of digits, and the rest. *)
Fixpoint span_digits (s : string) : string * string :=
  match s with
  | String c rest =>
      if is_digit c then
        let '(ds, after) := span_digits rest in (String c ds, after)
      else (EmptyString, s)
  | EmptyString => (EmptyString, EmptyString)
  end.

Fixpoint Z_of_digits (acc : Z) (ds : string) : Z :=
  match ds with
  | String c rest => Z_of_digits (10 * acc + Z.of_nat (code c - 48)) rest
  | EmptyString => acc
  end.

(** The digits of an integer part: one zero, or no leading zero. *)
Definition int_digits_ok (ds : string) : bool :=
  match ds with
  | EmptyString => false
  | String c EmptyString => true
  | String c _ => negb (code c =? 48)%nat
  end.

(** An optional fraction, then an optional exponent: the text read and
    the rest, or [None] when one of them is begun and not finished. *)
Definition parse_frac_exp (s : string) : option (string * string) :=
  let frac :=
    match s with
    | String "."%char rest =>
        let '(ds, after) := span_digits rest in
        match ds with
        | EmptyString => None
        | _ => Some ("." ++ ds, after)
        end
    | _ => Some (EmptyString, s)
    end in
  match frac with
  | None => None
  | Some (f, after) =>
      match after with
      | String e rest =>
          if ((code e =? 101) || (code e =? 69))%nat then
            let '(sign, rest') :=
              match rest with
              | String "+"%char r => ("+", r)
              | String "-"%char r => ("-", r)
              | _ => (EmptyString, rest)
              end in
            let '(ds, after') := span_digits rest' in
            match ds with
            | EmptyString => Some (f, after)
            | _ => Some (f ++ String e sign ++ ds, after')
            end
          else Some (f, after)
      | EmptyString => Some (f, after)
      end
  end.

Definition parse_number (s : string) : option (json * string) :=
  let '(negative, body) :=
    match s with
    | String "-"%char rest => (true, rest)
    | _ => (false, s)
    end in
  let '(ds, after) := span_digits body in
  if int_digits_ok ds then
    match parse_frac_exp after with
    | Some (EmptyString, after') =>
        Some (JInt (if negative then - Z_of_digits 0 ds else Z_of_digits 0 ds)%Z,
              after')
    | Some (tail, after') =>
        Some (JFloat ((if negative then "-" else "") ++ ds ++ tail), after')
    | None => None
    end
  else None.

Definition after_prefix (p s : string) : option string :=
  if String.prefix p s then
    Some (substring (String.length p) (String.length s - String.length p) s)
  else None.

Fixpoint parse_value (fuel : nat) (s : string) : option (json * string) :=
  match fuel with
  | O => None
  | S fuel' =>
      match skip_ws s with
      | EmptyString => None
      | String c rest as s' =>
          if (code c =? 123)%nat then          (* an object *)
            match skip_ws rest with
            | String "}"%char after => Some (JObj [], after)
            | members => parse_members fuel' members []
            end
          else if (code c =? 91)%nat then      (* an array *)
            match skip_ws rest with
            | String "]"%char after => Some (JArr [], after)
            | items => parse_items fuel' items []
            end
          else if (code c =? 34)%nat then
            match parse_string rest with
            | Some (text, after) => Some (JStr text, after)
            | None => None
            end
          else
            match after_prefix "true" s', after_prefix "false" s',
                  after_prefix "null" s' with
            | Some after, _, _ => Some (JBool true, after)
            | _, Some after, _ => Some (JBool false, after)
            | _, _, Some after => Some (JNull, after)
            | _, _, _ => parse_number s'
            end
      end
  end

with parse_items (fuel : nat) (s : string) (acc : list json)
  : option (json * string) :=
  match fuel with
  | O => None
  | S fuel' =>
      match parse_value fuel' s with
      | Some (v, after) =>
          match skip_ws after with
          | String ","%char more => parse_items fuel' more (acc ++ [v])
          | String "]"%char more => Some (JArr (acc ++ [v]), more)
          | _ => None
          end
      | None => None
      end
  end

with parse_members (fuel : nat) (s : string) (acc : list (string * json))
  : option (json * string) :=
  match fuel with
  | O => None
  | S fuel' =>
      match skip_ws s with
      | String q rest =>
          if (code q =? 34)%nat then
            match parse_string rest with
            | Some (k, after) =>
                match skip_ws after with
                | String ":"%char more =>
                    match parse_value fuel' more with
                    | Some (v, after') =>
                        match skip_ws after' with
                        | String ","%char more' =>
                            parse_members fuel' more' (dict_set k v acc)
                        | String "}"%char more' =>
                            Some (JObj (dict_set k v acc), more')
                        | _ => None
                        end
                    | None => None
                    end
                | _ => None
                end
            | None => None
            end
          else None
      | EmptyString => None
      end
  end.

Definition json_loads (s : string) : exn + json :=
  match parse_value (S (String.length s)) s with
  | Some (v, after) =>
      match skip_ws after with
      | EmptyString => inr v
      | _ => inl (Exn JSONDecodeError "Extra data")
      end
  | None => inl (Exn JSONDecodeError "Expecting value")
  end.

(** The instance, for given scripts of the session and the backends. *)
Definition outside
  (session_post : list Event -> nat -> string -> json -> exn + json)
  (gemini_generate : list Event -> string -> string -> exn + string)
  (anthropic_create : list Event -> string -> nat -> string -> exn + string)
  : Outside :=
  Build_Outside fault_str repr json_loads
    (fun _ => None) (fun _ => None) (fun _ => None)
    (fun model _ => "validation error for " ++ model)
    session_post gemini_generate anthropic_create.
End Ref.

(** ** Sample runs

    Concrete worlds and scripts on which the model is run. *)
Module Sample.

Definition refuse_post : list Event -> nat -> string -> json -> exn + json :=
  fun _ _ _ _ => inl (Exn (LibraryError "ClientConnectorError") "Cannot connect to host").

Definition no_anthropic : list Event -> string -> nat -> string -> exn + string :=
  fun _ _ _ _ => inl (Exn (LibraryError "APIConnectionError") "Connection error.").

(** A backend that always answers [text]. *)
Definition gemini_says (text : string) : list Event -> string -> string -> exn + string :=
  fun _ _ _ => inr text.

(** A backend that is down. *)
Definition gemini_down : list Event -> string -> string -> exn + string :=
  fun _ _ _ => inl (Exn (LibraryError "ServiceUnavailable") "backend down").

Definition is_GeminiAsked (ev : Event) : bool :=
  match ev with GeminiAsked _ _ => true | _ => false end.

(** A backend that answers [text] once and is down afterwards. *)
Definition gemini_once (text : string) : list Event -> string -> string -> exn + string :=
  fun h _ _ =>
    if existsb is_GeminiAsked h
    then inl (Exn (LibraryError "ResourceExhausted") "quota exceeded")
    else inr text.

(** The [method] of a request, and the tool a [tools/call] names. *)
Definition method_of (body : json) : string :=
  match body with
  | JObj fields =>
      match dict_get "method" fields with
      | Some (JStr m) => m
      | _ => ""
      end
  | _ => ""
  end.

Definition tool_of (body : json) : string :=
  match body with
  | JObj fields =>
      match dict_get "params" fields with
      | Some (JObj params) =>
          match dict_get "name" params with
          | Some (JStr n) => n
          | _ => ""
          end
      | _ => ""
      end
  | _ => ""
  end.

(** A provider with one tool, [start_workflow]; it reports an error for
    [register_actor]. *)
Definition workflow_provider : list Event -> nat -> string -> json -> exn + json :=
  fun _ _ _ body =>
    if String.eqb (method_of body) "tools/list" then
      inr (JObj [("jsonrpc", JStr "2.0"); ("id", JInt 1);
                 ("result",
                  JObj [("tools",
                         JArr [JObj [("name", JStr "start_workflow");
                                     ("description", JStr "Start a workflow");
                                     ("inputSchema", JObj [])]])])])
    else if String.eqb (tool_of body) "register_actor" then
      inr (JObj [("jsonrpc", JStr "2.0"); ("id", JInt 1);
                 ("error", JObj [("code", JInt (-32000));
                                 ("message", JStr "actor already registered")])])
    else
      inr (JObj [("jsonrpc", JStr "2.0"); ("id", JInt 1);
                 ("result",
                  JObj [("content",
                         JArr [JObj [("type", JStr "text");
                                     ("text", JStr "started")]])])]).

(** The object [{"reasoning": "one step", "tool_calls": [call]}] with a
    single well-formed call, as text. *)
Definition one_call : string :=
  "{" ++ quoted "reasoning" ++ ": " ++ quoted "one step" ++ ", "
  ++ quoted "tool_calls" ++ ": [{" ++ quoted "connector_name" ++ ": "
  ++ quoted "wf" ++ ", " ++ quoted "tool_name" ++ ": " ++ quoted "start_workflow"
  ++ ", " ++ quoted "arguments" ++ ": {" ++ quoted "title" ++ ": "
  ++ quoted "Demo" ++ "}, " ++ quoted "reasoning" ++ ": " ++ quoted "r1" ++ "}]}".

(** The same call followed by an entry without [arguments]. *)
Definition one_call_one_malformed : string :=
  "{" ++ quoted "reasoning" ++ ": " ++ quoted "two steps" ++ ", "
  ++ quoted "tool_calls" ++ ": [{" ++ quoted "connector_name" ++ ": "
  ++ quoted "wf" ++ ", " ++ quoted "tool_name" ++ ": " ++ quoted "start_workflow"
  ++ ", " ++ quoted "arguments" ++ ": {" ++ quoted "title" ++ ": "
  ++ quoted "Demo" ++ "}, " ++ quoted "reasoning" ++ ": " ++ quoted "r1" ++ "}, {"
  ++ quoted "connector_name" ++ ": " ++ quoted "wf" ++ ", "
  ++ quoted "tool_name" ++ ": " ++ quoted "register_actor" ++ ", "
  ++ quoted "reasoning" ++ ": " ++ quoted "r2" ++ "}]}".

(** [text] inside a fence without a language tag. *)
Definition bare_fenced (text : string) : string :=
  "```" ++ nl ++ text ++ nl ++ "```".

(** [text] inside a fence tagged [json]. *)
Definition json_fenced (text : string) : string :=
  "```json" ++ nl ++ text ++ nl ++ "```".

Definition the_call : ToolCall.t :=
  ToolCall.Build (JStr "wf") (JStr "start_workflow")
    (JObj [("title", JStr "Demo")]) (JStr "r1").

Definition ghost_call : ToolCall.t :=
  ToolCall.Build (JStr "ghost") (JStr "start_workflow") (JObj []) (JStr "r0").

Definition rejected_call : ToolCall.t :=
  ToolCall.Build (JStr "wf") (JStr "register_actor")
    (JObj [("name", JStr "Alice"); ("role", JStr "DBA")]) (JStr "r2").

Definition agent : AIAgentDebug.t :=
  AIAgentDebug.Build "gemini-1.5-flash" (Some "gemini-1.5-flash") None.

(** No connector, nothing done yet. *)
Definition empty : World := mkWorld [] [].

(** The world after [add_connector("wf", "http://localhost:3000/")]. *)
Definition with_wf : World :=
  snd (add_connector "wf" "http://localhost:3000/" empty).

(** The outside where the backend answers [text] to every prompt. *)
Definition answering (text : string) : Outside :=
  Ref.outside workflow_provider (gemini_says text) no_anthropic.

(** The outside where the backend is down. *)
Definition down : Outside :=
  Ref.outside workflow_provider gemini_down no_anthropic.

(** The outside where no provider can be reached. *)
Definition unreachable : Outside :=
  Ref.outside refuse_post (gemini_says "{}") no_anthropic.

(** The outside where the backend answers [text] once. *)
Definition answering_once (text : string) : Outside :=
  Ref.outside workflow_provider (gemini_once text) no_anthropic.

(** The two entries of [one_call_one_malformed], decoded. *)
Definition well_formed_entry : json :=
  JObj [("connector_name", JStr "wf"); ("tool_name", JStr "start_workflow");
        ("arguments", JObj [("title", JStr "Demo")]); ("reasoning", JStr "r1")].

Definition malformed_entry : json :=
  JObj [("connector_name", JStr "wf"); ("tool_name", JStr "register_actor");
        ("reasoning", JStr "r2")].

Definition two_steps : list (string * json) :=
  [("reasoning", JStr "two steps");
   ("tool_calls", JArr [well_formed_entry; malformed_entry])].

(** The empty world after the backend was asked to select for [hi]. *)
Definition asked : World :=
  sent empty
    [GeminiAsked "gemini-1.5-flash" (_create_tool_selection_prompt "hi" [])].

(** A request whose summary call finds the backend down. *)
Definition once : Outside := answering_once one_call.

Definition query : string := "Start the Demo workflow".

Definition selected : World :=
  snd (_select_tools (O := once) agent query with_wf).

Definition executed : World :=
  snd (_execute_tool_calls (O := once) [the_call] selected).

Definition started_outcome : Outcome.t :=
  succeeded_with the_call [[("type", JStr "text"); ("text", JStr "started")]]
    None None.

Definition started : list Outcome.t := [started_outcome].

(** The request [call_tool] sends for [tool_call] through the session of
    [with_wf]. *)
Definition posted (tool_call : ToolCall.t) : Event :=
  Posted 0 "http://localhost:3000/mcp"
    (tools_call_request (ToolCall.tool_name tool_call)
       (ToolCall.arguments tool_call)).

(** The client [with_wf] binds to [wf]. *)
Definition wf_client : MCPClient.t :=
  MCPClient.Build "http://localhost:3000" "http://localhost:3000/mcp" (Some 0).

(** The call [call_tool] posts for [the_call], and the listing request. *)
Definition start_request : json :=
  tools_call_request (JStr "start_workflow") (JObj [("title", JStr "Demo")]).

(** A provider whose errors carry a [null] message. *)
Definition null_error_provider : list Event -> nat -> string -> json -> exn + json :=
  fun _ _ _ _ => inr (JObj [("error", JObj [("message", JNull)])]).

Definition null_error : Outside :=
  Ref.outside null_error_provider (gemini_says "{}") no_anthropic.

(** A provider whose tool list holds a string instead of an object. *)
Definition sloppy_provider : list Event -> nat -> string -> json -> exn + json :=
  fun _ _ _ _ => inr (JObj [("result", JObj [("tools", JArr [JStr "oops"])])]).

Definition sloppy : Outside :=
  Ref.outside sloppy_provider (gemini_says "{}") no_anthropic.

(** The descriptor of the tool [workflow_provider] lists. *)
Definition start_tool : AITool.t :=
  AITool.Build "start_workflow" "Start a workflow" "wf" [].

(** What [workflow_provider] answers to a listing, to [start_workflow] and
    to [register_actor]. *)
Definition listing_result : list (string * json) :=
  [("tools",
    JArr [JObj [("name", JStr "start_workflow");
                ("description", JStr "Start a workflow");
                ("inputSchema", JObj [])]])].

Definition listing_answer : list (string * json) :=
  [("jsonrpc", JStr "2.0"); ("id", JInt 1); ("result", JObj listing_result)].

Definition started_block : list (string * json) :=
  [("type", JStr "text"); ("text", JStr "started")].

Definition started_result : list (string * json) :=
  [("content", JArr [JObj started_block])].

Definition started_answer : list (string * json) :=
  [("jsonrpc", JStr "2.0"); ("id", JInt 1); ("result", JObj started_result)].

Definition rejected_error : list (string * json) :=
  [("code", JInt (-32000)); ("message", JStr "actor already registered")].

Definition rejected_answer : list (string * json) :=
  [("jsonrpc", JStr "2.0"); ("id", JInt 1); ("error", JObj rejected_error)].

(** [with_wf] after its provider was asked for its tools. *)
Definition listed : World :=
  sent with_wf [Posted 0 "http://localhost:3000/mcp" tools_list_request].
End Sample.

(** * Properties *)

Ltac break_match :=
  match goal with
  | |- context [match ?x with _ => _ end] =>
      lazymatch x with
      | context [match _ with _ => _ end] => fail
      | _ => destruct x eqn:?
      end
  end.

Section Properties.
Context `{O : Outside}.

(** ** The monad *)

Lemma bind_ret_l {A B} (a : A) (k : A -> M B) (w : World) :
  bind (ret a) k w = k a w.
Proof. reflexivity. Qed.

Lemma bind_inr {A B} (c : M A) (k : A -> M B) w a w' :
  c w = (inr a, w') -> bind c k w = k a w'.
Proof. intros Hc. unfold bind. rewrite Hc. reflexivity. Qed.

Lemma bind_inl {A B} (c : M A) (k : A -> M B) w e w' :
  c w = (inl e, w') -> bind c k w = (inl e, w').
Proof. intros Hc. unfold bind. rewrite Hc. reflexivity. Qed.

Lemma lift_run {A} (r : exn + A) (w : World) : lift r w = (r, w).
Proof. destruct r; reflexivity. Qed.

(** ** The registry's client *)

Lemma sent_nil w : sent w [] = w.
Proof. destruct w. unfold sent. simpl. rewrite app_nil_r. reflexivity. Qed.

Lemma sent_sent w evs evs' : sent (sent w evs) evs' = sent w (evs ++ evs').
Proof. unfold sent. simpl. rewrite app_assoc. reflexivity. Qed.

(** With a session, [call_tool] posts once and returns a result, whatever
    the reply. *)
Lemma call_tool_returns (self : MCPClient.t) sid tool_name arguments w :
  MCPClient.session self = Some sid ->
  exists r,
    call_tool self tool_name arguments w
    = (inr r, sent w [Posted sid (MCPClient.mcp_endpoint self)
                        (tools_call_request tool_name arguments)]).
Proof.
  intros Hs. unfold call_tool. rewrite Hs.
  unfold try_except, bind, post, sent.
  destruct (session_post _ _ _ _) as [e | result]; simpl.
  - eexists. reflexivity.
  - repeat (rewrite lift_run; simpl);
      repeat (break_match; simpl; try rewrite lift_run; simpl);
      try (eexists; reflexivity);
      match goal with
      | Hl : lift _ _ = _ |- _ => rewrite lift_run in Hl; inversion Hl; subst
      end;
      try (eexists; reflexivity).
Qed.

(** ** One call of a batch *)

(** A call whose connector is a name the registry does not have fails
    with the [ValueError] of [call_tool_on_connector], and sends nothing. *)
Lemma execute_one_unregistered tool_call name w :
  ToolCall.connector_name tool_call = JStr name ->
  dict_get name (connectors w) = None ->
  execute_one tool_call w
  = (inr (failed tool_call ("Connector '" ++ name ++ "' not found")), w).
Proof.
  intros Hn Hd.
  unfold execute_one, try_except, call_tool_on_connector, bind, get_connectors.
  rewrite Hn. simpl. unfold dict_mem. rewrite Hd. reflexivity.
Qed.

(** Every call yields an outcome that carries the call, and sends what
    [expected_posts] says; no exception leaves the loop body. *)
Lemma execute_one_returns tool_call w :
  exists outcome,
    execute_one tool_call w
    = (inr outcome, sent w (expected_posts (connectors w) tool_call))
    /\ Outcome.tool_call outcome = tool_call
    /\ holds_result outcome.
Proof.
  assert (Hfailed : forall reason, holds_result (failed tool_call reason))
    by (intros reason Hs; discriminate Hs).
  unfold execute_one, try_except, call_tool_on_connector, bind, get_connectors,
    expected_posts.
  destruct (ToolCall.connector_name tool_call) eqn:Hn; simpl;
    try (rewrite sent_nil; eexists; repeat split; apply Hfailed).
  unfold dict_mem.
  destruct (dict_get s (connectors w)) as [client |] eqn:Hd; simpl.
  - destruct (MCPClient.session client) as [sid |] eqn:Hs.
    + destruct (call_tool_returns client sid (ToolCall.tool_name tool_call)
                  (ToolCall.arguments tool_call) w Hs) as [r Hr].
      rewrite Hr. eexists; repeat split. intros _; discriminate.
    + unfold call_tool. rewrite Hs. simpl.
      rewrite sent_nil. eexists; repeat split; apply Hfailed.
  - rewrite sent_nil. eexists; repeat split; apply Hfailed.
Qed.

(** ** The batch *)

Lemma for_each_app {A S} (xs ys : list A) (body : A -> S -> M S) :
  forall acc w,
    for_each (xs ++ ys) body acc w
    = bind (for_each xs body acc) (fun acc' => for_each ys body acc') w.
Proof.
  induction xs as [| x xs IH]; intros acc w.
  - reflexivity.
  - simpl. unfold bind.
    destruct (body x acc w) as [[e | acc'] w1].
    + reflexivity.
    + rewrite IH. reflexivity.
Qed.

Lemma enumerate_from_app {A} (xs ys : list A) :
  forall i,
    enumerate_from i (xs ++ ys)
    = (enumerate_from i xs ++ enumerate_from (i + length xs) ys)%list.
Proof.
  induction xs as [| x xs IH]; intros i; simpl.
  - rewrite Nat.add_0_r. reflexivity.
  - rewrite IH. rewrite Nat.add_succ_r. reflexivity.
Qed.

Lemma execute_body_run i tool_call results w outcome w' :
  execute_one tool_call w = (inr outcome, w') ->
  execute_body (i, tool_call) results w = (inr (results ++ [outcome])%list, w').
Proof.
  intros Hrun. unfold execute_body, bind. rewrite Hrun. reflexivity.
Qed.

(** The loop over a batch, started at any index with any list collected
    so far: it ends, appends one outcome per call in the order of the
    calls (the same outcomes wherever it starts), and sends the calls'
    requests in that order. *)
Lemma execute_loop tool_calls :
  forall w,
  exists outcomes,
    map Outcome.tool_call outcomes = tool_calls
    /\ Forall holds_result outcomes
    /\ forall i results,
        for_each (enumerate_from i tool_calls) execute_body results w
        = (inr (results ++ outcomes)%list,
           sent w (flat_map (expected_posts (connectors w)) tool_calls)).
Proof.
  induction tool_calls as [| tool_call rest IH]; intros w.
  - exists []. split; [reflexivity |]. split; [constructor |].
    intros i results. simpl.
    rewrite sent_nil, app_nil_r. reflexivity.
  - destruct (execute_one_returns tool_call w) as (outcome & Hrun & Hcall & Hwf).
    destruct (IH (sent w (expected_posts (connectors w) tool_call)))
      as (outcomes & Hcalls & Hwfs & Hrest).
    exists (outcome :: outcomes). split; [| split].
    + simpl. rewrite Hcall, Hcalls. reflexivity.
    + constructor; assumption.
    + intros i results.
      change (for_each (enumerate_from i (tool_call :: rest)) execute_body results w)
        with (bind (execute_body (i, tool_call) results)
                (fun acc' => for_each (enumerate_from (S i) rest) execute_body acc') w).
      rewrite (bind_inr _ _ _ _ _ (execute_body_run i _ results _ _ _ Hrun)).
      rewrite Hrest. rewrite sent_sent. simpl.
      rewrite <- app_assoc. reflexivity.
Qed.

Lemma _execute_tool_calls_returns tool_calls w :
  exists outcomes,
    _execute_tool_calls tool_calls w
    = (inr outcomes, sent w (flat_map (expected_posts (connectors w)) tool_calls))
    /\ map Outcome.tool_call outcomes = tool_calls
    /\ Forall holds_result outcomes.
Proof.
  destruct (execute_loop tool_calls w) as (outcomes & Hcalls & Hwf & Hrun).
  exists outcomes. split; [exact (Hrun 0 []) | split; assumption].
Qed.

(** A batch is run call by call: what comes after a call is run from the
    world that call left, whatever its outcome. *)
Lemma _execute_tool_calls_split before tool_call after w :
  exists done outcome rest w1 w2 w3,
    _execute_tool_calls before w = (inr done, w1)
    /\ execute_one tool_call w1 = (inr outcome, w2)
    /\ _execute_tool_calls after w2 = (inr rest, w3)
    /\ _execute_tool_calls (before ++ tool_call :: after) w
       = (inr (done ++ outcome :: rest)%list, w3).
Proof.
  destruct (execute_loop before w) as (done & _ & _ & Hdone).
  set (w1 := sent w (flat_map (expected_posts (connectors w)) before)) in *.
  destruct (execute_one_returns tool_call w1) as (outcome & Hone & _ & _).
  set (w2 := sent w1 (expected_posts (connectors w1) tool_call)) in *.
  destruct (execute_loop after w2) as (rest & _ & _ & Hrest).
  exists done, outcome, rest, w1, w2,
    (sent w2 (flat_map (expected_posts (connectors w2)) after)).
  split; [exact (Hdone 0 []) |].
  split; [exact Hone |].
  split; [exact (Hrest 0 []) |].
  unfold _execute_tool_calls, enumerate.
  rewrite enumerate_from_app, for_each_app.
  rewrite (bind_inr _ _ _ _ _ (Hdone 0 [])).
  change (enumerate_from (0 + length before) (tool_call :: after))
    with ((0 + length before, tool_call)
            :: enumerate_from (S (0 + length before)) after).
  change (for_each ((0 + length before, tool_call)
                      :: enumerate_from (S (0 + length before)) after)
            execute_body ([] ++ done)%list w1)
    with (bind (execute_body (0 + length before, tool_call) ([] ++ done)%list)
            (fun acc' =>
               for_each (enumerate_from (S (0 + length before)) after)
                 execute_body acc') w1).
  rewrite (bind_inr _ _ _ _ _ (execute_body_run _ _ _ _ _ _ Hone)).
  rewrite Hrest. simpl. rewrite <- app_assoc. reflexivity.
Qed.

(** C1. For every list of tool calls and every state of the world,
    [_execute_tool_calls] returns (it raises nothing) a list with exactly
    one outcome per call, the outcome at index [i] carrying the call at
    index [i].  The calls are dispatched one after the other in the order
    of the list: the requests added to the history are those of the
    calls, in that order, after which the registry is as before.  Since
    this holds whatever each dispatch answers or raises, a failed call
    stops nothing: the batch made of the calls after it is run from the
    world the failed call left. *)
Theorem execute_tool_calls_one_outcome_per_call :
  forall (tool_calls : list ToolCall.t) (w : World),
  exists (outcomes : list Outcome.t) (w' : World),
    _execute_tool_calls tool_calls w = (inr outcomes, w')
    /\ length outcomes = length tool_calls
    /\ (forall i tool_call,
          nth_error tool_calls i = Some tool_call ->
          exists outcome,
            nth_error outcomes i = Some outcome
            /\ Outcome.tool_call outcome = tool_call)
    /\ connectors w' = connectors w
    /\ history w'
       = (history w ++ flat_map (expected_posts (connectors w)) tool_calls)%list
    /\ (forall before tool_call after,
          tool_calls = (before ++ tool_call :: after)%list ->
          exists done outcome rest w1 w2,
            _execute_tool_calls before w = (inr done, w1)
            /\ execute_one tool_call w1 = (inr outcome, w2)
            /\ _execute_tool_calls after w2 = (inr rest, w')
            /\ outcomes = (done ++ outcome :: rest)%list).
Proof.
  intros tool_calls w.
  destruct (_execute_tool_calls_returns tool_calls w)
    as (outcomes & Hrun & Hcalls & _).
  exists outcomes, (sent w (flat_map (expected_posts (connectors w)) tool_calls)).
  split; [exact Hrun |].
  split; [rewrite <- Hcalls; symmetry; apply length_map |].
  split.
  { intros i tool_call Hi. rewrite <- Hcalls, nth_error_map in Hi.
    destruct (nth_error outcomes i) as [outcome |]; [| discriminate].
    exists outcome. split; [reflexivity |]. simpl in Hi. congruence. }
  split; [reflexivity |].
  split; [reflexivity |].
  intros before tool_call after Hsplit.
  destruct (_execute_tool_calls_split before tool_call after w)
    as (done & outcome & rest & w1 & w2 & w3 & Hb & Ho & Ha & Hall).
  rewrite <- Hsplit, Hrun in Hall.
  injection Hall as Houtcomes Hw.
  exists done, outcome, rest, w1, w2.
  rewrite Hw. repeat split; assumption.
Qed.

(** ** An unregistered connector *)

Lemma prefix_app (p rest : string) : String.prefix p (p ++ rest) = true.
Proof.
  induction p as [| c p IH]; simpl.
  - destruct rest; reflexivity.
  - destruct (ascii_dec c c) as [_ | Hc]; [exact IH | contradiction].
Qed.

Lemma is_substring_unfold (p s : string) :
  is_substring p s
  = String.prefix p s
    || match s with
       | String _ rest => is_substring p rest
       | EmptyString => false
       end.
Proof. destruct s; reflexivity. Qed.

Lemma mentions_inside (before name after : string) :
  mentions (before ++ name ++ after) name.
Proof.
  unfold mentions. induction before as [| c before IH].
  - simpl. rewrite is_substring_unfold, prefix_app. reflexivity.
  - rewrite is_substring_unfold. simpl. rewrite IH. apply orb_true_r.
Qed.

(** C7. A call of a batch whose connector name is not in the registry
    when the batch starts gets, at its place, an outcome with
    [success = False], no result, and the error text
    [Connector '<name>' not found], which contains the name.  The batch
    raises nothing, the failing call sends nothing, and the calls after
    it are run exactly as they are from the world the calls before it
    left. *)
Theorem unregistered_connector_outcome :
  forall (before after : list ToolCall.t) (tool_call : ToolCall.t)
         (name : string) (w : World),
    ToolCall.connector_name tool_call = JStr name ->
    dict_get name (connectors w) = None ->
    exists (done rest : list Outcome.t) (w1 w2 : World) (reason : string),
      _execute_tool_calls before w = (inr done, w1)
      /\ connectors w1 = connectors w
      /\ _execute_tool_calls after w1 = (inr rest, w2)
      /\ _execute_tool_calls (before ++ tool_call :: after) w
         = (inr (done ++ Outcome.Build tool_call false None (Some reason) :: rest)%list,
            w2)
      /\ reason = "Connector '" ++ name ++ "' not found"
      /\ mentions reason name.
Proof.
  intros before after tool_call name w Hname Hnone.
  destruct (_execute_tool_calls_split before tool_call after w)
    as (done & outcome & rest & w1 & w2 & w3 & Hb & Ho & Ha & Hall).
  destruct (_execute_tool_calls_returns before w) as (done' & Hb' & _).
  rewrite Hb in Hb'. injection Hb' as _ Hw1.
  assert (Hnone1 : dict_get name (connectors w1) = None)
    by (rewrite Hw1; exact Hnone).
  rewrite (execute_one_unregistered tool_call name w1 Hname Hnone1) in Ho.
  injection Ho as Houtcome Hw2. subst outcome w2.
  exists done, rest, w1, w3, ("Connector '" ++ name ++ "' not found").
  repeat split; try assumption.
  - rewrite Hw1. reflexivity.
  - apply mentions_inside.
Qed.

(** ** Unregistering *)

Lemma dict_get_del {V} (name : string) (d : list (string * V)) :
  dict_get name (dict_del name d) = None.
Proof.
  induction d as [| [k v] d IH]; simpl.
  - reflexivity.
  - destruct (String.eqb name k) eqn:Hk; simpl; [| rewrite Hk]; exact IH.
Qed.

(** A registered name: the client's session, if it has one, is closed
    and the entry leaves the table. *)
Lemma remove_connector_registered (name : string) (client : MCPClient.t) w :
  dict_get name (connectors w) = Some client ->
  remove_connector name w
  = (inr tt,
     mkWorld (dict_del name (connectors w))
       (history w
        ++ match MCPClient.session client with
           | Some sid => [SessionClosed sid]
           | None => []
           end))
  /\ dict_get name (dict_del name (connectors w)) = None.
Proof.
  intros Hd. split; [| apply dict_get_del].
  unfold remove_connector, bind, get_connectors. rewrite Hd.
  unfold __aexit__. destruct (MCPClient.session client); simpl.
  - reflexivity.
  - rewrite app_nil_r. reflexivity.
Qed.

(** C9. For a name the registry does not have, [remove_connector]
    raises nothing: it returns [None] and leaves the registry and the
    history as they were. *)
Theorem remove_connector_unknown_name_is_silent :
  forall (name : string) (w : World),
    dict_get name (connectors w) = None ->
    remove_connector name w = (inr tt, w).
Proof.
  intros name w Hd. unfold remove_connector, bind, get_connectors.
  rewrite Hd. reflexivity.
Qed.

(** ** Selection *)

Lemma and_then_inl {A B} (e : exn) (k : A -> exn + B) :
  and_then (inl e) k = inl e.
Proof. reflexivity. Qed.

Lemma _select_tools_catalog_raised self user_query w e w1 :
  _get_available_tools w = (inl e, w1) ->
  _select_tools self user_query w = (inl e, w1).
Proof.
  intros Hc. unfold _select_tools. apply bind_inl. exact Hc.
Qed.

(** The reasoning call raised: the [except Exception] branch. *)
Lemma _select_tools_backend_raised self user_query w tools w1 e w2 :
  _get_available_tools w = (inr tools, w1) ->
  ask_for_selection self (_create_tool_selection_prompt user_query tools) w1
  = (inl e, w2) ->
  _select_tools self user_query w
  = (inr (JStr ("Error in tool selection: " ++ exn_str e), []), w2).
Proof.
  intros Hc Ha. unfold _select_tools.
  rewrite (bind_inr _ _ _ _ _ Hc).
  unfold try_except. rewrite (bind_inl _ _ _ _ _ Ha). reflexivity.
Qed.

(** The reasoning call answered. *)
Lemma _select_tools_backend_answered self user_query w tools w1 content w2 :
  _get_available_tools w = (inr tools, w1) ->
  ask_for_selection self (_create_tool_selection_prompt user_query tools) w1
  = (inr content, w2) ->
  _select_tools self user_query w = (inr (selection_of content), w2).
Proof.
  intros Hc Ha. unfold _select_tools.
  rewrite (bind_inr _ _ _ _ _ Hc).
  unfold try_except. rewrite (bind_inr _ _ _ _ _ Ha).
  unfold try_except_when, selection_of. rewrite lift_run.
  destruct (parse_selection (clean_response content)) as [e | selection].
  - destruct (is_JSONDecodeError e); reflexivity.
  - reflexivity.
Qed.

(** Once the catalogue is there, selection returns. *)
Lemma _select_tools_returns self user_query w tools w1 :
  _get_available_tools w = (inr tools, w1) ->
  exists selection w2, _select_tools self user_query w = (inr selection, w2).
Proof.
  intros Hc.
  destruct (ask_for_selection self
              (_create_tool_selection_prompt user_query tools) w1)
    as [[e | content] w2] eqn:Ha.
  - eexists _, _. eapply _select_tools_backend_raised; eassumption.
  - eexists _, _. eapply _select_tools_backend_answered; eassumption.
Qed.

(** ** Summarising *)

Lemma summary_entry_returns i outcome :
  holds_result outcome -> exists line, summary_entry i outcome = inr line.
Proof.
  intros Hwf. unfold summary_entry.
  destruct (Outcome.success outcome) eqn:Hs.
  - destruct (Outcome.result outcome) as [result |] eqn:Hr.
    + destruct (MCPToolResult.content result); eexists; reflexivity.
    + exfalso. apply (Hwf Hs). exact Hr.
  - eexists; reflexivity.
Qed.

Lemma summary_loop_returns results :
  Forall holds_result results ->
  forall i acc,
  exists lines,
    for_each_pure (enumerate_from i results) summary_body acc = inr lines.
Proof.
  induction 1 as [| outcome results Hwf _ IH]; intros i acc; simpl.
  - eexists; reflexivity.
  - destruct (summary_entry_returns i outcome Hwf) as [line Hline].
    rewrite Hline. simpl. apply IH.
Qed.

(** On the entries a batch returns, the summary prompt is built without
    a fault. *)
Lemma _create_summary_prompt_returns user_query reasoning results :
  Forall holds_result results ->
  exists prompt, _create_summary_prompt user_query reasoning results = inr prompt.
Proof.
  intros Hwf. unfold _create_summary_prompt.
  destruct (summary_loop_returns results Hwf 0 []) as [lines Hlines].
  unfold enumerate. rewrite Hlines.
  eexists; reflexivity.
Qed.

Lemma _generate_summary_returns self user_query reasoning results w :
  Forall holds_result results ->
  exists summary w', _generate_summary self user_query reasoning results w
                     = (inr summary, w').
Proof.
  intros Hwf.
  destruct (_create_summary_prompt_returns user_query reasoning results Hwf)
    as [prompt Hp].
  unfold _generate_summary. rewrite Hp. cbn [lift]. rewrite bind_ret_l.
  unfold try_except.
  destruct (ask_for_summary self prompt w) as [[e | text] w'];
    eexists _, _; reflexivity.
Qed.

(** The reasoning call of the summary raised: the [except] branch. *)
Lemma _generate_summary_backend_raised self user_query reasoning results
  prompt w e w' :
  _create_summary_prompt user_query reasoning results = inr prompt ->
  ask_for_summary self prompt w = (inl e, w') ->
  _generate_summary self user_query reasoning results w
  = (inr (Some ("Error generating summary: " ++ exn_str e)), w').
Proof.
  intros Hp Ha. unfold _generate_summary. rewrite Hp. cbn [lift].
  rewrite bind_ret_l.
  unfold try_except. rewrite Ha. reflexivity.
Qed.

(** ** The whole request *)

Lemma process_request_without_calls self user_query w reasoning w1 :
  _select_tools self user_query w = (inr (reasoning, []), w1) ->
  process_request self user_query w
  = (inr (RequestResult.Build true reasoning [] []
            (Some "No tools were needed for this request.")), w1).
Proof.
  intros Hs. unfold process_request. rewrite (bind_inr _ _ _ _ _ Hs).
  reflexivity.
Qed.

Lemma process_request_with_calls self user_query w reasoning tool_calls w1
  results w2 summary w3 :
  _select_tools self user_query w = (inr (reasoning, tool_calls), w1) ->
  tool_calls <> [] ->
  _execute_tool_calls tool_calls w1 = (inr results, w2) ->
  _generate_summary self user_query reasoning results w2 = (inr summary, w3) ->
  process_request self user_query w
  = (inr (RequestResult.Build true reasoning tool_calls results summary), w3).
Proof.
  intros Hs Hne He Hg. unfold process_request.
  rewrite (bind_inr _ _ _ _ _ Hs).
  destruct tool_calls as [| tool_call rest]; [contradiction |].
  rewrite (bind_inr _ _ _ _ _ He), (bind_inr _ _ _ _ _ Hg). reflexivity.
Qed.

(** A fault while the catalogue is fetched is the one case in which
    [process_request] raises: [_get_available_tools] is called before the
    [try] of [_select_tools]. *)
Lemma process_request_catalog_raised self user_query w e w1 :
  _get_available_tools w = (inl e, w1) ->
  process_request self user_query w = (inl e, w1).
Proof.
  intros Hc. unfold process_request. apply bind_inl.
  apply _select_tools_catalog_raised. exact Hc.
Qed.

(** C5. When selection yields no tool call, [process_request] returns a
    result with no calls, no outcomes and the narrative
    [No tools were needed for this request.], in the very world selection
    left: nothing is dispatched and the reasoning backend is not asked
    for a summary. *)
Theorem no_calls_short_circuit :
  forall (self : AIAgentDebug.t) (user_query : string) (w w1 : World)
         (reasoning : json),
    _select_tools self user_query w = (inr (reasoning, []), w1) ->
    exists (result : RequestResult.t) (w' : World),
      process_request self user_query w = (inr result, w')
      /\ RequestResult.tool_calls result = []
      /\ RequestResult.results result = []
      /\ RequestResult.summary result
         = Some "No tools were needed for this request."
      /\ RequestResult.reasoning result = reasoning
      /\ w' = w1.
Proof.
  intros self user_query w w1 reasoning Hs.
  eexists _, _. split.
  - apply process_request_without_calls. exact Hs.
  - repeat split.
Qed.

Lemma parse_selection_not_decoded content e :
  json_loads content = inl e -> parse_selection content = inl e.
Proof. intros Hl. unfold parse_selection. rewrite Hl. reflexivity. Qed.

(** C8. When the cleaned answer of the reasoning call is not valid JSON
    ([json.loads] raises [JSONDecodeError]), [_select_tools] raises
    nothing: it returns the text [Failed to parse tool selection] with an
    empty list of calls, and [process_request] goes on to return its
    result for a request without calls. *)
Theorem unparsable_answer_yields_no_calls :
  forall (self : AIAgentDebug.t) (user_query : string) (w w1 w2 : World)
         (tools : list AITool.t) (content : string) (e : exn),
    _get_available_tools w = (inr tools, w1) ->
    ask_for_selection self (_create_tool_selection_prompt user_query tools) w1
    = (inr content, w2) ->
    json_loads (clean_response content) = inl e ->
    is_JSONDecodeError e = true ->
    _select_tools self user_query w
    = (inr (JStr "Failed to parse tool selection", []), w2)
    /\ process_request self user_query w
       = (inr (RequestResult.Build true (JStr "Failed to parse tool selection")
                 [] [] (Some "No tools were needed for this request.")), w2).
Proof.
  intros self user_query w w1 w2 tools content e Hc Ha Hl He.
  assert (Hs : _select_tools self user_query w
               = (inr (JStr "Failed to parse tool selection", []), w2)).
  { rewrite (_select_tools_backend_answered _ _ _ _ _ _ _ Hc Ha).
    unfold selection_of.
    rewrite (parse_selection_not_decoded _ _ Hl), He. reflexivity. }
  split; [exact Hs |].
  apply process_request_without_calls. exact Hs.
Qed.

Lemma mentions_at_end (before name : string) : mentions (before ++ name) name.
Proof.
  assert (Hend : forall s : string, s ++ "" = s)
    by (induction s as [| c s IH]; simpl; [| rewrite IH]; reflexivity).
  rewrite <- (Hend name) at 1. apply mentions_inside.
Qed.

(** C6. When selection gave calls and the batch was run, the summary
    prompt is built, and if the reasoning call made with it raises,
    [process_request] still returns: [success] is [True], the narrative
    is [Error generating summary: ] followed by the text of the
    exception, and the rationale, the calls and the outcomes are those
    selection and execution produced. *)
Theorem summary_failure_keeps_results :
  forall (self : AIAgentDebug.t) (user_query : string) (w w1 w2 : World)
         (reasoning : json) (tool_calls : list ToolCall.t)
         (results : list Outcome.t),
    _select_tools self user_query w = (inr (reasoning, tool_calls), w1) ->
    tool_calls <> [] ->
    _execute_tool_calls tool_calls w1 = (inr results, w2) ->
    exists prompt : string,
      _create_summary_prompt user_query reasoning results = inr prompt
      /\ forall (e : exn) (w3 : World),
          ask_for_summary self prompt w2 = (inl e, w3) ->
          exists narrative : string,
            process_request self user_query w
            = (inr (RequestResult.Build true reasoning tool_calls results
                      (Some narrative)), w3)
            /\ narrative = "Error generating summary: " ++ exn_str e
            /\ mentions narrative (exn_str e).
Proof.
  intros self user_query w w1 w2 reasoning tool_calls results Hs Hne He.
  destruct (_execute_tool_calls_returns tool_calls w1) as (results' & He' & _ & Hwf).
  rewrite He in He'. injection He' as Hr _. subst results'.
  destruct (_create_summary_prompt_returns user_query reasoning results Hwf)
    as [prompt Hp].
  exists prompt. split; [exact Hp |].
  intros e w3 Ha. eexists. split; [| split; [reflexivity |]].
  - eapply process_request_with_calls; try eassumption.
    eapply _generate_summary_backend_raised; eassumption.
  - apply mentions_at_end.
Qed.

(** C2, as the code has it.  Whenever the tool catalogue was obtained,
    [process_request] returns a result, and its [success] is [True] in
    every case: also when tool calls failed, and also when the reasoning
    call of the selection raised or its answer could not be decoded; in
    these two cases the rationale is the diagnostic text, the calls and
    the outcomes are empty and the narrative is the one of a request
    without calls. *)
Theorem process_request_success_is_always_true :
  forall (self : AIAgentDebug.t) (user_query : string) (w w1 : World)
         (tools : list AITool.t),
    _get_available_tools w = (inr tools, w1) ->
    exists (result : RequestResult.t) (w' : World),
      process_request self user_query w = (inr result, w')
      /\ RequestResult.success result = true
      /\ (forall e w2,
            ask_for_selection self
              (_create_tool_selection_prompt user_query tools) w1 = (inl e, w2) ->
            result
            = RequestResult.Build true
                (JStr ("Error in tool selection: " ++ exn_str e)) [] []
                (Some "No tools were needed for this request."))
      /\ (forall content w2 e,
            ask_for_selection self
              (_create_tool_selection_prompt user_query tools) w1
            = (inr content, w2) ->
            json_loads (clean_response content) = inl e ->
            result
            = RequestResult.Build true
                (JStr (if is_JSONDecodeError e
                       then "Failed to parse tool selection"
                       else "Error in tool selection: " ++ exn_str e)) [] []
                (Some "No tools were needed for this request.")).
Proof.
  intros self user_query w w1 tools Hc.
  destruct (ask_for_selection self
              (_create_tool_selection_prompt user_query tools) w1)
    as [[e | content] w2] eqn:Ha.
  - pose proof (_select_tools_backend_raised _ _ _ _ _ _ _ Hc Ha) as Hs.
    eexists _, _. split; [apply process_request_without_calls; exact Hs |].
    split; [reflexivity |]. split.
    + intros e' w2' Hq. injection Hq as He _. subst e'. reflexivity.
    + intros content w2' e' Hq. discriminate Hq.
  - pose proof (_select_tools_backend_answered _ _ _ _ _ _ _ Hc Ha) as Hs.
    destruct (selection_of content) as [reasoning tool_calls] eqn:Hsel.
    destruct tool_calls as [| tool_call rest].
    + eexists _, _. split; [apply process_request_without_calls; exact Hs |].
      split; [reflexivity |]. split.
      * intros e' w2' Hq. discriminate Hq.
      * intros content' w2' e' Hq Hl. injection Hq as Hcontent _.
        subst content'. unfold selection_of in Hsel.
        rewrite (parse_selection_not_decoded _ _ Hl) in Hsel.
        destruct (is_JSONDecodeError e'); injection Hsel as Hr;
          subst reasoning; reflexivity.
    + destruct (_execute_tool_calls_returns (tool_call :: rest) w2)
        as (results & He & _ & Hwf).
      destruct (_generate_summary_returns self user_query reasoning results
                  (sent w2 (flat_map (expected_posts (connectors w2))
                              (tool_call :: rest))) Hwf)
        as (summary & w3 & Hg).
      eexists _, _. split.
      { eapply process_request_with_calls; try eassumption. discriminate. }
      split; [reflexivity |]. split.
      * intros e' w2' Hq. discriminate Hq.
      * intros content' w2' e' Hq Hl. injection Hq as Hcontent _.
        subst content'. unfold selection_of in Hsel.
        rewrite (parse_selection_not_decoded _ _ Hl) in Hsel.
        destruct (is_JSONDecodeError e'); discriminate Hsel.
Qed.

(** ** Malformed entries *)

Lemma fault_is_not_decode_error (f : fault) :
  is_JSONDecodeError (fault_exn f) = false.
Proof. destruct f; reflexivity. Qed.

Lemma py_getitem_cases (v : json) (k : string) :
  (exists x, py_getitem v k = inr x) \/ (exists f, py_getitem v k = inl (fault_exn f)).
Proof.
  destruct v; simpl; try (right; eexists; reflexivity).
  destruct (dict_get k fields); [left | right]; eexists; reflexivity.
Qed.

(** One entry either extends the list by one call or raises a fault. *)
Lemma read_tool_call_cases (entry : json) (tool_calls : list ToolCall.t) :
  (exists tool_call, read_tool_call entry tool_calls
                     = inr (tool_calls ++ [tool_call])%list)
  \/ (exists f, read_tool_call entry tool_calls = inl (fault_exn f)).
Proof.
  unfold read_tool_call.
  destruct (py_getitem_cases entry "connector_name") as [[c Hc] | [f Hf]];
    [rewrite Hc | right; exists f; rewrite Hf; reflexivity].
  destruct (py_getitem_cases entry "tool_name") as [[t Ht] | [f Hf]];
    [rewrite Ht | right; exists f; rewrite Hf; reflexivity].
  destruct (py_getitem_cases entry "arguments") as [[a Ha] | [f Hf]];
    [rewrite Ha | right; exists f; rewrite Hf; reflexivity].
  destruct (py_getitem_cases entry "reasoning") as [[r Hr] | [f Hf]];
    [rewrite Hr | right; exists f; rewrite Hf; reflexivity].
  left. eexists. reflexivity.
Qed.

Lemma read_tool_call_malformed (entry : json) (tool_calls : list ToolCall.t) :
  lacks_required_key entry ->
  exists f, read_tool_call entry tool_calls = inl (fault_exn f).
Proof.
  intros (fields & key & -> & Hkey & Hnone).
  destruct (read_tool_call_cases (JObj fields) tool_calls)
    as [[tool_call Hok] | Hf]; [exfalso | exact Hf].
  unfold read_tool_call in Hok. simpl in Hok.
  destruct (dict_get "connector_name" fields) eqn:H1; [| discriminate].
  destruct (dict_get "tool_name" fields) eqn:H2; [| discriminate].
  destruct (dict_get "arguments" fields) eqn:H3; [| discriminate].
  destruct (dict_get "reasoning" fields) eqn:H4; [| discriminate].
  simpl in Hkey.
  destruct Hkey as [<- | [<- | [<- | [<- | []]]]]; congruence.
Qed.

(** One malformed entry anywhere makes the whole loop raise. *)
Lemma read_loop_malformed (entries : list json) (entry : json) :
  In entry entries ->
  lacks_required_key entry ->
  forall tool_calls,
  exists f, for_each_pure entries read_tool_call tool_calls = inl (fault_exn f).
Proof.
  intros Hin Hbad.
  induction entries as [| first rest IH]; intros tool_calls; [contradiction |].
  simpl.
  destruct (read_tool_call_cases first tool_calls) as [[tool_call Hok] | [f Hf]].
  - rewrite Hok. destruct Hin as [-> | Hin].
    + destruct (read_tool_call_malformed entry tool_calls Hbad) as [f Hf].
      congruence.
    + apply IH. exact Hin.
  - rewrite Hf. exists f. reflexivity.
Qed.

(** C4. When the decoded answer is an object whose [tool_calls] is a
    list and one entry of that list is an object without one of the four
    keys [connector_name], [tool_name], [arguments], [reasoning], the
    loop over the entries raises, so no entry is kept, whether well formed
    or not: [_select_tools] returns [Error in tool selection: ] followed
    by the text of the fault, with an empty list of calls, and
    [process_request] treats the request as one without calls. *)
Theorem malformed_entry_aborts_extraction :
  forall (self : AIAgentDebug.t) (user_query : string) (w w1 w2 : World)
         (tools : list AITool.t) (content : string)
         (fields : list (string * json)) (entries : list json) (entry : json),
    _get_available_tools w = (inr tools, w1) ->
    ask_for_selection self (_create_tool_selection_prompt user_query tools) w1
    = (inr content, w2) ->
    json_loads (clean_response content) = inr (JObj fields) ->
    dict_get "tool_calls" fields = Some (JArr entries) ->
    In entry entries ->
    lacks_required_key entry ->
    exists f : fault,
      read_tool_calls entries = inl (fault_exn f)
      /\ _select_tools self user_query w
         = (inr (JStr ("Error in tool selection: " ++ fault_str f), []), w2)
      /\ process_request self user_query w
         = (inr (RequestResult.Build true
                   (JStr ("Error in tool selection: " ++ fault_str f)) [] []
                   (Some "No tools were needed for this request.")), w2).
Proof.
  intros self user_query w w1 w2 tools content fields entries entry
    Hc Ha Hl Hcalls Hin Hbad.
  destruct (read_loop_malformed entries entry Hin Hbad []) as [f Hf].
  exists f.
  assert (Hs : _select_tools self user_query w
               = (inr (JStr ("Error in tool selection: " ++ fault_str f), []), w2)).
  { rewrite (_select_tools_backend_answered _ _ _ _ _ _ _ Hc Ha).
    unfold selection_of, parse_selection. rewrite Hl. simpl.
    rewrite Hcalls. simpl. unfold read_tool_calls. rewrite Hf. simpl.
    rewrite fault_is_not_decode_error. reflexivity. }
  split; [exact Hf |]. split; [exact Hs |].
  apply process_request_without_calls. exact Hs.
Qed.

(** ** The summary prompt *)

(** The loop over the entries sees an entry only through its line. *)
Lemma summary_loop_same_line (before after : list Outcome.t)
  (outcome outcome' : Outcome.t) :
  (forall i, summary_entry i outcome = summary_entry i outcome') ->
  forall i acc,
    for_each_pure (enumerate_from i (before ++ outcome :: after)) summary_body acc
    = for_each_pure (enumerate_from i (before ++ outcome' :: after)) summary_body
        acc.
Proof.
  intros Hline. induction before as [| first before IH]; intros i acc; simpl.
  - rewrite Hline. reflexivity.
  - destruct (summary_entry i first); simpl; [reflexivity | apply IH].
Qed.

End Properties.

(** * The properties on sample runs *)

(** C3. A valid JSON object inside a fence without a language tag: the
    cleaning leaves the opening fence in place, [json.loads] then rejects
    the text, and the selection is the parse failure with no call.  The
    same object bare, or inside a fence tagged [json], gives its call. *)
Theorem bare_fence_is_not_stripped :
  clean_response (Sample.bare_fenced Sample.one_call)
  = "```" ++ nl ++ Sample.one_call
  /\ clean_response (Sample.json_fenced Sample.one_call) = Sample.one_call
  /\ selection_of (O := Sample.answering "") Sample.one_call
     = (JStr "one step", [Sample.the_call])
  /\ selection_of (O := Sample.answering "") (Sample.json_fenced Sample.one_call)
     = (JStr "one step", [Sample.the_call])
  /\ selection_of (O := Sample.answering "") (Sample.bare_fenced Sample.one_call)
     = (JStr "Failed to parse tool selection", [])
  /\ fst (_select_tools (O := Sample.answering (Sample.bare_fenced Sample.one_call))
            Sample.agent "Start the Demo workflow" Sample.with_wf)
     = inr (JStr "Failed to parse tool selection", []).
Proof. repeat split; vm_compute; reflexivity. Qed.

(** Against C2 as stated: a run whose reasoning call raised, and a run
    whose answer could not be decoded, both return a result with
    [success = True]. *)
Lemma failed_selection_is_reported_as_success :
  fst (ask_for_selection (O := Sample.down) Sample.agent
         (_create_tool_selection_prompt "hi" []) Sample.empty)
  = inl (Exn (LibraryError "ServiceUnavailable") "backend down")
  /\ fst (process_request (O := Sample.down) Sample.agent "hi" Sample.empty)
     = inr (RequestResult.Build true
              (JStr "Error in tool selection: backend down") [] []
              (Some "No tools were needed for this request."))
  /\ json_loads (Outside := Sample.answering "not json")
       (clean_response "not json")
     = inl (Exn JSONDecodeError "Expecting value")
  /\ fst (process_request (O := Sample.answering "not json") Sample.agent "hi"
            Sample.empty)
     = inr (RequestResult.Build true (JStr "Failed to parse tool selection") [] []
              (Some "No tools were needed for this request.")).
Proof. repeat split; vm_compute; reflexivity. Qed.

Lemma process_request_success_is_always_true_witness :
  _get_available_tools (O := Sample.down) Sample.empty = (inr [], Sample.empty)
  /\ exists (result : RequestResult.t) (w' : World),
       process_request (O := Sample.down) Sample.agent "hi" Sample.empty
       = (inr result, w')
       /\ RequestResult.success result = true
       /\ (forall e w2,
             ask_for_selection (O := Sample.down) Sample.agent
               (_create_tool_selection_prompt "hi" []) Sample.empty = (inl e, w2) ->
             result
             = RequestResult.Build true
                 (JStr ("Error in tool selection: " ++ exn_str e)) [] []
                 (Some "No tools were needed for this request."))
       /\ (forall content w2 e,
             ask_for_selection (O := Sample.down) Sample.agent
               (_create_tool_selection_prompt "hi" []) Sample.empty
             = (inr content, w2) ->
             json_loads (Outside := Sample.down) (clean_response content) = inl e ->
             result
             = RequestResult.Build true
                 (JStr (if is_JSONDecodeError e
                        then "Failed to parse tool selection"
                        else "Error in tool selection: " ++ exn_str e)) [] []
                 (Some "No tools were needed for this request.")).
Proof.
  split; [reflexivity |].
  apply (process_request_success_is_always_true (O := Sample.down)
           Sample.agent "hi" Sample.empty Sample.empty []).
  reflexivity.
Defined.

Lemma no_calls_short_circuit_witness :
  _select_tools (O := Sample.answering "{}") Sample.agent "hello" Sample.empty
  = (inr (JStr "", []),
     snd (_select_tools (O := Sample.answering "{}") Sample.agent "hello"
            Sample.empty))
  /\ exists (result : RequestResult.t) (w' : World),
       process_request (O := Sample.answering "{}") Sample.agent "hello"
         Sample.empty = (inr result, w')
       /\ RequestResult.tool_calls result = []
       /\ RequestResult.results result = []
       /\ RequestResult.summary result
          = Some "No tools were needed for this request."
       /\ RequestResult.reasoning result = JStr ""
       /\ w' = snd (_select_tools (O := Sample.answering "{}") Sample.agent
                      "hello" Sample.empty).
Proof.
  split; [vm_compute; reflexivity |].
  apply (no_calls_short_circuit (O := Sample.answering "{}")
           Sample.agent "hello" Sample.empty).
  vm_compute; reflexivity.
Defined.

Lemma unregistered_connector_outcome_witness :
  ToolCall.connector_name Sample.ghost_call = JStr "ghost"
  /\ dict_get "ghost" (connectors Sample.with_wf) = None
  /\ exists (done rest : list Outcome.t) (w1 w2 : World) (reason : string),
       _execute_tool_calls (O := Sample.answering "") [Sample.the_call]
         Sample.with_wf = (inr done, w1)
       /\ connectors w1 = connectors Sample.with_wf
       /\ _execute_tool_calls (O := Sample.answering "") [Sample.the_call] w1
          = (inr rest, w2)
       /\ _execute_tool_calls (O := Sample.answering "")
            ([Sample.the_call] ++ Sample.ghost_call :: [Sample.the_call])
            Sample.with_wf
          = (inr (done
                  ++ Outcome.Build Sample.ghost_call false None (Some reason)
                  :: rest)%list, w2)
       /\ reason = "Connector '" ++ "ghost" ++ "' not found"
       /\ mentions reason "ghost".
Proof.
  split; [reflexivity |]. split; [reflexivity |].
  apply (unregistered_connector_outcome (O := Sample.answering "")
           [Sample.the_call] [Sample.the_call] Sample.ghost_call "ghost"
           Sample.with_wf); reflexivity.
Defined.

Lemma remove_connector_unknown_name_is_silent_witness :
  dict_get "ghost" (connectors Sample.with_wf) = None
  /\ remove_connector "ghost" Sample.with_wf = (inr tt, Sample.with_wf).
Proof.
  split; [reflexivity |].
  apply (remove_connector_unknown_name_is_silent "ghost" Sample.with_wf).
  reflexivity.
Defined.

Lemma unparsable_answer_yields_no_calls_witness :
  _get_available_tools (O := Sample.answering "not json") Sample.empty
  = (inr [], Sample.empty)
  /\ ask_for_selection (O := Sample.answering "not json") Sample.agent
       (_create_tool_selection_prompt "hi" []) Sample.empty
     = (inr "not json",
        sent Sample.empty
          [GeminiAsked "gemini-1.5-flash" (_create_tool_selection_prompt "hi" [])])
  /\ json_loads (Outside := Sample.answering "not json")
       (clean_response "not json")
     = inl (Exn JSONDecodeError "Expecting value")
  /\ is_JSONDecodeError (Exn JSONDecodeError "Expecting value") = true
  /\ _select_tools (O := Sample.answering "not json") Sample.agent "hi"
       Sample.empty
     = (inr (JStr "Failed to parse tool selection", []),
        sent Sample.empty
          [GeminiAsked "gemini-1.5-flash" (_create_tool_selection_prompt "hi" [])])
  /\ process_request (O := Sample.answering "not json") Sample.agent "hi"
       Sample.empty
     = (inr (RequestResult.Build true (JStr "Failed to parse tool selection")
               [] [] (Some "No tools were needed for this request.")),
        sent Sample.empty
          [GeminiAsked "gemini-1.5-flash" (_create_tool_selection_prompt "hi" [])]).
Proof.
  split; [reflexivity |]. split; [reflexivity |].
  split; [vm_compute; reflexivity |]. split; [reflexivity |].
  apply (unparsable_answer_yields_no_calls (O := Sample.answering "not json")
           Sample.agent "hi" Sample.empty Sample.empty
           (sent Sample.empty
              [GeminiAsked "gemini-1.5-flash"
                 (_create_tool_selection_prompt "hi" [])])
           [] "not json" (Exn JSONDecodeError "Expecting value"));
    [reflexivity | reflexivity | vm_compute; reflexivity | reflexivity].
Defined.

Lemma malformed_entry_aborts_extraction_witness :
  _get_available_tools (O := Sample.answering Sample.one_call_one_malformed)
    Sample.empty = (inr [], Sample.empty)
  /\ ask_for_selection (O := Sample.answering Sample.one_call_one_malformed)
       Sample.agent (_create_tool_selection_prompt "hi" []) Sample.empty
     = (inr Sample.one_call_one_malformed, Sample.asked)
  /\ json_loads (Outside := Sample.answering Sample.one_call_one_malformed)
       (clean_response Sample.one_call_one_malformed)
     = inr (JObj Sample.two_steps)
  /\ dict_get "tool_calls" Sample.two_steps
     = Some (JArr [Sample.well_formed_entry; Sample.malformed_entry])
  /\ In Sample.malformed_entry [Sample.well_formed_entry; Sample.malformed_entry]
  /\ lacks_required_key Sample.malformed_entry
  /\ exists f : fault,
       read_tool_calls (O := Sample.answering Sample.one_call_one_malformed)
         [Sample.well_formed_entry; Sample.malformed_entry]
       = inl (fault_exn (O := Sample.answering Sample.one_call_one_malformed) f)
       /\ _select_tools (O := Sample.answering Sample.one_call_one_malformed)
            Sample.agent "hi" Sample.empty
          = (inr (JStr ("Error in tool selection: " ++ Ref.fault_str f), []),
             Sample.asked)
       /\ process_request (O := Sample.answering Sample.one_call_one_malformed)
            Sample.agent "hi" Sample.empty
          = (inr (RequestResult.Build true
                    (JStr ("Error in tool selection: " ++ Ref.fault_str f)) [] []
                    (Some "No tools were needed for this request.")),
             Sample.asked).
Proof.
  assert (Hbad : lacks_required_key Sample.malformed_entry).
  { exists [("connector_name", JStr "wf"); ("tool_name", JStr "register_actor");
            ("reasoning", JStr "r2")], "arguments".
    split; [reflexivity |]. split; [| reflexivity].
    right; right; left; reflexivity. }
  assert (Hin : In Sample.malformed_entry
                  [Sample.well_formed_entry; Sample.malformed_entry])
    by (right; left; reflexivity).
  split; [reflexivity |]. split; [reflexivity |].
  split; [vm_compute; reflexivity |]. split; [reflexivity |].
  split; [exact Hin |]. split; [exact Hbad |].
  apply (malformed_entry_aborts_extraction
           (O := Sample.answering Sample.one_call_one_malformed)
           Sample.agent "hi" Sample.empty Sample.empty Sample.asked []
           Sample.one_call_one_malformed Sample.two_steps
           [Sample.well_formed_entry; Sample.malformed_entry]
           Sample.malformed_entry);
    [reflexivity | reflexivity | vm_compute; reflexivity | reflexivity
    | exact Hin | exact Hbad].
Defined.

Lemma summary_failure_keeps_results_witness :
  _select_tools (O := Sample.once) Sample.agent Sample.query Sample.with_wf
  = (inr (JStr "one step", [Sample.the_call]), Sample.selected)
  /\ [Sample.the_call] <> []
  /\ _execute_tool_calls (O := Sample.once) [Sample.the_call] Sample.selected
     = (inr Sample.started, Sample.executed)
  /\ exists prompt : string,
       _create_summary_prompt (O := Sample.once) Sample.query (JStr "one step")
         Sample.started = inr prompt
       /\ forall (e : exn) (w3 : World),
           ask_for_summary (O := Sample.once) Sample.agent prompt Sample.executed
           = (inl e, w3) ->
           exists narrative : string,
             process_request (O := Sample.once) Sample.agent Sample.query
               Sample.with_wf
             = (inr (RequestResult.Build true (JStr "one step") [Sample.the_call]
                       Sample.started (Some narrative)), w3)
             /\ narrative = "Error generating summary: " ++ exn_str e
             /\ mentions narrative (exn_str e).
Proof.
  assert (Hs : _select_tools (O := Sample.once) Sample.agent Sample.query
                 Sample.with_wf
               = (inr (JStr "one step", [Sample.the_call]), Sample.selected))
    by (vm_compute; reflexivity).
  assert (Hne : [Sample.the_call] <> []) by discriminate.
  assert (He : _execute_tool_calls (O := Sample.once) [Sample.the_call]
                 Sample.selected
               = (inr Sample.started, Sample.executed))
    by (vm_compute; reflexivity).
  split; [exact Hs |]. split; [exact Hne |]. split; [exact He |].
  exact (summary_failure_keeps_results (O := Sample.once) Sample.agent
           Sample.query Sample.with_wf Sample.selected Sample.executed
           (JStr "one step") [Sample.the_call] Sample.started Hs Hne He).
Defined.

(** The same run, evaluated: the summary call raises, and the result still
    carries the rationale, the call and its outcome. *)
Example summary_failure_run :
  fst (process_request (O := Sample.once) Sample.agent Sample.query Sample.with_wf)
  = inr (RequestResult.Build true (JStr "one step") [Sample.the_call]
           Sample.started (Some "Error generating summary: quota exceeded")).
Proof. vm_compute. reflexivity. Qed.

(** A batch of four calls whose second names an unknown connector and
    whose third is refused by the provider: four outcomes in the order of
    the calls, and the three requests that could be sent, in that order. *)
Example batch_with_failures_run :
  _execute_tool_calls (O := Sample.answering "")
    [Sample.the_call; Sample.ghost_call; Sample.rejected_call; Sample.the_call]
    Sample.with_wf
  = (inr [Sample.started_outcome;
          failed Sample.ghost_call "Connector 'ghost' not found";
          Outcome.Build Sample.rejected_call false
            (Some (MCPToolResult.Build [] (Some "actor already registered")))
            (Some "actor already registered");
          Sample.started_outcome],
     sent Sample.with_wf
       [Sample.posted Sample.the_call; Sample.posted Sample.rejected_call;
        Sample.posted Sample.the_call]).
Proof. vm_compute. reflexivity. Qed.

(** A provider that cannot be reached: [call_tool] turns the transport
    fault into a result with an error, and the batch goes on. *)
Example batch_unreachable_run :
  fst (_execute_tool_calls (O := Sample.unreachable)
         [Sample.the_call; Sample.the_call] Sample.with_wf)
  = inr [Outcome.Build Sample.the_call false
           (Some (MCPToolResult.Build [] (Some "Cannot connect to host")))
           (Some "Cannot connect to host");
         Outcome.Build Sample.the_call false
           (Some (MCPToolResult.Build [] (Some "Cannot connect to host")))
           (Some "Cannot connect to host")].
Proof. vm_compute. reflexivity. Qed.

(** Unregistering a registered name closes its session and empties the
    table. *)
Example remove_registered_run :
  remove_connector "wf" Sample.with_wf
  = (inr tt, mkWorld [] [SessionOpened 0; SessionClosed 0]).
Proof. reflexivity. Qed.

(** * Further properties of [mcp_client.py] *)

Section Registry.
Context `{O : Outside}.

(** ** Dictionaries *)

Lemma dict_get_set_same {V} (k : string) (v : V) (d : list (string * V)) :
  dict_get k (dict_set k v d) = Some v.
Proof.
  induction d as [| [k' v'] d IH]; simpl.
  - rewrite String.eqb_refl. reflexivity.
  - destruct (String.eqb k k') eqn:Hk; simpl.
    + rewrite String.eqb_refl. reflexivity.
    + rewrite Hk. exact IH.
Qed.

Lemma dict_get_set_other {V} (k other : string) (v : V) (d : list (string * V)) :
  other <> k -> dict_get other (dict_set k v d) = dict_get other d.
Proof.
  intros Hne. induction d as [| [k' v'] d IH]; simpl.
  - rewrite (proj2 (String.eqb_neq other k) Hne). reflexivity.
  - destruct (String.eqb k k') eqn:Hk; simpl.
    + apply String.eqb_eq in Hk. subst k'.
      rewrite (proj2 (String.eqb_neq other k) Hne). reflexivity.
    + destruct (String.eqb other k'); [reflexivity | exact IH].
Qed.

Lemma dict_get_del_other {V} (k other : string) (d : list (string * V)) :
  other <> k -> dict_get other (dict_del k d) = dict_get other d.
Proof.
  intros Hne. induction d as [| [k' v'] d IH]; simpl.
  - reflexivity.
  - destruct (String.eqb k k') eqn:Hk; simpl.
    + apply String.eqb_eq in Hk. subst k'.
      rewrite (proj2 (String.eqb_neq other k) Hne). exact IH.
    + destruct (String.eqb other k'); [reflexivity | exact IH].
Qed.

Lemma dict_get_none_keys {V} (k : string) (d : list (string * V)) :
  dict_get k d = None <-> ~ In k (dict_keys d).
Proof.
  induction d as [| [k' v'] d IH]; simpl.
  - split; [intros _ [] | reflexivity].
  - destruct (String.eqb k k') eqn:Hk.
    + apply String.eqb_eq in Hk. subst k'. split; [discriminate |].
      intros Hn. exfalso. apply Hn. left. reflexivity.
    + apply String.eqb_neq in Hk. rewrite IH. split.
      * intros Hn [Heq | Hin]; [congruence | contradiction].
      * intros Hn Hin. apply Hn. right. exact Hin.
Qed.

Lemma dict_set_fresh {V} (k : string) (v : V) (d : list (string * V)) :
  dict_get k d = None -> dict_set k v d = (d ++ [(k, v)])%list.
Proof.
  induction d as [| [k' v'] d IH]; simpl; intros Hn.
  - reflexivity.
  - destruct (String.eqb k k'); [discriminate |]. rewrite (IH Hn). reflexivity.
Qed.

Lemma dict_keys_set_bound {V} (k : string) (v : V) (d : list (string * V)) :
  dict_get k d <> None -> dict_keys (dict_set k v d) = dict_keys d.
Proof.
  induction d as [| [k' v'] d IH]; simpl; intros Hn.
  - contradiction.
  - destruct (String.eqb k k') eqn:Hk; simpl.
    + apply String.eqb_eq in Hk. subst k'. reflexivity.
    + rewrite (IH Hn). reflexivity.
Qed.

Lemma dict_del_absent {V} (k : string) (d : list (string * V)) :
  dict_get k d = None -> dict_del k d = d.
Proof.
  induction d as [| [k' v'] d IH]; simpl; intros Hn.
  - reflexivity.
  - destruct (String.eqb k k'); [discriminate |]. rewrite (IH Hn). reflexivity.
Qed.

Lemma dict_keys_del_incl {V} (k other : string) (d : list (string * V)) :
  In other (dict_keys (dict_del k d)) -> In other (dict_keys d).
Proof.
  induction d as [| [k' v'] d IH]; simpl.
  - intros [].
  - destruct (String.eqb k k'); simpl.
    + intros Hin. right. apply IH. exact Hin.
    + intros [Heq | Hin]; [left; exact Heq | right; apply IH; exact Hin].
Qed.

Lemma unique_keys_del {V} (k : string) (d : list (string * V)) :
  unique_keys d -> unique_keys (dict_del k d).
Proof.
  unfold unique_keys. induction d as [| [k' v'] d IH]; simpl; intros Hu.
  - constructor.
  - inversion Hu as [| ? ? Hnotin Hrest]; subst.
    destruct (String.eqb k k'); simpl.
    + apply IH. exact Hrest.
    + constructor; [| apply IH; exact Hrest].
      intros Hin. apply Hnotin. eapply dict_keys_del_incl. exact Hin.
Qed.

Lemma unique_keys_set {V} (k : string) (v : V) (d : list (string * V)) :
  unique_keys d -> unique_keys (dict_set k v d).
Proof.
  unfold unique_keys. intros Hu.
  destruct (dict_get k d) as [old |] eqn:Hd.
  - rewrite dict_keys_set_bound; [exact Hu | congruence].
  - rewrite (dict_set_fresh _ _ _ Hd). unfold dict_keys. rewrite map_app. simpl.
    apply NoDup_app; [exact Hu | repeat constructor; intros [] |].
    intros x Hin [Heq | []]. subst x.
    apply (proj1 (dict_get_none_keys k d) Hd). exact Hin.
Qed.

(** ** [call_tool] *)

Lemma call_tool_run (self : MCPClient.t) sid tool_name arguments w :
  MCPClient.session self = Some sid ->
  call_tool self tool_name arguments w
  = let w' := sent w [Posted sid (MCPClient.mcp_endpoint self)
                        (tools_call_request tool_name arguments)] in
    match session_post (history w) sid (MCPClient.mcp_endpoint self)
            (tools_call_request tool_name arguments) with
    | inl e => (inr (MCPToolResult.Build [] (Some (exn_str e))), w')
    | inr result =>
        match
          and_then (py_in "error" result) (fun has_error =>
          if has_error : bool then
            and_then (py_getitem result "error") (fun err =>
            and_then (py_get err "message" (JStr "Unknown error")) (fun message =>
            new_MCPToolResult (JArr []) (Some message)))
          else
            and_then (py_get result "result" (JObj [])) (fun res =>
            and_then (py_get res "content" (JArr [])) (fun content =>
            new_MCPToolResult content None)))
        with
        | inr r => (inr r, w')
        | inl e => (inr (MCPToolResult.Build [] (Some (exn_str e))), w')
        end
    end.
Proof.
  intros Hs. unfold call_tool. rewrite Hs.
  unfold try_except, bind, post, sent. cbn zeta.
  destruct (session_post _ _ _ _) as [e | result]; [reflexivity |].
  destruct (py_in "error" result) as [e | [|]]; simpl; [reflexivity | |].
  - destruct (py_getitem result "error") as [e | err]; simpl; [reflexivity |].
    destruct (py_get err "message" (JStr "Unknown error")) as [e | message];
      simpl; [reflexivity |].
    destruct (new_MCPToolResult (JArr []) (Some message)); reflexivity.
  - destruct (py_get result "result" (JObj [])) as [e | res]; simpl; [reflexivity |].
    destruct (py_get res "content" (JArr [])) as [e | content]; simpl;
      [reflexivity |].
    destruct (new_MCPToolResult content None); reflexivity.
Qed.

(** X1. [call_tool] on a client without a session raises the
    [RuntimeError] and sends nothing; on a client with a session it sends
    exactly one [tools/call] to the client's endpoint and returns a result,
    whatever the provider answers or the transport raises. *)
Theorem call_tool_raises_only_without_session :
  forall (self : MCPClient.t) (tool_name arguments : json) (w : World),
    match MCPClient.session self with
    | None =>
        call_tool self tool_name arguments w
        = (inl (Exn RuntimeError
                  "Client not initialized. Use async context manager."), w)
    | Some sid =>
        exists r : MCPToolResult.t,
          call_tool self tool_name arguments w
          = (inr r, sent w [Posted sid (MCPClient.mcp_endpoint self)
                              (tools_call_request tool_name arguments)])
    end.
Proof.
  intros self tool_name arguments w.
  destruct (MCPClient.session self) as [sid |] eqn:Hs.
  - apply call_tool_returns. exact Hs.
  - unfold call_tool. rewrite Hs. reflexivity.
Qed.

(** X2. When the POST, the status check or the decoding of the body
    raises, [call_tool] returns a result with no content whose error is the
    text of the exception. *)
Theorem call_tool_transport_fault_becomes_error :
  forall (self : MCPClient.t) (sid : nat) (tool_name arguments : json)
         (w : World) (e : exn),
    MCPClient.session self = Some sid ->
    session_post (history w) sid (MCPClient.mcp_endpoint self)
      (tools_call_request tool_name arguments) = inl e ->
    fst (call_tool self tool_name arguments w)
    = inr (MCPToolResult.Build [] (Some (exn_str e))).
Proof.
  intros self sid tool_name arguments w e Hs Hp.
  rewrite (call_tool_run _ _ _ _ _ Hs). cbn zeta. rewrite Hp. reflexivity.
Qed.

(** X3. When the provider answers an object with an [error] object,
    [call_tool] returns no content and the error's [message] when it is a
    string, and the text [Unknown error] when the error has no [message]. *)
Theorem call_tool_provider_error_message :
  forall (self : MCPClient.t) (sid : nat) (tool_name arguments : json)
         (w : World) (fields err : list (string * json)),
    MCPClient.session self = Some sid ->
    session_post (history w) sid (MCPClient.mcp_endpoint self)
      (tools_call_request tool_name arguments) = inr (JObj fields) ->
    dict_get "error" fields = Some (JObj err) ->
    (forall m, dict_get "message" err = Some (JStr m) ->
               fst (call_tool self tool_name arguments w)
               = inr (MCPToolResult.Build [] (Some m)))
    /\ (dict_get "message" err = None ->
        fst (call_tool self tool_name arguments w)
        = inr (MCPToolResult.Build [] (Some "Unknown error"))).
Proof.
  intros self sid tool_name arguments w fields err Hs Hp He.
  rewrite (call_tool_run _ _ _ _ _ Hs). cbn zeta. rewrite Hp.
  simpl. unfold dict_mem. rewrite He. simpl.
  split.
  - intros m Hm. rewrite Hm. reflexivity.
  - intros Hm. rewrite Hm. reflexivity.
Qed.

Lemma validate_each_objects (blocks : list (list (string * json))) :
  validate_each validate_dict (map JObj blocks) = Some blocks.
Proof.
  induction blocks as [| block blocks IH]; simpl.
  - reflexivity.
  - rewrite IH. reflexivity.
Qed.

(** X4. When the provider answers an object without an [error] key,
    [call_tool] relays the content blocks of [result.content] in their
    order with no error; an answer without [result], or a [result] without
    [content], gives an empty content and no error. *)
Theorem call_tool_relays_content :
  forall (self : MCPClient.t) (sid : nat) (tool_name arguments : json)
         (w : World) (fields : list (string * json)),
    MCPClient.session self = Some sid ->
    session_post (history w) sid (MCPClient.mcp_endpoint self)
      (tools_call_request tool_name arguments) = inr (JObj fields) ->
    dict_get "error" fields = None ->
    (forall res blocks,
        dict_get "result" fields = Some (JObj res) ->
        dict_get "content" res = Some (JArr (map JObj blocks)) ->
        fst (call_tool self tool_name arguments w)
        = inr (MCPToolResult.Build blocks None))
    /\ (forall res,
          dict_get "result" fields = Some (JObj res) ->
          dict_get "content" res = None ->
          fst (call_tool self tool_name arguments w)
          = inr (MCPToolResult.Build [] None))
    /\ (dict_get "result" fields = None ->
        fst (call_tool self tool_name arguments w)
        = inr (MCPToolResult.Build [] None)).
Proof.
  intros self sid tool_name arguments w fields Hs Hp He.
  rewrite (call_tool_run _ _ _ _ _ Hs). cbn zeta. rewrite Hp.
  simpl. unfold dict_mem. rewrite He. simpl.
  split; [| split].
  - intros res blocks Hr Hc. rewrite Hr. simpl. rewrite Hc.
    unfold new_MCPToolResult, validate_list_of_dict.
    rewrite validate_each_objects. reflexivity.
  - intros res Hr Hc. rewrite Hr. simpl. rewrite Hc. reflexivity.
  - intros Hr. rewrite Hr. reflexivity.
Qed.

(** X5. A provider error whose [message] is [null] leaves the result
    without an error, so the executor records the call as a success with no
    content: [success] only tests that the result's error is [None]. *)
Theorem null_error_message_counts_as_success :
  forall (tool_call : ToolCall.t) (name : string) (client : MCPClient.t)
         (sid : nat) (w : World) (fields err : list (string * json)),
    ToolCall.connector_name tool_call = JStr name ->
    dict_get name (connectors w) = Some client ->
    MCPClient.session client = Some sid ->
    session_post (history w) sid (MCPClient.mcp_endpoint client)
      (tools_call_request (ToolCall.tool_name tool_call)
         (ToolCall.arguments tool_call)) = inr (JObj fields) ->
    dict_get "error" fields = Some (JObj err) ->
    dict_get "message" err = Some JNull ->
    fst (execute_one tool_call w)
    = inr (Outcome.Build tool_call true (Some (MCPToolResult.Build [] None)) None).
Proof.
  intros tool_call name client sid w fields err Hn Hd Hs Hp He Hm.
  unfold execute_one, try_except, call_tool_on_connector, bind, get_connectors.
  rewrite Hn. simpl. unfold dict_mem. rewrite Hd. simpl.
  rewrite (call_tool_run _ _ _ _ _ Hs). cbn zeta. rewrite Hp.
  simpl. unfold dict_mem. rewrite He. simpl. rewrite Hm. reflexivity.
Qed.

(** ** [list_tools] *)

Lemma list_tools_run (self : MCPClient.t) sid w :
  MCPClient.session self = Some sid ->
  list_tools self w
  = (inr match session_post (history w) sid (MCPClient.mcp_endpoint self)
                 tools_list_request with
         | inl e => JArr []
         | inr result =>
             match py_in "error" result with
             | inl e => JArr []
             | inr true => JArr []
             | inr false =>
                 match and_then (py_get result "result" (JObj [])) (fun res =>
                       py_get res "tools" (JArr [])) with
                 | inr tools => tools
                 | inl e => JArr []
                 end
             end
         end,
     sent w [Posted sid (MCPClient.mcp_endpoint self) tools_list_request]).
Proof.
  intros Hs. unfold list_tools. rewrite Hs.
  unfold try_except, bind, post, sent, tools_list_request.
  destruct (session_post _ _ _ _) as [e | result]; [reflexivity |].
  destruct (py_in "error" result) as [e | [|]]; simpl; [reflexivity .. |].
  destruct (py_get result "result" (JObj [])) as [e | res]; simpl; [reflexivity |].
  destruct (py_get res "tools" (JArr [])) as [e | tools]; reflexivity.
Qed.

(** X6. [list_tools] on a client with a session never raises: it sends
    exactly one [tools/list] and returns a value, which is the empty list
    when the transport raises and when the answer is an object with an
    [error] key. *)
Theorem list_tools_failure_is_empty_list :
  forall (self : MCPClient.t) (sid : nat) (w : World),
    MCPClient.session self = Some sid ->
    exists tools : json,
      list_tools self w
      = (inr tools,
         sent w [Posted sid (MCPClient.mcp_endpoint self) tools_list_request])
      /\ (forall e,
            session_post (history w) sid (MCPClient.mcp_endpoint self)
              tools_list_request = inl e -> tools = JArr [])
      /\ (forall fields,
            session_post (history w) sid (MCPClient.mcp_endpoint self)
              tools_list_request = inr (JObj fields) ->
            dict_get "error" fields <> None -> tools = JArr []).
Proof.
  intros self sid w Hs. eexists. split; [apply list_tools_run; exact Hs |].
  split.
  - intros e Hp. rewrite Hp. reflexivity.
  - intros fields Hp He. rewrite Hp. simpl. unfold dict_mem.
    destruct (dict_get "error" fields); [reflexivity | contradiction].
Qed.

(** X7. When the provider answers an object without an [error] key whose
    [result] is an object, [list_tools] returns the value of
    [result.tools] as it is, and the empty list when [tools] is absent. *)
Theorem list_tools_relays_tools :
  forall (self : MCPClient.t) (sid : nat) (w : World)
         (fields res : list (string * json)),
    MCPClient.session self = Some sid ->
    session_post (history w) sid (MCPClient.mcp_endpoint self) tools_list_request
    = inr (JObj fields) ->
    dict_get "error" fields = None ->
    dict_get "result" fields = Some (JObj res) ->
    fst (list_tools self w)
    = inr (match dict_get "tools" res with
           | Some tools => tools
           | None => JArr []
           end).
Proof.
  intros self sid w fields res Hs Hp He Hr.
  rewrite (list_tools_run _ _ _ Hs). rewrite Hp. simpl.
  unfold dict_mem. rewrite He, Hr. reflexivity.
Qed.

(** ** [list_all_tools] *)

Lemma list_all_loop (d : list (string * MCPClient.t)) :
  all_connected d ->
  forall acc w,
    NoDup (dict_keys acc ++ dict_keys d) ->
    exists result,
      for_each d list_all_body acc w = (inr result, sent w (listing d))
      /\ dict_keys result = (dict_keys acc ++ dict_keys d)%list.
Proof.
  induction 1 as [| [name client] rest Hconn _ IH]; intros acc w Hu.
  - exists acc. simpl. rewrite sent_nil, app_nil_r. split; reflexivity.
  - simpl in Hconn.
    destruct (MCPClient.session client) as [sid |] eqn:Hs; [| contradiction].
    assert (Hfresh : dict_get name acc = None).
    { apply dict_get_none_keys. intros Hin.
      apply NoDup_remove_2 in Hu. apply Hu. apply in_or_app. left. exact Hin. }
    pose proof (list_tools_run client sid w Hs) as Hrun.
    set (tools := match session_post _ _ _ _ with inl _ => _ | inr _ => _ end) in Hrun.
    destruct (IH (dict_set name tools acc)
                (sent w [Posted sid (MCPClient.mcp_endpoint client)
                           tools_list_request])) as (result & Hrest & Hkeys).
    { rewrite (dict_set_fresh _ _ _ Hfresh). unfold dict_keys at 1.
      rewrite map_app. simpl. rewrite <- app_assoc. exact Hu. }
    exists result. split.
    + change (for_each ((name, client) :: rest) list_all_body acc w)
        with (bind (list_all_body (name, client) acc)
                (fun acc' => for_each rest list_all_body acc') w).
      assert (Hbody : list_all_body (name, client) acc w
                      = (inr (dict_set name tools acc),
                         sent w [Posted sid (MCPClient.mcp_endpoint client)
                                   tools_list_request])).
      { unfold list_all_body, bind. rewrite Hrun. reflexivity. }
      rewrite (bind_inr _ _ _ _ _ Hbody), Hrest, sent_sent.
      unfold listing. simpl. rewrite Hs. reflexivity.
    + rewrite Hkeys. rewrite (dict_set_fresh _ _ _ Hfresh). unfold dict_keys.
      rewrite map_app. simpl. rewrite <- app_assoc. reflexivity.
Qed.

(** X8. When every registered client has a session and no name is bound
    twice, [list_all_tools] raises nothing whatever the providers do: it
    asks each client once, in the order of the table, and returns a dict
    with exactly the registered names, in that order. *)
Theorem list_all_tools_covers_every_connector :
  forall w : World,
    all_connected (connectors w) ->
    unique_keys (connectors w) ->
    exists result : list (string * json),
      list_all_tools w = (inr result, sent w (listing (connectors w)))
      /\ dict_keys result = dict_keys (connectors w).
Proof.
  intros w Hc Hu.
  destruct (list_all_loop (connectors w) Hc [] w Hu) as (result & Hrun & Hkeys).
  exists result. split; [| exact Hkeys].
  change (list_all_tools w) with (for_each (connectors w) list_all_body [] w).
  exact Hrun.
Qed.

(** ** Registering and unregistering *)

Lemma all_connected_set (name : string) (client : MCPClient.t) d :
  MCPClient.session client <> None ->
  all_connected d -> all_connected (dict_set name client d).
Proof.
  intros Hs. unfold all_connected.
  induction 1 as [| [k c] rest Hc Hrest IH]; simpl.
  - repeat constructor. exact Hs.
  - destruct (String.eqb name k); constructor; assumption.
Qed.

Lemma all_connected_del (name : string) d :
  all_connected d -> all_connected (dict_del name d).
Proof.
  unfold all_connected. induction 1 as [| [k c] rest Hc _ IH]; simpl.
  - constructor.
  - destruct (String.eqb name k); [exact IH | constructor; assumption].
Qed.

Lemma add_connector_run (name base_url : string) w :
  add_connector name base_url w
  = let client :=
      MCPClient.Build (rstrip_slash base_url) (rstrip_slash base_url ++ "/mcp")
        (Some (length (history w))) in
    (inr client,
     mkWorld (dict_set name client (connectors w))
       (history w ++ [SessionOpened (length (history w))])).
Proof. reflexivity. Qed.

Lemma remove_connector_run (name : string) w :
  remove_connector name w
  = match dict_get name (connectors w) with
    | Some client =>
        (inr tt,
         mkWorld (dict_del name (connectors w))
           (history w ++ closing [(name, client)]))
    | None => (inr tt, w)
    end.
Proof.
  unfold remove_connector, bind, get_connectors.
  destruct (dict_get name (connectors w)) as [client |]; [| reflexivity].
  unfold __aexit__, closing. simpl.
  destruct (MCPClient.session client); simpl; [reflexivity |].
  rewrite app_nil_r. reflexivity.
Qed.

(** X9. Registering and unregistering keep the table well formed: if no
    name is bound twice and every client has a session, the same holds
    after [add_connector] and after [remove_connector], for any name. *)
Theorem registry_stays_well_formed :
  forall (name base_url : string) (w : World),
    unique_keys (connectors w) ->
    all_connected (connectors w) ->
    (unique_keys (connectors (snd (add_connector name base_url w)))
     /\ all_connected (connectors (snd (add_connector name base_url w))))
    /\ (unique_keys (connectors (snd (remove_connector name w)))
        /\ all_connected (connectors (snd (remove_connector name w)))).
Proof.
  intros name base_url w Hu Hc. split.
  - rewrite add_connector_run. simpl. split.
    + apply unique_keys_set. exact Hu.
    + apply all_connected_set; [discriminate | exact Hc].
  - rewrite remove_connector_run.
    destruct (dict_get name (connectors w)); simpl.
    + split; [apply unique_keys_del | apply all_connected_del]; assumption.
    + split; assumption.
Qed.

(** X10. [add_connector] returns a client whose endpoint is the base URL
    without trailing slashes followed by [/mcp] and which has a session;
    afterwards the name is bound to that client and every other name is
    bound as before. *)
Theorem add_connector_binds_the_name :
  forall (name base_url : string) (w : World),
  exists (client : MCPClient.t) (w' : World),
    add_connector name base_url w = (inr client, w')
    /\ MCPClient.mcp_endpoint client = rstrip_slash base_url ++ "/mcp"
    /\ MCPClient.session client <> None
    /\ dict_get name (connectors w') = Some client
    /\ (forall other, other <> name ->
                      dict_get other (connectors w') = dict_get other (connectors w)).
Proof.
  intros name base_url w. eexists _, _.
  split; [apply add_connector_run |]. cbn zeta. simpl.
  split; [reflexivity |]. split; [discriminate |].
  split; [apply dict_get_set_same |].
  intros other Hne. apply dict_get_set_other. exact Hne.
Qed.

(** X11. Registering a name that is already bound replaces the client at
    the same place of the table and opens a new session, but does not
    close the session of the client it replaces: the only call made is the
    opening. *)
Theorem add_connector_leaves_replaced_session_open :
  forall (name base_url : string) (w : World) (old : MCPClient.t),
    dict_get name (connectors w) = Some old ->
    exists (client : MCPClient.t) (w' : World),
      add_connector name base_url w = (inr client, w')
      /\ dict_keys (connectors w') = dict_keys (connectors w)
      /\ dict_get name (connectors w') = Some client
      /\ history w' = (history w ++ [SessionOpened (length (history w))])%list.
Proof.
  intros name base_url w old Hd. eexists _, _.
  split; [apply add_connector_run |]. cbn zeta. simpl.
  split; [apply dict_keys_set_bound; congruence |].
  split; [apply dict_get_set_same | reflexivity].
Qed.

Lemma dict_del_set {V} (k : string) (v : V) (d : list (string * V)) :
  dict_del k (dict_set k v d) = dict_del k d.
Proof.
  induction d as [| [k' v'] d IH]; simpl.
  - rewrite String.eqb_refl. reflexivity.
  - destruct (String.eqb k k') eqn:Hk; simpl.
    + rewrite String.eqb_refl. reflexivity.
    + rewrite Hk, IH. reflexivity.
Qed.

(** X12. Registering a name that is not bound and unregistering it again
    gives back the table as it was; the session that was opened is
    closed. *)
Theorem add_then_remove_restores_registry :
  forall (name base_url : string) (w : World),
    dict_get name (connectors w) = None ->
    bind (add_connector name base_url) (fun _ => remove_connector name) w
    = (inr tt,
       mkWorld (connectors w)
         (history w ++ [SessionOpened (length (history w));
                        SessionClosed (length (history w))])).
Proof.
  intros name base_url w Hd. unfold bind. rewrite add_connector_run.
  cbv beta iota zeta. rewrite remove_connector_run. simpl connectors.
  rewrite dict_get_set_same, dict_del_set, (dict_del_absent _ _ Hd).
  unfold closing. simpl. rewrite <- app_assoc. reflexivity.
Qed.

(** X13. Unregistering a bound name closes the session of its client,
    unbinds the name, and leaves every other name bound as before. *)
Theorem remove_connector_only_touches_its_name :
  forall (name : string) (client : MCPClient.t) (sid : nat) (w : World),
    dict_get name (connectors w) = Some client ->
    MCPClient.session client = Some sid ->
    exists w' : World,
      remove_connector name w = (inr tt, w')
      /\ history w' = (history w ++ [SessionClosed sid])%list
      /\ dict_get name (connectors w') = None
      /\ (forall other, other <> name ->
                        dict_get other (connectors w') = dict_get other (connectors w)).
Proof.
  intros name client sid w Hd Hs. eexists. rewrite remove_connector_run, Hd.
  split; [reflexivity |]. simpl. unfold closing. simpl. rewrite Hs.
  split; [reflexivity |]. split; [apply dict_get_del |].
  intros other Hne. apply dict_get_del_other. exact Hne.
Qed.

(** ** [close_all] *)

Lemma close_all_loop (d : list (string * MCPClient.t)) :
  unique_keys d ->
  forall h,
    for_each (dict_keys d) close_body tt (mkWorld d h)
    = (inr tt, mkWorld [] (h ++ closing d)).
Proof.
  unfold unique_keys.
  induction d as [| [name client] rest IH]; intros Hu h.
  - simpl. rewrite app_nil_r. reflexivity.
  - inversion Hu as [| ? ? Hnotin Hrest]; subst.
    change (for_each (dict_keys ((name, client) :: rest)) close_body tt
              (mkWorld ((name, client) :: rest) h))
      with (bind (close_body name tt)
              (fun acc' => for_each (dict_keys rest) close_body acc')
              (mkWorld ((name, client) :: rest) h)).
    assert (Hrun : close_body name tt (mkWorld ((name, client) :: rest) h)
                   = (inr tt, mkWorld rest (h ++ closing [(name, client)]))).
    { unfold close_body. rewrite remove_connector_run. simpl.
      rewrite String.eqb_refl.
      rewrite (dict_del_absent name rest
                 (proj2 (dict_get_none_keys name rest) Hnotin)).
      reflexivity. }
    rewrite (bind_inr _ _ _ _ _ Hrun), (IH Hrest).
    rewrite <- app_assoc. unfold closing. simpl. rewrite app_nil_r.
    reflexivity.
Qed.

(** X14. When no name is bound twice, [close_all] closes the session of
    every registered client, in the order of the table, and leaves the
    table empty; a second [close_all] then does nothing at all. *)
Theorem close_all_empties_the_registry :
  forall w : World,
    unique_keys (connectors w) ->
    close_all w
    = (inr tt, mkWorld [] (history w ++ closing (connectors w)))
    /\ bind close_all (fun _ => close_all) w = close_all w.
Proof.
  intros w Hu.
  assert (Hrun : close_all w
                 = (inr tt, mkWorld [] (history w ++ closing (connectors w)))).
  { destruct w as [d h].
    change (close_all (mkWorld d h))
      with (for_each (dict_keys d) close_body tt (mkWorld d h)).
    apply close_all_loop. exact Hu. }
  split; [exact Hrun |].
  rewrite (bind_inr _ _ _ _ _ Hrun), Hrun. reflexivity.
Qed.

(** ** The client's endpoint *)

Lemma rstrip_slash_app_slash (s : string) :
  rstrip_slash (s ++ "/") = rstrip_slash s.
Proof.
  induction s as [| c s IH].
  - reflexivity.
  - simpl. rewrite IH. reflexivity.
Qed.

Lemma rstrip_slash_idempotent (s : string) :
  rstrip_slash (rstrip_slash s) = rstrip_slash s.
Proof.
  induction s as [| c s IH]; simpl; [reflexivity |].
  destruct (rstrip_slash s) as [| c' kept] eqn:Hk.
  - destruct (Ascii.eqb c "/") eqn:Hc; simpl; [reflexivity |].
    rewrite Hc. reflexivity.
  - simpl in *. rewrite IH. reflexivity.
Qed.

(** X15. A trailing slash in the base URL makes no difference: the client
    built for [base_url] followed by [/] is the client built for
    [base_url], with the same endpoint; and building a client from the base
    URL a client stores gives that client again. *)
Theorem MCPClient_init_ignores_trailing_slash :
  forall base_url : string,
    MCPClient_init (base_url ++ "/") = MCPClient_init base_url
    /\ MCPClient_init (MCPClient.base_url (MCPClient_init base_url))
       = MCPClient_init base_url.
Proof.
  intros base_url. unfold MCPClient_init. simpl.
  rewrite rstrip_slash_app_slash, rstrip_slash_idempotent. split; reflexivity.
Qed.

(** ** [get_tool_schema] *)

Lemma find_tool_sound (tool_name : string) (tools : list json) (tool : json) :
  find_tool tool_name tools = inr (Some tool) ->
  In tool tools
  /\ exists fields, tool = JObj fields
                    /\ dict_get "name" fields = Some (JStr tool_name).
Proof.
  induction tools as [| first rest IH]; simpl; [discriminate |].
  destruct (py_get first "name" JNull) as [e | n] eqn:Hget; [discriminate |].
  destruct (is_str tool_name n) eqn:Hn.
  - intros Heq. injection Heq as ->. split; [left; reflexivity |].
    destruct tool; try discriminate Hget. simpl in Hget.
    exists fields. split; [reflexivity |].
    destruct (dict_get "name" fields) as [v |]; injection Hget as <-;
      [| discriminate Hn].
    destruct v; try discriminate Hn. simpl in Hn.
    apply String.eqb_eq in Hn. subst s. reflexivity.
  - intros Hrest. destruct (IH Hrest) as [Hin Hname].
    split; [right; exact Hin | exact Hname].
Qed.

Lemma find_tool_first (tool_name : string) (tools : list json) (tool : json) :
  find_tool tool_name tools = inr (Some tool) ->
  exists before after,
    tools = (before ++ tool :: after)%list
    /\ forall earlier, In earlier before ->
         exists n, py_get earlier "name" JNull = inr n
                   /\ is_str tool_name n = false.
Proof.
  induction tools as [| first rest IH]; simpl; [discriminate |].
  destruct (py_get first "name" JNull) as [e | n] eqn:Hget; [discriminate |].
  destruct (is_str tool_name n) eqn:Hn.
  - intros Heq. injection Heq as ->. exists [], rest.
    split; [reflexivity | intros earlier []].
  - intros Hrest. destruct (IH Hrest) as (before & after & -> & Hbefore).
    exists (first :: before), after. split; [reflexivity |].
    intros earlier [<- | Hin]; [exists n; split; assumption |].
    apply Hbefore, Hin.
Qed.

(** X16. The tool [get_tool_schema] returns is an object the provider
    listed whose [name] is the name asked for: the provider answered the
    [tools/list] request without an [error] key, the tool is one of the
    entries under [result.tools] of that answer (the list [list_tools]
    returned), it is the first entry with that name, and nothing but the
    request was sent; and when the transport raises, [get_tool_schema]
    returns [None] instead of raising. *)
Theorem get_tool_schema_returns_the_named_tool :
  forall (self : MCPClient.t) (sid : nat) (tool_name : string) (w : World),
    MCPClient.session self = Some sid ->
    (forall tool w',
        get_tool_schema self tool_name w = (inr (Some tool), w') ->
        exists result listed entries fields,
          session_post (history w) sid (MCPClient.mcp_endpoint self)
            tools_list_request = inr result
          /\ py_in "error" result = inr false
          /\ and_then (py_get result "result" (JObj [])) (fun res =>
               py_get res "tools" (JArr [])) = inr listed
          /\ list_tools self w = (inr listed, w')
          /\ w' = sent w [Posted sid (MCPClient.mcp_endpoint self)
                            tools_list_request]
          /\ py_iter listed = inr entries
          /\ In tool entries
          /\ (exists before after,
                entries = (before ++ tool :: after)%list
                /\ forall earlier, In earlier before ->
                     exists n, py_get earlier "name" JNull = inr n
                               /\ is_str tool_name n = false)
          /\ tool = JObj fields
          /\ dict_get "name" fields = Some (JStr tool_name))
    /\ (forall e,
          session_post (history w) sid (MCPClient.mcp_endpoint self)
            tools_list_request = inl e ->
          fst (get_tool_schema self tool_name w) = inr None).
Proof.
  intros self sid tool_name w Hs.
  pose proof (list_tools_run self sid w Hs) as Hrun.
  unfold get_tool_schema. split.
  - intros tool w' Hget. rewrite (bind_inr _ _ _ _ _ Hrun) in Hget.
    destruct (session_post (history w) sid (MCPClient.mcp_endpoint self)
                tools_list_request) as [e | result] eqn:Hpost;
      [discriminate Hget |].
    destruct (py_in "error" result) as [e | [|]] eqn:Herr;
      try discriminate Hget.
    destruct (and_then (py_get result "result" (JObj [])) (fun res =>
                py_get res "tools" (JArr []))) as [e | listed] eqn:Hlisted;
      [discriminate Hget |].
    unfold bind in Hget. rewrite lift_run in Hget.
    destruct (py_iter listed) as [e | entries] eqn:Hiter; [discriminate |].
    rewrite lift_run in Hget. injection Hget as Hfind <-.
    destruct (find_tool_sound _ _ _ Hfind) as [Hin (fields & Htool & Hname)].
    exists result, listed, entries, fields.
    repeat (split; [first [reflexivity | assumption] |]).
    split; [exact (find_tool_first _ _ _ Hfind) |].
    split; assumption.
  - intros e Hp. rewrite (bind_inr _ _ _ _ _ Hrun). rewrite Hp. reflexivity.
Qed.
End Registry.

(** * Further properties of [ai_agent_debug.py] *)

Section Pipeline.
Context `{O : Outside}.

(** ** The constructor *)

(** X17. The constructor fails, with its [ValueError], exactly when
    neither key is a non-empty string; otherwise the agent it builds has
    the Gemini backend exactly when the Gemini key is non-empty, the
    Anthropic backend exactly when the Anthropic key is non-empty, and so
    at least one backend. *)
Theorem AIAgentDebug_init_needs_one_key :
  forall (gemini_api_key anthropic_api_key : option string) (model : string),
    (truthy gemini_api_key = false /\ truthy anthropic_api_key = false ->
     AIAgentDebug_init gemini_api_key anthropic_api_key model
     = inl (Exn ValueError
              "At least one AI provider (Gemini or Anthropic) must be configured"))
    /\ (truthy gemini_api_key = true \/ truthy anthropic_api_key = true ->
        exists self : AIAgentDebug.t,
          AIAgentDebug_init gemini_api_key anthropic_api_key model = inr self
          /\ is_None (AIAgentDebug.gemini_model self) = negb (truthy gemini_api_key)
          /\ is_None (AIAgentDebug.anthropic_client self)
             = negb (truthy anthropic_api_key)
          /\ (AIAgentDebug.gemini_model self <> None
              \/ AIAgentDebug.anthropic_client self <> None)).
Proof.
  intros gemini_api_key anthropic_api_key model. unfold AIAgentDebug_init. split.
  - intros [Hg Ha]. rewrite Hg, Ha. reflexivity.
  - intros Hkey.
    destruct (truthy gemini_api_key) eqn:Hg;
      destruct (truthy anthropic_api_key) eqn:Ha; simpl.
    + destruct anthropic_api_key; [| discriminate Ha].
      eexists. repeat split. left. discriminate.
    + eexists. repeat split. left. discriminate.
    + destruct anthropic_api_key; [| discriminate Ha].
      eexists. repeat split. right. discriminate.
    + destruct Hkey; discriminate.
Qed.

(** ** Extraction *)

Lemma read_tool_call_entry (entry : json) (tool_calls : list ToolCall.t) :
  match entry_call entry with
  | Some tool_call =>
      read_tool_call entry tool_calls = inr (tool_calls ++ [tool_call])%list
  | None => exists f, read_tool_call entry tool_calls = inl (fault_exn f)
  end.
Proof.
  unfold entry_call, read_tool_call.
  destruct entry; simpl; try (eexists; reflexivity).
  destruct (dict_get "connector_name" fields); simpl; [| eexists; reflexivity].
  destruct (dict_get "tool_name" fields); simpl; [| eexists; reflexivity].
  destruct (dict_get "arguments" fields); simpl; [| eexists; reflexivity].
  destruct (dict_get "reasoning" fields); simpl; [| eexists; reflexivity].
  reflexivity.
Qed.

Lemma read_loop_entries (entries : list json) :
  forall acc result,
    for_each_pure entries read_tool_call acc = inr result
    <-> exists tool_calls,
          map entry_call entries = map Some tool_calls
          /\ result = (acc ++ tool_calls)%list.
Proof.
  induction entries as [| entry rest IH]; intros acc result; simpl.
  - split.
    + intros Heq. injection Heq as <-. exists []. rewrite app_nil_r.
      split; reflexivity.
    + intros (tool_calls & Hmap & ->). destruct tool_calls; [| discriminate].
      rewrite app_nil_r. reflexivity.
  - pose proof (read_tool_call_entry entry acc) as Hentry.
    destruct (entry_call entry) as [tool_call |].
    + rewrite Hentry, IH. split.
      * intros (tool_calls & Hmap & ->). exists (tool_call :: tool_calls).
        simpl. rewrite Hmap, <- app_assoc. split; reflexivity.
      * intros (tool_calls & Hmap & ->).
        destruct tool_calls as [| first others]; [discriminate |].
        simpl in Hmap. injection Hmap as <- Hmap.
        exists others. rewrite <- app_assoc. split; [exact Hmap | reflexivity].
    + destruct Hentry as [f Hf]. rewrite Hf. split; [discriminate |].
      intros (tool_calls & Hmap & _).
      destruct tool_calls; discriminate.
Qed.

(** X18. The loop over the entries of [tool_calls] returns a list of calls
    exactly when every entry is an object with the four keys, and then the
    call at each index is built from the values of the entry at that index:
    the order of the entries is kept and none is dropped or added. *)
Theorem read_tool_calls_keeps_the_order :
  forall (entries : list json) (tool_calls : list ToolCall.t),
    read_tool_calls entries = inr tool_calls
    <-> map entry_call entries = map Some tool_calls.
Proof.
  intros entries tool_calls. unfold read_tool_calls.
  rewrite read_loop_entries. split.
  - intros (calls & Hmap & ->). exact Hmap.
  - intros Hmap. exists tool_calls. split; [exact Hmap | reflexivity].
Qed.

(** X19. An answer that is valid JSON but not an object (a list, a
    string, a number, [true], [false], [null]) is not reported as a parse
    failure: [result.get] raises, and the selection is
    [Error in tool selection: ] followed by the text of that fault, with no
    call. *)
Theorem non_object_answer_is_a_selection_error :
  forall (content : string) (decoded : json),
    json_loads (clean_response content) = inr decoded ->
    (forall fields, decoded <> JObj fields) ->
    selection_of content
    = (JStr ("Error in tool selection: "
             ++ fault_str (NoAttribute (type_name decoded) "get")), []).
Proof.
  intros content decoded Hl Hno. unfold selection_of, parse_selection.
  rewrite Hl. simpl.
  destruct decoded; try reflexivity.
  exfalso. apply (Hno fields). reflexivity.
Qed.

(** X20. An answer that is an object without [tool_calls] selects no
    call, and its rationale is the value of [reasoning], or the empty
    string when that key is absent too. *)
Theorem missing_tool_calls_means_no_call :
  forall (content : string) (fields : list (string * json)),
    json_loads (clean_response content) = inr (JObj fields) ->
    dict_get "tool_calls" fields = None ->
    selection_of content
    = (match dict_get "reasoning" fields with
       | Some reasoning => reasoning
       | None => JStr ""
       end, []).
Proof.
  intros content fields Hl Hc. unfold selection_of, parse_selection.
  rewrite Hl. simpl. rewrite Hc. reflexivity.
Qed.

(** ** Outcomes *)

Lemma execute_one_consistent (tool_call : ToolCall.t) w outcome w' :
  execute_one tool_call w = (inr outcome, w') -> consistent outcome.
Proof.
  unfold execute_one, try_except, bind.
  destruct (call_tool_on_connector _ _ _ w) as [[e | r] w1]; simpl;
    intros Heq; injection Heq as <- _; unfold consistent; simpl.
  - repeat split; [discriminate | intros r; discriminate].
  - repeat split.
    + intros _; discriminate.
    + intros r' Hr. injection Hr as <-. reflexivity.
Qed.

Lemma execute_loop_forall (P : Outcome.t -> Prop) :
  (forall tool_call w outcome w',
      execute_one tool_call w = (inr outcome, w') -> P outcome) ->
  forall tool_calls i acc w outcomes w',
    for_each (enumerate_from i tool_calls) execute_body acc w = (inr outcomes, w') ->
    Forall P acc -> Forall P outcomes.
Proof.
  intros Hone. induction tool_calls as [| tool_call rest IH];
    intros i acc w outcomes w' Hrun Hacc.
  - simpl in Hrun. injection Hrun as <- _. exact Hacc.
  - change (for_each (enumerate_from i (tool_call :: rest)) execute_body acc w)
      with (bind (execute_body (i, tool_call) acc)
              (fun acc' => for_each (enumerate_from (S i) rest) execute_body acc') w)
      in Hrun.
    unfold bind at 1 in Hrun. unfold execute_body at 1 in Hrun.
    unfold bind at 1 in Hrun.
    destruct (execute_one tool_call w) as [[e | outcome] w1] eqn:Hexec;
      [discriminate Hrun |].
    simpl in Hrun. apply (IH _ _ _ _ _ Hrun).
    apply Forall_app. split; [exact Hacc |].
    constructor; [| constructor]. apply (Hone _ _ _ _ Hexec).
Qed.

(** X21. In every outcome [_execute_tool_calls] returns, the status fields
    agree: [success] is [True] exactly when [error] is [None], a success
    holds a result, and where there is a result the entry's error is the
    result's error. *)
Theorem executed_outcomes_are_consistent :
  forall (tool_calls : list ToolCall.t) (w w' : World) (outcomes : list Outcome.t),
    _execute_tool_calls tool_calls w = (inr outcomes, w') ->
    Forall consistent outcomes.
Proof.
  intros tool_calls w w' outcomes Hrun.
  apply (execute_loop_forall consistent execute_one_consistent
           tool_calls 0 [] w outcomes w' Hrun).
  constructor.
Qed.

(** ** The result of a request *)

Lemma _generate_summary_is_a_string self user_query reasoning results w summary w' :
  AIAgentDebug.gemini_model self <> None
  \/ AIAgentDebug.anthropic_client self <> None ->
  _generate_summary self user_query reasoning results w = (inr summary, w') ->
  summary <> None.
Proof.
  intros Hbackend. unfold _generate_summary, bind.
  rewrite lift_run.
  destruct (_create_summary_prompt user_query reasoning results) as [e | prompt];
    [discriminate |].
  unfold try_except, ask_for_summary.
  destruct (AIAgentDebug.gemini_model self) as [gemini |].
  - unfold bind. destruct (ask_gemini gemini prompt w) as [[e | text] w1];
      simpl; intros Heq; injection Heq as <- _; discriminate.
  - destruct (AIAgentDebug.anthropic_client self) as [client |].
    + unfold bind.
      destruct (ask_anthropic "claude-3-sonnet-20240229" 1000 prompt w)
        as [[e | text] w1];
        simpl; intros Heq; injection Heq as <- _; discriminate.
    + destruct Hbackend as [Hb | Hb]; contradiction.
Qed.

(** X22. Every result [process_request] returns for an agent with a
    backend is complete: [success] is [True], the narrative is a string,
    and there is one outcome per call, the outcome at each index carrying
    the call at that index. *)
Theorem returned_result_is_complete :
  forall (self : AIAgentDebug.t) (user_query : string) (w w' : World)
         (result : RequestResult.t),
    AIAgentDebug.gemini_model self <> None
    \/ AIAgentDebug.anthropic_client self <> None ->
    process_request self user_query w = (inr result, w') ->
    RequestResult.success result = true
    /\ RequestResult.summary result <> None
    /\ map Outcome.tool_call (RequestResult.results result)
       = RequestResult.tool_calls result.
Proof.
  intros self user_query w w' result Hbackend. unfold process_request.
  unfold bind at 1.
  destruct (_select_tools self user_query w) as [[e | [reasoning tool_calls]] w1];
    [discriminate |].
  destruct tool_calls as [| tool_call rest].
  - intros Heq. injection Heq as <- _. simpl.
    repeat split. discriminate.
  - destruct (_execute_tool_calls_returns (tool_call :: rest) w1)
      as (outcomes & Hexec & Hcalls & _).
    rewrite (bind_inr _ _ _ _ _ Hexec). unfold bind.
    destruct (_generate_summary self user_query reasoning outcomes _)
      as [[e | summary] w3] eqn:Hsum; [discriminate |].
    intros Heq. injection Heq as <- _. simpl.
    split; [reflexivity |]. split; [| exact Hcalls].
    eapply _generate_summary_is_a_string; eassumption.
Qed.

(** ** What a request touches *)

Section Frame.
Variable P : Event -> Prop.
Hypothesis P_posted : forall sid url body, P (Posted sid url body).
Hypothesis P_gemini : forall model prompt, P (GeminiAsked model prompt).

Lemma only_adds_ret {A} (a : A) : only_adds P (ret a).
Proof.
  intros w. split; [reflexivity |]. exists []. simpl.
  rewrite app_nil_r. split; [reflexivity | constructor].
Qed.

Lemma only_adds_raise {A} (e : exn) : only_adds P (@raise A e).
Proof.
  intros w. split; [reflexivity |]. exists []. simpl.
  rewrite app_nil_r. split; [reflexivity | constructor].
Qed.

Lemma only_adds_lift {A} (r : exn + A) : only_adds P (lift r).
Proof. destruct r; [apply only_adds_raise | apply only_adds_ret]. Qed.

Lemma only_adds_get_connectors : only_adds P get_connectors.
Proof.
  intros w. split; [reflexivity |]. exists []. simpl.
  rewrite app_nil_r. split; [reflexivity | constructor].
Qed.

Lemma only_adds_bind {A B} (c : M A) (k : A -> M B) :
  only_adds P c -> (forall a, only_adds P (k a)) -> only_adds P (bind c k).
Proof.
  intros Hc Hk w. unfold bind.
  destruct (Hc w) as (Hconn & evs1 & Hhist & HP1).
  destruct (c w) as [[e | a] w1]; simpl in *.
  - split; [exact Hconn | exists evs1; split; assumption].
  - destruct (Hk a w1) as (Hconn2 & evs2 & Hhist2 & HP2).
    split; [congruence |]. exists (evs1 ++ evs2)%list. split.
    + rewrite Hhist2, Hhist, app_assoc. reflexivity.
    + apply Forall_app. split; assumption.
Qed.

Lemma only_adds_try_except_when {A} (caught : exn -> bool) (c : M A)
  (handler : exn -> M A) :
  only_adds P c -> (forall e, only_adds P (handler e)) ->
  only_adds P (try_except_when caught c handler).
Proof.
  intros Hc Hh w. unfold try_except_when.
  destruct (Hc w) as (Hconn & evs1 & Hhist & HP1).
  destruct (c w) as [[e | a] w1]; simpl in *.
  - destruct (caught e).
    + destruct (Hh e w1) as (Hconn2 & evs2 & Hhist2 & HP2).
      split; [congruence |]. exists (evs1 ++ evs2)%list. split.
      * rewrite Hhist2, Hhist, app_assoc. reflexivity.
      * apply Forall_app. split; assumption.
    + split; [exact Hconn | exists evs1; split; assumption].
  - split; [exact Hconn | exists evs1; split; assumption].
Qed.

Lemma only_adds_try_except {A} (c : M A) (handler : exn -> M A) :
  only_adds P c -> (forall e, only_adds P (handler e)) ->
  only_adds P (try_except c handler).
Proof.
  intros Hc Hh.
  assert (Heq : forall w, try_except c handler w
                          = try_except_when (fun _ => true) c handler w).
  { intros w. unfold try_except, try_except_when.
    destruct (c w) as [[e | a] w1]; reflexivity. }
  intros w. rewrite Heq. apply only_adds_try_except_when; assumption.
Qed.

Lemma only_adds_for_each {A S} (body : A -> S -> M S) (xs : list A) :
  (forall x acc, only_adds P (body x acc)) ->
  forall acc, only_adds P (for_each xs body acc).
Proof.
  intros Hbody. induction xs as [| x rest IH]; intros acc; simpl.
  - apply only_adds_ret.
  - apply only_adds_bind; [apply Hbody | exact IH].
Qed.

Lemma only_adds_post sid url body : only_adds P (post sid url body).
Proof.
  intros w. split; [reflexivity |]. eexists. simpl.
  split; [reflexivity |]. constructor; [apply P_posted | constructor].
Qed.

Lemma only_adds_call_tool self tool_name arguments :
  only_adds P (call_tool self tool_name arguments).
Proof.
  unfold call_tool. destruct (MCPClient.session self); [| apply only_adds_raise].
  apply only_adds_try_except; [| intros e; apply only_adds_lift].
  apply only_adds_bind; [apply only_adds_post | intros result].
  apply only_adds_bind; [apply only_adds_lift | intros [|]].
  - repeat (apply only_adds_bind; [apply only_adds_lift | intros ?]).
    apply only_adds_lift.
  - repeat (apply only_adds_bind; [apply only_adds_lift | intros ?]).
    apply only_adds_lift.
Qed.

Lemma only_adds_list_tools self : only_adds P (list_tools self).
Proof.
  unfold list_tools. destruct (MCPClient.session self); [| apply only_adds_raise].
  apply only_adds_try_except; [| intros e; apply only_adds_ret].
  apply only_adds_bind; [apply only_adds_post | intros result].
  apply only_adds_bind; [apply only_adds_lift | intros [|]].
  - apply only_adds_ret.
  - apply only_adds_bind; [apply only_adds_lift | intros ?].
    apply only_adds_lift.
Qed.

Lemma only_adds__get_available_tools : only_adds P _get_available_tools.
Proof.
  unfold _get_available_tools.
  apply only_adds_bind; [| intros all_tools; apply only_adds_lift].
  unfold list_all_tools.
  apply only_adds_bind; [apply only_adds_get_connectors | intros d].
  apply only_adds_for_each. intros [name client] acc.
  apply only_adds_bind; [apply only_adds_list_tools | intros tools].
  apply only_adds_ret.
Qed.

Lemma only_adds__execute_tool_calls tool_calls :
  only_adds P (_execute_tool_calls tool_calls).
Proof.
  unfold _execute_tool_calls. apply only_adds_for_each.
  intros [i tool_call] acc. unfold execute_body.
  apply only_adds_bind; [| intros outcome; apply only_adds_ret].
  unfold execute_one.
  apply only_adds_try_except; [| intros e; apply only_adds_ret].
  apply only_adds_bind; [| intros result; apply only_adds_ret].
  unfold call_tool_on_connector.
  apply only_adds_bind; [apply only_adds_get_connectors | intros d].
  apply only_adds_bind; [apply only_adds_lift | intros registered].
  destruct (negb registered); [apply only_adds_raise |].
  apply only_adds_bind; [apply only_adds_lift | intros client].
  apply only_adds_call_tool.
Qed.

Lemma only_adds_ask_gemini model prompt : only_adds P (ask_gemini model prompt).
Proof.
  intros w. split; [reflexivity |]. eexists. simpl.
  split; [reflexivity |]. constructor; [apply P_gemini | constructor].
Qed.

Lemma only_adds_ask_anthropic model max_tokens prompt :
  P (AnthropicAsked model max_tokens prompt) ->
  only_adds P (ask_anthropic model max_tokens prompt).
Proof.
  intros HP w. split; [reflexivity |]. eexists. simpl.
  split; [reflexivity |]. constructor; [exact HP | constructor].
Qed.

Lemma only_adds__select_tools (self : AIAgentDebug.t) user_query :
  (AIAgentDebug.gemini_model self = None ->
   forall model max_tokens prompt, P (AnthropicAsked model max_tokens prompt)) ->
  only_adds P (_select_tools self user_query).
Proof.
  intros P_anthropic. unfold _select_tools.
  apply only_adds_bind; [apply only_adds__get_available_tools | intros tools].
  apply only_adds_try_except; [| intros e; apply only_adds_ret].
  apply only_adds_bind.
  - unfold ask_for_selection.
    destruct (AIAgentDebug.gemini_model self); [apply only_adds_ask_gemini |].
    destruct (AIAgentDebug.anthropic_client self); [| apply only_adds_raise].
    apply only_adds_ask_anthropic. apply P_anthropic. reflexivity.
  - intros content.
    apply only_adds_try_except_when; [apply only_adds_lift |].
    intros e. apply only_adds_ret.
Qed.

Lemma only_adds__generate_summary (self : AIAgentDebug.t) user_query reasoning
  results :
  (AIAgentDebug.gemini_model self = None ->
   forall model max_tokens prompt, P (AnthropicAsked model max_tokens prompt)) ->
  only_adds P (_generate_summary self user_query reasoning results).
Proof.
  intros P_anthropic. unfold _generate_summary.
  apply only_adds_bind; [apply only_adds_lift | intros prompt].
  apply only_adds_try_except; [| intros e; apply only_adds_ret].
  unfold ask_for_summary.
  destruct (AIAgentDebug.gemini_model self).
  - apply only_adds_bind; [apply only_adds_ask_gemini | intros text].
    apply only_adds_ret.
  - destruct (AIAgentDebug.anthropic_client self); [| apply only_adds_ret].
    apply only_adds_bind; [| intros text; apply only_adds_ret].
    apply only_adds_ask_anthropic. apply P_anthropic. reflexivity.
Qed.

Lemma only_adds_process_request (self : AIAgentDebug.t) user_query :
  (AIAgentDebug.gemini_model self = None ->
   forall model max_tokens prompt, P (AnthropicAsked model max_tokens prompt)) ->
  only_adds P (process_request self user_query).
Proof.
  intros P_anthropic. unfold process_request.
  apply only_adds_bind; [apply only_adds__select_tools; exact P_anthropic |].
  intros [reasoning [| tool_call rest]]; [apply only_adds_ret |].
  apply only_adds_bind; [apply only_adds__execute_tool_calls | intros results].
  apply only_adds_bind;
    [apply only_adds__generate_summary; exact P_anthropic | intros summary].
  apply only_adds_ret.
Qed.
End Frame.

(** X23. Whether it returns or raises, [process_request] leaves the
    registry as it found it, and the only calls it makes are requests to
    providers and to the reasoning backends: it opens no session and closes
    none. *)
Theorem process_request_leaves_the_registry_alone :
  forall (self : AIAgentDebug.t) (user_query : string),
    only_adds is_request (process_request self user_query).
Proof.
  intros self user_query.
  apply only_adds_process_request; intros; exact I.
Qed.

(** X24. An agent that has the Gemini backend never calls Anthropic during
    a request, whether or not it has the Anthropic backend too and whatever
    Gemini answers or raises. *)
Theorem gemini_is_preferred_to_anthropic :
  forall (self : AIAgentDebug.t) (user_query : string),
    AIAgentDebug.gemini_model self <> None ->
    only_adds not_anthropic (process_request self user_query).
Proof.
  intros self user_query Hg.
  apply only_adds_process_request; try (intros; exact I).
  intros Hnone. contradiction.
Qed.

(** ** The catalogue *)

Lemma _get_available_tools_run w :
  _get_available_tools w
  = bind list_all_tools
      (fun all_tools => lift (for_each_pure all_tools add_connector_tools [])) w.
Proof. reflexivity. Qed.

Lemma for_each_pure_fails {A S} (body : A -> S -> exn + S) (xs : list A) (x : A) :
  In x xs ->
  (forall acc, exists e, body x acc = inl e) ->
  forall acc, exists e, for_each_pure xs body acc = inl e.
Proof.
  intros Hin Hbad. induction xs as [| first rest IH]; intros acc; [contradiction |].
  simpl. destruct (body first acc) as [e | acc'] eqn:Hfirst.
  - exists e. reflexivity.
  - destruct Hin as [-> | Hin].
    + destruct (Hbad acc) as [e He]. congruence.
    + apply IH. exact Hin.
Qed.

(** X25. A provider that lists, among its tools, a value that is not an
    object makes the whole request raise: the descriptors are built before
    the [try] of [_select_tools], so the [AttributeError] of [tool.get]
    leaves [process_request], whatever the other providers listed. *)
Theorem listed_non_object_makes_the_request_raise :
  forall (self : AIAgentDebug.t) (user_query : string) (w w1 : World)
         (all_tools : list (string * json)) (name : string)
         (items : list json) (item : json),
    list_all_tools w = (inr all_tools, w1) ->
    In (name, JArr items) all_tools ->
    In item items ->
    (forall fields, item <> JObj fields) ->
    exists e : exn, process_request self user_query w = (inl e, w1).
Proof.
  intros self user_query w w1 all_tools name items item Hl Hentry Hitem Hno.
  assert (Hbad : forall acc, exists e, add_connector_tools (name, JArr items) acc
                                       = inl e).
  { intros acc. simpl.
    apply (for_each_pure_fails (add_tool name) items item Hitem).
    intros acc'. unfold add_tool.
    destruct item; simpl; try (eexists; reflexivity).
    exfalso. apply (Hno fields). reflexivity. }
  destruct (for_each_pure_fails add_connector_tools all_tools _ Hentry Hbad [])
    as [e He].
  exists e. apply process_request_catalog_raised.
  rewrite _get_available_tools_run, (bind_inr _ _ _ _ _ Hl), He. reflexivity.
Qed.

Lemma list_all_keys (d : list (string * MCPClient.t)) (known : list string) :
  forall acc w result w',
    for_each d list_all_body acc w = (inr result, w') ->
    incl (dict_keys d) known ->
    incl (dict_keys acc) known ->
    incl (dict_keys result) known.
Proof.
  induction d as [| [name client] rest IH]; intros acc w result w' Hrun Hd Hacc.
  - simpl in Hrun. injection Hrun as <- _. exact Hacc.
  - change (for_each ((name, client) :: rest) list_all_body acc w)
      with (bind (list_all_body (name, client) acc)
              (fun acc' => for_each rest list_all_body acc') w) in Hrun.
    unfold bind at 1 in Hrun. unfold list_all_body at 1 in Hrun.
    unfold bind at 1 in Hrun.
    destruct (list_tools client w) as [[e | tools] w1]; [discriminate |].
    simpl in Hrun. apply (IH _ _ _ _ Hrun).
    + intros k Hk. apply Hd. right. exact Hk.
    + intros k Hk.
      destruct (String.eqb k name) eqn:Hkn.
      * apply String.eqb_eq in Hkn. subst k. apply Hd. left. reflexivity.
      * apply String.eqb_neq in Hkn. apply Hacc.
        destruct (dict_get k acc) eqn:Hget.
        -- destruct (in_dec string_dec k (dict_keys acc)) as [Hin | Hnot];
             [exact Hin |].
           apply dict_get_none_keys in Hnot. congruence.
        -- exfalso.
           apply (proj1 (dict_get_none_keys k (dict_set name tools acc))).
           ++ rewrite (dict_get_set_other name k tools acc Hkn). exact Hget.
           ++ exact Hk.
Qed.

Lemma add_tool_connector (connector_name : string) (tool : json)
  (known : list string) (acc tools : list AITool.t) :
  add_tool connector_name tool acc = inr tools ->
  In connector_name known ->
  Forall (fun t => In (AITool.connector_name t) known) acc ->
  Forall (fun t => In (AITool.connector_name t) known) tools.
Proof.
  unfold add_tool, new_AITool. intros Hadd Hin Hacc.
  destruct (py_get tool "name" (JStr "")) as [e | n]; [discriminate |].
  destruct (py_get tool "description" (JStr "")) as [e | d]; [discriminate |].
  destruct (py_get tool "inputSchema" (JObj [])) as [e | s]; [discriminate |].
  simpl in Hadd.
  destruct (validate_str n); [| discriminate].
  destruct (validate_str d); [| discriminate].
  destruct (validate_dict s); [| discriminate].
  simpl in Hadd. injection Hadd as <-.
  apply Forall_app. split; [exact Hacc |].
  constructor; [exact Hin | constructor].
Qed.

Lemma for_each_pure_keeps {A S} (body : A -> S -> exn + S) (I : S -> Prop)
  (xs : list A) :
  (forall x acc acc', In x xs -> body x acc = inr acc' -> I acc -> I acc') ->
  forall acc result,
    for_each_pure xs body acc = inr result -> I acc -> I result.
Proof.
  induction xs as [| x rest IH]; intros Hbody acc result Hrun Hacc.
  - simpl in Hrun. injection Hrun as <-. exact Hacc.
  - simpl in Hrun. destruct (body x acc) as [e | acc'] eqn:Hx; [discriminate |].
    apply (IH (fun y a a' Hy => Hbody y a a' (or_intror Hy)) _ _ Hrun).
    apply (Hbody x acc acc' (or_introl eq_refl) Hx Hacc).
Qed.

(** X26. Every descriptor [_get_available_tools] returns is annotated with
    the name of a connector that is registered. *)
Theorem descriptors_name_registered_connectors :
  forall (w w1 : World) (tools : list AITool.t),
    _get_available_tools w = (inr tools, w1) ->
    Forall (fun tool => In (AITool.connector_name tool) (dict_keys (connectors w)))
      tools.
Proof.
  intros w w1 tools. rewrite _get_available_tools_run. unfold bind at 1.
  destruct (list_all_tools w) as [[e | all_tools] w0] eqn:Hl; [discriminate |].
  rewrite lift_run. intros Heq.
  destruct (for_each_pure all_tools add_connector_tools []) as [e | tools'] eqn:Hc;
    [discriminate |].
  injection Heq as <- _.
  assert (Hkeys : incl (dict_keys all_tools) (dict_keys (connectors w))).
  { change (list_all_tools w)
      with (for_each (connectors w) list_all_body [] w) in Hl.
    apply (list_all_keys _ _ _ _ _ _ Hl); [apply incl_refl | intros k []]. }
  apply (for_each_pure_keeps add_connector_tools
           (Forall (fun tool =>
                      In (AITool.connector_name tool) (dict_keys (connectors w))))
           all_tools) with (acc := []); [| exact Hc | constructor].
  intros [name tools_json] acc acc' Hentry Hbody Hacc. simpl in Hbody.
  destruct (py_iter tools_json) as [e | items]; [discriminate |].
  simpl in Hbody.
  apply (for_each_pure_keeps (add_tool name) _ items) with (acc := acc);
    [| exact Hbody | exact Hacc].
  intros item a a' _ Hadd Ha.
  apply (add_tool_connector name item _ a a' Hadd); [| exact Ha].
  apply Hkeys. apply (in_map fst) in Hentry. exact Hentry.
Qed.
End Pipeline.

(** * Further properties of the texts *)

Section Texts.
Context `{O : Outside}.

(** ** Appending *)

Lemma str_app_nil_r (s : string) : s ++ "" = s.
Proof. induction s as [| c s IH]; simpl; [| rewrite IH]; reflexivity. Qed.

Lemma str_app_assoc (a b c : string) : (a ++ b) ++ c = a ++ b ++ c.
Proof. induction a as [| x a IH]; simpl; [| rewrite IH]; reflexivity. Qed.

Lemma str_length_app (a b : string) :
  String.length (a ++ b) = String.length a + String.length b.
Proof. induction a as [| x a IH]; simpl; [| rewrite IH]; reflexivity. Qed.

Lemma substring_skip (p s : string) (m : nat) :
  substring (String.length p) m (p ++ s) = substring 0 m s.
Proof. induction p as [| x p IH]; simpl; [reflexivity | exact IH]. Qed.

Lemma substring_all (s : string) : substring 0 (String.length s) s = s.
Proof. induction s as [| c s IH]; simpl; [| rewrite IH]; reflexivity. Qed.

Lemma substring_prefix (s p : string) :
  substring 0 (String.length s) (s ++ p) = s.
Proof.
  induction s as [| c s IH]; simpl.
  - destruct p; reflexivity.
  - rewrite IH. reflexivity.
Qed.

Lemma slice_from_app (p s : string) : slice_from (String.length p) (p ++ s) = s.
Proof.
  unfold slice_from. rewrite str_length_app, Nat.add_comm, Nat.add_sub.
  rewrite substring_skip. apply substring_all.
Qed.

Lemma slice_drop_last_app (s p : string) :
  slice_drop_last (String.length p) (s ++ p) = s.
Proof.
  unfold slice_drop_last. rewrite str_length_app, Nat.add_sub.
  apply substring_prefix.
Qed.

Lemma endswith_app (s p : string) : endswith (s ++ p) p = true.
Proof.
  unfold endswith. rewrite str_length_app, Nat.add_sub.
  rewrite substring_skip, substring_all, String.eqb_refl, andb_true_r.
  apply Nat.leb_le. lia.
Qed.

(** ** Containment *)

Lemma prefix_split (p s : string) :
  String.prefix p s = true -> exists rest, s = p ++ rest.
Proof.
  revert s. induction p as [| c p IH]; intros s Hp.
  - exists s. reflexivity.
  - destruct s as [| c' s]; [discriminate |]. simpl in Hp.
    destruct (ascii_dec c c') as [<- | _]; [| discriminate].
    destruct (IH s Hp) as [rest ->]. exists rest. reflexivity.
Qed.

Lemma mentions_split (s p : string) :
  mentions s p <-> exists before after, s = before ++ p ++ after.
Proof.
  unfold mentions. split.
  - induction s as [| c s IH]; rewrite is_substring_unfold; intros Hsub.
    + rewrite orb_false_r in Hsub. destruct (prefix_split _ _ Hsub) as [rest Hr].
      exists "", rest. exact Hr.
    + apply orb_true_iff in Hsub. destruct Hsub as [Hp | Hrest].
      * destruct (prefix_split _ _ Hp) as [rest Hr]. exists "", rest. exact Hr.
      * destruct (IH Hrest) as (before & after & ->).
        exists (String c before), after. reflexivity.
  - intros (before & after & ->). apply mentions_inside.
Qed.

Lemma mentions_refl (p : string) : mentions p p.
Proof.
  apply mentions_split. exists "", "". simpl. rewrite str_app_nil_r. reflexivity.
Qed.

Lemma mentions_app_l (a s p : string) : mentions s p -> mentions (a ++ s) p.
Proof.
  rewrite !mentions_split. intros (before & after & ->).
  exists (a ++ before), after. rewrite str_app_assoc. reflexivity.
Qed.

Lemma mentions_app_r (s b p : string) : mentions s p -> mentions (s ++ b) p.
Proof.
  rewrite !mentions_split. intros (before & after & ->).
  exists before, (after ++ b). rewrite !str_app_assoc. reflexivity.
Qed.

Lemma mentions_trans (s m p : string) : mentions s m -> mentions m p -> mentions s p.
Proof.
  rewrite (mentions_split s m). intros (before & after & ->) Hp.
  apply mentions_app_l, mentions_app_r. exact Hp.
Qed.

Lemma mentions_join (sep : string) (parts : list string) (part : string) :
  In part parts -> mentions (join sep parts) part.
Proof.
  induction parts as [| first rest IH]; intros Hin; [contradiction |].
  destruct rest as [| second rest].
  - destruct Hin as [-> | []]. apply mentions_refl.
  - change (join sep (first :: second :: rest))
      with (first ++ sep ++ join sep (second :: rest)).
    destruct Hin as [-> | Hin].
    + apply mentions_app_r, mentions_refl.
    + apply mentions_app_l, mentions_app_l, IH. exact Hin.
Qed.

(** X27. The selection prompt contains the user's request verbatim and,
    for every available tool, its line [- name (connector): description]. *)
Theorem selection_prompt_shows_request_and_tools :
  forall (user_query : string) (available_tools : list AITool.t),
    mentions (_create_tool_selection_prompt user_query available_tools) user_query
    /\ forall tool,
         In tool available_tools ->
         mentions (_create_tool_selection_prompt user_query available_tools)
           (tool_line tool).
Proof.
  intros user_query available_tools. unfold _create_tool_selection_prompt. split.
  - eapply mentions_trans.
    + apply mentions_join. do 6 right. left. reflexivity.
    + apply mentions_app_l, mentions_refl.
  - intros tool Hin. eapply mentions_trans.
    + apply mentions_join. do 4 right. left. reflexivity.
    + apply mentions_join. apply (in_map tool_line) in Hin. exact Hin.
Qed.

(** ** Trimming *)

Lemma lstrip_app_space (ws s : string) :
  all_space ws = true -> lstrip (ws ++ s) = lstrip s.
Proof.
  induction ws as [| c ws IH]; simpl; [reflexivity |].
  intros Hws. apply andb_true_iff in Hws. destruct Hws as [Hc Hws].
  rewrite Hc. apply IH. exact Hws.
Qed.

Lemma lstrip_clean (s : string) : starts_clean s = true -> lstrip s = s.
Proof.
  destruct s as [| c s]; simpl; [reflexivity |].
  intros Hc. apply negb_true_iff in Hc. rewrite Hc. reflexivity.
Qed.

Lemma starts_clean_lstrip (s : string) : starts_clean (lstrip s) = true.
Proof.
  induction s as [| c s IH]; simpl; [reflexivity |].
  destruct (isspace c) eqn:Hc; [exact IH |]. simpl. rewrite Hc. reflexivity.
Qed.

Lemma rstrip_all_space (ws : string) : all_space ws = true -> rstrip ws = "".
Proof.
  induction ws as [| c ws IH]; simpl; [reflexivity |].
  intros Hws. apply andb_true_iff in Hws. destruct Hws as [Hc Hws].
  rewrite (IH Hws), Hc. reflexivity.
Qed.

Lemma rstrip_app_space (s ws : string) :
  all_space ws = true -> rstrip (s ++ ws) = rstrip s.
Proof.
  intros Hws. induction s as [| c s IH]; simpl.
  - apply rstrip_all_space. exact Hws.
  - rewrite IH. reflexivity.
Qed.

Lemma rstrip_app_clean (s p : string) :
  rstrip p = p -> p <> "" -> rstrip (s ++ p) = s ++ p.
Proof.
  intros Hp Hne. induction s as [| c s IH]; simpl; [exact Hp |].
  rewrite IH. destruct (s ++ p) eqn:Hsp; [| reflexivity].
  destruct s; simpl in Hsp; [contradiction | discriminate].
Qed.

Lemma rstrip_idempotent (s : string) : rstrip (rstrip s) = rstrip s.
Proof.
  induction s as [| c s IH]; simpl; [reflexivity |].
  destruct (rstrip s) as [| c' kept] eqn:Hk.
  - destruct (isspace c) eqn:Hc; simpl; [reflexivity |]. rewrite Hc. reflexivity.
  - simpl in *. rewrite IH. reflexivity.
Qed.

Lemma starts_clean_rstrip (s : string) :
  starts_clean s = true -> starts_clean (rstrip s) = true.
Proof.
  destruct s as [| c s]; simpl; [reflexivity |].
  intros Hc. destruct (rstrip s).
  - apply negb_true_iff in Hc. rewrite Hc. simpl. rewrite Hc. reflexivity.
  - exact Hc.
Qed.

Lemma strip_app_space (ws1 body ws2 : string) :
  all_space ws1 = true -> all_space ws2 = true ->
  starts_clean body = true -> rstrip body = body ->
  strip (ws1 ++ body ++ ws2) = body.
Proof.
  intros H1 H2 Hstart Hend. unfold strip.
  rewrite (lstrip_app_space _ _ H1).
  destruct body as [| c body].
  - simpl.
    assert (Hl : forall ws, all_space ws = true -> lstrip ws = "").
    { induction ws as [| x ws IH]; simpl; [reflexivity |].
      intros Hx. apply andb_true_iff in Hx. destruct Hx as [Hx Hws].
      rewrite Hx. apply IH. exact Hws. }
    rewrite (Hl ws2 H2). reflexivity.
  - rewrite lstrip_clean; [| exact Hstart].
    rewrite (rstrip_app_space _ _ H2). exact Hend.
Qed.

(** X28. An answer wrapped in a fence tagged [json] is cleaned to the text
    inside the fence: for any text without leading or trailing whitespace,
    and any runs of whitespace before the fence, around the text and after
    the closing fence, [clean_response] gives back the text. *)
Theorem json_fence_is_stripped :
  forall ws0 ws1 ws2 ws3 body : string,
    all_space ws0 = true -> all_space ws1 = true ->
    all_space ws2 = true -> all_space ws3 = true ->
    starts_clean body = true -> rstrip body = body ->
    clean_response (ws0 ++ "```json" ++ ws1 ++ body ++ ws2 ++ "```" ++ ws3) = body.
Proof.
  intros ws0 ws1 ws2 ws3 body H0 H1 H2 H3 Hstart Hend. unfold clean_response.
  assert (Hstrip : strip (ws0 ++ "```json" ++ ws1 ++ body ++ ws2 ++ "```" ++ ws3)
                   = "```json" ++ ws1 ++ body ++ ws2 ++ "```").
  { unfold strip. rewrite (lstrip_app_space _ _ H0).
    rewrite lstrip_clean; [| reflexivity].
    replace ("```json" ++ ws1 ++ body ++ ws2 ++ "```" ++ ws3)
      with ((("```json" ++ ws1 ++ body ++ ws2) ++ "```") ++ ws3)
      by (rewrite !str_app_assoc; reflexivity).
    rewrite (rstrip_app_space _ _ H3).
    rewrite rstrip_app_clean; [| reflexivity | discriminate].
    rewrite !str_app_assoc. reflexivity. }
  rewrite Hstrip.
  assert (Hstart7 : startswith ("```json" ++ ws1 ++ body ++ ws2 ++ "```") "```json"
                    = true) by apply prefix_app.
  rewrite Hstart7.
  change 7 with (String.length "```json"). rewrite slice_from_app.
  replace (ws1 ++ body ++ ws2 ++ "```") with ((ws1 ++ body ++ ws2) ++ "```")
    by (rewrite !str_app_assoc; reflexivity).
  rewrite endswith_app.
  change 3 with (String.length "```"). rewrite slice_drop_last_app.
  apply strip_app_space; assumption.
Qed.

(** X29. Whatever the answer, the text [clean_response] hands to
    [json.loads] has no leading and no trailing whitespace. *)
Theorem cleaned_text_is_trimmed :
  forall content : string,
    starts_clean (clean_response content) = true
    /\ rstrip (clean_response content) = clean_response content.
Proof.
  intros content. unfold clean_response, strip. split.
  - apply starts_clean_rstrip, starts_clean_lstrip.
  - apply rstrip_idempotent.
Qed.

(** ** The tools summary *)

Lemma fold_append {A} (g : A -> string) (xs : list A) :
  forall start,
    fold_left (fun text x => text ++ g x) xs start
    = start ++ fold_left (fun text x => text ++ g x) xs "".
Proof.
  induction xs as [| x xs IH]; intros start; simpl.
  - rewrite str_app_nil_r. reflexivity.
  - rewrite IH, (IH (g x)), str_app_assoc. reflexivity.
Qed.

Lemma fold_append_mentions {A} (g : A -> string) (xs : list A) (x : A) :
  In x xs ->
  forall start, mentions (fold_left (fun text y => text ++ g y) xs start) (g x).
Proof.
  induction xs as [| first rest IH]; intros Hin start; [contradiction |].
  simpl. destruct Hin as [-> | Hin].
  - rewrite fold_append. apply mentions_app_r, mentions_app_l, mentions_refl.
  - apply IH. exact Hin.
Qed.

Lemma fold_left_same {A B} (f g : B -> A -> B) (xs : list A) :
  (forall b x, f b x = g b x) ->
  forall start, fold_left f xs start = fold_left g xs start.
Proof.
  intros Hfg. induction xs as [| x xs IH]; intros start; simpl; [reflexivity |].
  rewrite Hfg. apply IH.
Qed.

Lemma render_connectors_appends connectors summary :
  render_connectors connectors summary
  = fold_left (fun text entry => text ++ connector_text entry) connectors summary.
Proof.
  unfold render_connectors. apply fold_left_same.
  intros text [connector_name tools]. cbn zeta.
  change (fun summary0 tool =>
            summary0 ++ "- " ++ AITool.name tool ++ ": "
            ++ AITool.description tool ++ nl)
    with (fun summary0 tool => summary0 ++ summary_line tool).
  rewrite fold_append. unfold connector_text, summary_heading. cbn [fst snd].
  rewrite !str_app_assoc. reflexivity.
Qed.

Lemma dict_get_in {V} (k : string) (v : V) (d : list (string * V)) :
  dict_get k d = Some v -> In (k, v) d.
Proof.
  induction d as [| [k' v'] d IH]; simpl; [discriminate |].
  destruct (String.eqb k k') eqn:Hk.
  - apply String.eqb_eq in Hk. subst k'. intros Heq. injection Heq as ->.
    left. reflexivity.
  - intros Hget. right. apply IH. exact Hget.
Qed.

Lemma group_step_covers connectors tool (seen : list AITool.t) :
  (forall t, In t seen ->
             exists group, dict_get (AITool.connector_name t) connectors = Some group
                           /\ In t group) ->
  forall t, In t (seen ++ [tool])%list ->
            exists group,
              dict_get (AITool.connector_name t) (group_step connectors tool)
              = Some group
              /\ In t group.
Proof.
  intros Hcover t Hin. unfold group_step. cbn zeta.
  set (k := AITool.connector_name tool).
  set (prepared := if dict_mem k connectors then connectors
                   else dict_set k [] connectors).
  assert (Hprepared : exists group,
             dict_get k prepared = Some group
             /\ (forall g, dict_get k connectors = Some g -> group = g)
             /\ (forall other, other <> k ->
                               dict_get other prepared = dict_get other connectors)).
  { unfold prepared, dict_mem. destruct (dict_get k connectors) as [g |] eqn:Hk.
    - exists g. split; [exact Hk |]. split; [| reflexivity].
      intros g' Hg'. congruence.
    - exists []. split; [apply dict_get_set_same |]. split; [discriminate |].
      intros other Hne. apply dict_get_set_other. exact Hne. }
  destruct Hprepared as (group & Hget & Hsame & Hother). rewrite Hget.
  apply in_app_or in Hin.
  destruct (string_dec (AITool.connector_name t) k) as [Hk | Hk].
  - rewrite Hk, dict_get_set_same. eexists. split; [reflexivity |].
    apply in_or_app. destruct Hin as [Hin | [<- | []]].
    + left. destruct (Hcover t Hin) as (g & Hg & Htg). rewrite Hk in Hg.
      rewrite (Hsame g Hg). exact Htg.
    + right. left. reflexivity.
  - destruct Hin as [Hin | [<- | []]]; [| contradiction Hk; reflexivity].
    rewrite (dict_get_set_other _ _ _ _ Hk), (Hother _ Hk).
    apply Hcover. exact Hin.
Qed.

Lemma group_by_connector_covers (tools : list AITool.t) :
  forall tool, In tool tools ->
               exists group,
                 dict_get (AITool.connector_name tool) (group_by_connector tools)
                 = Some group
                 /\ In tool group.
Proof.
  unfold group_by_connector.
  change (fun connectors tool =>
            let k := AITool.connector_name tool in
            let connectors0 :=
              if dict_mem k connectors then connectors else dict_set k [] connectors in
            match dict_get k connectors0 with
            | Some group => dict_set k (group ++ [tool])%list connectors0
            | None => connectors0
            end) with group_step.
  assert (Hgen : forall rest seen connectors,
             (forall t, In t seen ->
                        exists group,
                          dict_get (AITool.connector_name t) connectors = Some group
                          /\ In t group) ->
             forall t, In t (seen ++ rest)%list ->
                       exists group,
                         dict_get (AITool.connector_name t)
                           (fold_left group_step rest connectors) = Some group
                         /\ In t group).
  { induction rest as [| tool rest IH]; intros seen connectors Hcover t Hin.
    - rewrite app_nil_r in Hin. apply Hcover. exact Hin.
    - simpl. apply (IH (seen ++ [tool])%list).
      + apply group_step_covers. exact Hcover.
      + rewrite <- app_assoc. exact Hin. }
  intros tool Hin. apply (Hgen tools [] []); [intros t [] | exact Hin].
Qed.

(** X30. [get_available_tools_summary] returns the fixed text
    [No tools are currently available.] when the catalogue is empty;
    otherwise its text begins with the title and contains, for every tool
    of the catalogue, the heading of the tool's connector and the tool's
    line [- name: description]. *)
Theorem tools_summary_lists_every_tool :
  forall (w w1 : World) (tools : list AITool.t),
    _get_available_tools w = (inr tools, w1) ->
    exists text : string,
      get_available_tools_summary w = (inr text, w1)
      /\ (tools = [] -> text = "No tools are currently available.")
      /\ (tools <> [] ->
          startswith text ("Available tools:" ++ nl ++ nl) = true
          /\ forall tool,
               In tool tools ->
               mentions text (summary_heading (AITool.connector_name tool))
               /\ mentions text (summary_line tool)).
Proof.
  intros w w1 tools Hc. unfold get_available_tools_summary.
  rewrite (bind_inr _ _ _ _ _ Hc).
  destruct tools as [| first rest].
  - eexists. split; [reflexivity |]. split; [reflexivity |].
    intros Hne. contradiction.
  - eexists. split; [reflexivity |]. split; [discriminate |]. intros _.
    rewrite render_connectors_appends. split.
    + rewrite fold_append. apply prefix_app.
    + intros tool Hin.
      destruct (group_by_connector_covers (first :: rest) tool Hin)
        as (group & Hget & Htool).
      apply dict_get_in in Hget.
      pose proof (fold_append_mentions connector_text _ _ Hget
                    ("Available tools:" ++ nl ++ nl)) as Hsection.
      split; (eapply mentions_trans; [exact Hsection |]); unfold connector_text;
        simpl fst; simpl snd.
      * apply mentions_app_r, mentions_refl.
      * apply mentions_app_l, mentions_app_r.
        apply (fold_append_mentions summary_line group tool Htool "").
Qed.
End Texts.

(** * The summary prompt, entry by entry *)

Section SummaryPrompt.
Context `{O : Outside}.

(** The loop of [_create_summary_prompt] appends the lines of the entries,
    in their order, to what it has collected. *)
Lemma summary_loop_lines (results : list Outcome.t) :
  forall i acc,
    for_each_pure (enumerate_from i results) summary_body acc
    = match entry_lines i results with
      | inr lines => inr (acc ++ lines)%list
      | inl e => inl e
      end.
Proof.
  induction results as [| outcome rest IH]; intros i acc; simpl.
  - rewrite app_nil_r. reflexivity.
  - destruct (summary_entry i outcome) as [e | line]; simpl; [reflexivity |].
    rewrite IH. destruct (entry_lines (S i) rest) as [e | lines]; [reflexivity |].
    rewrite <- app_assoc. reflexivity.
Qed.

Lemma _create_summary_prompt_lines user_query reasoning results :
  _create_summary_prompt user_query reasoning results
  = match entry_lines 0 results with
    | inr lines => inr (summary_text user_query reasoning lines)
    | inl e => inl e
    end.
Proof.
  unfold _create_summary_prompt, enumerate. rewrite summary_loop_lines.
  destruct (entry_lines 0 results); reflexivity.
Qed.

Lemma entry_lines_around (before after : list Outcome.t) (outcome : Outcome.t) :
  forall i,
    entry_lines i (before ++ outcome :: after)
    = match entry_lines i before with
      | inl e => inl e
      | inr lines_before =>
          match summary_entry (i + length before) outcome with
          | inl e => inl e
          | inr line =>
              match entry_lines (i + length before + 1) after with
              | inl e => inl e
              | inr lines_after => inr (lines_before ++ line :: lines_after)%list
              end
          end
      end.
Proof.
  induction before as [| first before IH]; intros i;
    cbn [app length entry_lines].
  - rewrite Nat.add_0_r, Nat.add_1_r. reflexivity.
  - rewrite <- Nat.add_succ_comm.
    destruct (summary_entry i first) as [e | line0]; [reflexivity |].
    rewrite IH.
    destruct (entry_lines (S i) before) as [e | lines_before]; [reflexivity |].
    destruct (summary_entry (S i + length before) outcome) as [e | line];
      [reflexivity |].
    destruct (entry_lines (S i + length before + 1) after); reflexivity.
Qed.

(** The prompt for a list of entries one of which is rendered as [line]. *)
Lemma _create_summary_prompt_around user_query reasoning before after outcome line :
  summary_entry (length before) outcome = inr line ->
  _create_summary_prompt user_query reasoning (before ++ outcome :: after)
  = prompt_around user_query reasoning before line after.
Proof.
  intros Hline. rewrite _create_summary_prompt_lines, entry_lines_around.
  unfold prompt_around. simpl. rewrite Hline.
  destruct (entry_lines 0 before) as [e | lines_before]; [reflexivity |].
  destruct (entry_lines (length before + 1) after); reflexivity.
Qed.

Lemma summary_text_mentions user_query reasoning lines line :
  In line lines -> mentions (summary_text user_query reasoning lines) line.
Proof.
  intros Hin. unfold summary_text. eapply mentions_trans.
  - apply mentions_join. do 8 right. left. reflexivity.
  - apply mentions_join. exact Hin.
Qed.

Lemma prompt_around_mentions user_query reasoning before line after prompt :
  prompt_around user_query reasoning before line after = inr prompt ->
  mentions prompt line.
Proof.
  unfold prompt_around.
  destruct (entry_lines 0 before) as [e | lines_before]; [discriminate |].
  destruct (entry_lines (length before + 1) after) as [e | lines_after];
    [discriminate |].
  intros Heq. injection Heq as <-. apply summary_text_mentions.
  apply in_or_app. right. left. reflexivity.
Qed.

(** C10. In the summary prompt for a list of entries, a successful entry
    whose result holds two or more content blocks contributes exactly one
    line, at its place among the lines of the other entries: its tool's
    heading followed by [Result: ] and the text of the first block (the
    fixed text [No text content] when that block has no [text]).  The
    prompt returned contains that line, and the later blocks do not reach
    it: it is the prompt of the same list with the result cut down to its
    first block.  A successful entry with no block contributes, at its
    place, exactly the line ending in the marker [Success (no content)],
    with no result text, and the prompt returned contains that line.  The
    prompt is the fixed text of [_create_summary_prompt] around the lines
    of the entries in their order, and it is a fault only when an entry
    before or after cannot be rendered. *)
Theorem summary_prompt_shows_first_block_only :
  forall (user_query : string) (reasoning : json)
         (before after : list Outcome.t) (tool_call : ToolCall.t)
         (first second : list (string * json))
         (more : list (list (string * json)))
         (result_error error : option string),
    let head :=
      "Tool " ++ string_of_nat (length before + 1) ++ ": "
      ++ py_str (ToolCall.tool_name tool_call) in
    let shown :=
      head ++ " - Success" ++ nl ++ "Result: " ++ py_str (text_of first) in
    let marked := head ++ " - Success (no content)" in
    let full :=
      succeeded_with tool_call (first :: second :: more) result_error error in
    let cut := succeeded_with tool_call [first] result_error error in
    let empty := succeeded_with tool_call [] result_error error in
    _create_summary_prompt user_query reasoning (before ++ full :: after)
    = prompt_around user_query reasoning before shown after
    /\ (forall prompt,
          _create_summary_prompt user_query reasoning (before ++ full :: after)
          = inr prompt -> mentions prompt shown)
    /\ _create_summary_prompt user_query reasoning (before ++ full :: after)
       = _create_summary_prompt user_query reasoning (before ++ cut :: after)
    /\ _create_summary_prompt user_query reasoning (before ++ empty :: after)
       = prompt_around user_query reasoning before marked after
    /\ (forall prompt,
          _create_summary_prompt user_query reasoning (before ++ empty :: after)
          = inr prompt -> mentions prompt marked)
    /\ summary_entry (length before) full = inr shown
    /\ summary_entry (length before) empty = inr marked.
Proof.
  intros user_query reasoning before after tool_call first second more
    result_error error head shown marked full cut empty.
  assert (Hfull : summary_entry (length before) full = inr shown) by reflexivity.
  assert (Hcut : summary_entry (length before) cut = inr shown) by reflexivity.
  assert (Hempty : summary_entry (length before) empty = inr marked)
    by reflexivity.
  rewrite (_create_summary_prompt_around _ _ _ _ _ _ Hfull).
  rewrite (_create_summary_prompt_around _ _ _ _ _ _ Hcut).
  rewrite (_create_summary_prompt_around _ _ _ _ _ _ Hempty).
  split; [reflexivity |].
  split; [intros prompt; apply prompt_around_mentions |].
  split; [reflexivity |].
  split; [reflexivity |].
  split; [intros prompt; apply prompt_around_mentions |].
  split; [exact Hfull | exact Hempty].
Qed.
End SummaryPrompt.

(** * The further properties on sample runs *)

Lemma call_tool_transport_fault_becomes_error_witness :
  MCPClient.session Sample.wf_client = Some 0
  /\ session_post (Outside := Sample.unreachable) (history Sample.with_wf) 0
       (MCPClient.mcp_endpoint Sample.wf_client) Sample.start_request
     = inl (Exn (LibraryError "ClientConnectorError") "Cannot connect to host")
  /\ fst (call_tool (O := Sample.unreachable) Sample.wf_client
            (JStr "start_workflow") (JObj [("title", JStr "Demo")]) Sample.with_wf)
     = inr (MCPToolResult.Build [] (Some "Cannot connect to host")).
Proof.
  split; [reflexivity |]. split; [reflexivity |].
  apply (call_tool_transport_fault_becomes_error (O := Sample.unreachable)
           Sample.wf_client 0 (JStr "start_workflow")
           (JObj [("title", JStr "Demo")]) Sample.with_wf
           (Exn (LibraryError "ClientConnectorError") "Cannot connect to host"));
    reflexivity.
Defined.

Lemma call_tool_provider_error_message_witness :
  MCPClient.session Sample.wf_client = Some 0
  /\ session_post (Outside := Sample.answering "") (history Sample.with_wf) 0
       (MCPClient.mcp_endpoint Sample.wf_client)
       (tools_call_request (ToolCall.tool_name Sample.rejected_call)
          (ToolCall.arguments Sample.rejected_call))
     = inr (JObj Sample.rejected_answer)
  /\ dict_get "error" Sample.rejected_answer = Some (JObj Sample.rejected_error)
  /\ (forall m, dict_get "message" Sample.rejected_error = Some (JStr m) ->
                 fst (call_tool (O := Sample.answering "") Sample.wf_client
                        (ToolCall.tool_name Sample.rejected_call)
                        (ToolCall.arguments Sample.rejected_call) Sample.with_wf)
                 = inr (MCPToolResult.Build [] (Some m)))
  /\ (dict_get "message" Sample.rejected_error = None ->
      fst (call_tool (O := Sample.answering "") Sample.wf_client
             (ToolCall.tool_name Sample.rejected_call)
             (ToolCall.arguments Sample.rejected_call) Sample.with_wf)
      = inr (MCPToolResult.Build [] (Some "Unknown error"))).
Proof.
  split; [reflexivity |]. split; [reflexivity |]. split; [reflexivity |].
  apply (call_tool_provider_error_message (O := Sample.answering "")
           Sample.wf_client 0 (ToolCall.tool_name Sample.rejected_call)
           (ToolCall.arguments Sample.rejected_call) Sample.with_wf
           Sample.rejected_answer Sample.rejected_error); reflexivity.
Defined.

Lemma call_tool_relays_content_witness :
  MCPClient.session Sample.wf_client = Some 0
  /\ session_post (Outside := Sample.answering "") (history Sample.with_wf) 0
       (MCPClient.mcp_endpoint Sample.wf_client) Sample.start_request
     = inr (JObj Sample.started_answer)
  /\ dict_get "error" Sample.started_answer = None
  /\ (forall res blocks,
        dict_get "result" Sample.started_answer = Some (JObj res) ->
        dict_get "content" res = Some (JArr (map JObj blocks)) ->
        fst (call_tool (O := Sample.answering "") Sample.wf_client
               (JStr "start_workflow") (JObj [("title", JStr "Demo")])
               Sample.with_wf)
        = inr (MCPToolResult.Build blocks None))
  /\ (forall res,
        dict_get "result" Sample.started_answer = Some (JObj res) ->
        dict_get "content" res = None ->
        fst (call_tool (O := Sample.answering "") Sample.wf_client
               (JStr "start_workflow") (JObj [("title", JStr "Demo")])
               Sample.with_wf)
        = inr (MCPToolResult.Build [] None))
  /\ (dict_get "result" Sample.started_answer = None ->
      fst (call_tool (O := Sample.answering "") Sample.wf_client
             (JStr "start_workflow") (JObj [("title", JStr "Demo")])
             Sample.with_wf)
      = inr (MCPToolResult.Build [] None)).
Proof.
  split; [reflexivity |]. split; [reflexivity |]. split; [reflexivity |].
  apply (call_tool_relays_content (O := Sample.answering "")
           Sample.wf_client 0 (JStr "start_workflow")
           (JObj [("title", JStr "Demo")]) Sample.with_wf Sample.started_answer);
    reflexivity.
Defined.

Lemma null_error_message_counts_as_success_witness :
  ToolCall.connector_name Sample.the_call = JStr "wf"
  /\ dict_get "wf" (connectors Sample.with_wf) = Some Sample.wf_client
  /\ MCPClient.session Sample.wf_client = Some 0
  /\ session_post (Outside := Sample.null_error) (history Sample.with_wf) 0
       (MCPClient.mcp_endpoint Sample.wf_client)
       (tools_call_request (ToolCall.tool_name Sample.the_call)
          (ToolCall.arguments Sample.the_call))
     = inr (JObj [("error", JObj [("message", JNull)])])
  /\ dict_get "error" [("error", JObj [("message", JNull)])]
     = Some (JObj [("message", JNull)])
  /\ dict_get "message" [("message", JNull)] = Some JNull
  /\ fst (execute_one (O := Sample.null_error) Sample.the_call Sample.with_wf)
     = inr (Outcome.Build Sample.the_call true
              (Some (MCPToolResult.Build [] None)) None).
Proof.
  repeat (split; [reflexivity |]).
  apply (null_error_message_counts_as_success (O := Sample.null_error)
           Sample.the_call "wf" Sample.wf_client 0 Sample.with_wf
           [("error", JObj [("message", JNull)])] [("message", JNull)]);
    reflexivity.
Defined.

Lemma list_tools_failure_is_empty_list_witness :
  MCPClient.session Sample.wf_client = Some 0
  /\ exists tools : json,
       list_tools (O := Sample.unreachable) Sample.wf_client Sample.with_wf
       = (inr tools, Sample.listed)
       /\ (forall e,
             session_post (Outside := Sample.unreachable) (history Sample.with_wf)
               0 (MCPClient.mcp_endpoint Sample.wf_client) tools_list_request
             = inl e -> tools = JArr [])
       /\ (forall fields,
             session_post (Outside := Sample.unreachable) (history Sample.with_wf)
               0 (MCPClient.mcp_endpoint Sample.wf_client) tools_list_request
             = inr (JObj fields) ->
             dict_get "error" fields <> None -> tools = JArr []).
Proof.
  split; [reflexivity |].
  apply (list_tools_failure_is_empty_list (O := Sample.unreachable)
           Sample.wf_client 0 Sample.with_wf).
  reflexivity.
Defined.

Lemma list_tools_relays_tools_witness :
  MCPClient.session Sample.wf_client = Some 0
  /\ session_post (Outside := Sample.answering "") (history Sample.with_wf) 0
       (MCPClient.mcp_endpoint Sample.wf_client) tools_list_request
     = inr (JObj Sample.listing_answer)
  /\ dict_get "error" Sample.listing_answer = None
  /\ dict_get "result" Sample.listing_answer = Some (JObj Sample.listing_result)
  /\ fst (list_tools (O := Sample.answering "") Sample.wf_client Sample.with_wf)
     = inr (match dict_get "tools" Sample.listing_result with
            | Some tools => tools
            | None => JArr []
            end).
Proof.
  repeat (split; [reflexivity |]).
  apply (list_tools_relays_tools (O := Sample.answering "")
           Sample.wf_client 0 Sample.with_wf Sample.listing_answer
           Sample.listing_result); reflexivity.
Defined.

Lemma with_wf_connected : all_connected (connectors Sample.with_wf).
Proof. repeat constructor. discriminate. Qed.

Lemma with_wf_unique : unique_keys (connectors Sample.with_wf).
Proof. repeat constructor. intros []. Qed.

Lemma list_all_tools_covers_every_connector_witness :
  all_connected (connectors Sample.with_wf)
  /\ unique_keys (connectors Sample.with_wf)
  /\ exists result : list (string * json),
       list_all_tools (O := Sample.answering "") Sample.with_wf
       = (inr result, sent Sample.with_wf (listing (connectors Sample.with_wf)))
       /\ dict_keys result = dict_keys (connectors Sample.with_wf).
Proof.
  split; [exact with_wf_connected |]. split; [exact with_wf_unique |].
  exact (list_all_tools_covers_every_connector (O := Sample.answering "")
           Sample.with_wf with_wf_connected with_wf_unique).
Defined.

Lemma registry_stays_well_formed_witness :
  unique_keys (connectors Sample.with_wf)
  /\ all_connected (connectors Sample.with_wf)
  /\ (unique_keys
        (connectors (snd (add_connector "crm" "http://localhost:3001" Sample.with_wf)))
      /\ all_connected
           (connectors (snd (add_connector "crm" "http://localhost:3001"
                               Sample.with_wf))))
  /\ (unique_keys (connectors (snd (remove_connector "crm" Sample.with_wf)))
      /\ all_connected (connectors (snd (remove_connector "crm" Sample.with_wf)))).
Proof.
  split; [exact with_wf_unique |]. split; [exact with_wf_connected |].
  exact (registry_stays_well_formed "crm" "http://localhost:3001" Sample.with_wf
           with_wf_unique with_wf_connected).
Defined.

Lemma add_connector_leaves_replaced_session_open_witness :
  dict_get "wf" (connectors Sample.with_wf) = Some Sample.wf_client
  /\ exists (client : MCPClient.t) (w' : World),
       add_connector "wf" "http://localhost:4000" Sample.with_wf = (inr client, w')
       /\ dict_keys (connectors w') = dict_keys (connectors Sample.with_wf)
       /\ dict_get "wf" (connectors w') = Some client
       /\ history w'
          = (history Sample.with_wf
             ++ [SessionOpened (length (history Sample.with_wf))])%list.
Proof.
  split; [reflexivity |].
  apply (add_connector_leaves_replaced_session_open "wf" "http://localhost:4000"
           Sample.with_wf Sample.wf_client).
  reflexivity.
Defined.

Lemma add_then_remove_restores_registry_witness :
  dict_get "crm" (connectors Sample.with_wf) = None
  /\ bind (add_connector "crm" "http://localhost:3001")
       (fun _ => remove_connector "crm") Sample.with_wf
     = (inr tt,
        mkWorld (connectors Sample.with_wf)
          (history Sample.with_wf
           ++ [SessionOpened (length (history Sample.with_wf));
               SessionClosed (length (history Sample.with_wf))])).
Proof.
  split; [reflexivity |].
  apply (add_then_remove_restores_registry "crm" "http://localhost:3001"
           Sample.with_wf).
  reflexivity.
Defined.

Lemma remove_connector_only_touches_its_name_witness :
  dict_get "wf" (connectors Sample.with_wf) = Some Sample.wf_client
  /\ MCPClient.session Sample.wf_client = Some 0
  /\ exists w' : World,
       remove_connector "wf" Sample.with_wf = (inr tt, w')
       /\ history w' = (history Sample.with_wf ++ [SessionClosed 0])%list
       /\ dict_get "wf" (connectors w') = None
       /\ (forall other, other <> "wf" ->
                         dict_get other (connectors w')
                         = dict_get other (connectors Sample.with_wf)).
Proof.
  split; [reflexivity |]. split; [reflexivity |].
  apply (remove_connector_only_touches_its_name "wf" Sample.wf_client 0
           Sample.with_wf); reflexivity.
Defined.

Lemma close_all_empties_the_registry_witness :
  unique_keys (connectors Sample.with_wf)
  /\ close_all Sample.with_wf
     = (inr tt,
        mkWorld [] (history Sample.with_wf ++ closing (connectors Sample.with_wf)))
  /\ bind close_all (fun _ => close_all) Sample.with_wf = close_all Sample.with_wf.
Proof.
  split; [exact with_wf_unique |].
  exact (close_all_empties_the_registry Sample.with_wf with_wf_unique).
Defined.

Lemma get_tool_schema_returns_the_named_tool_witness :
  MCPClient.session Sample.wf_client = Some 0
  /\ (forall tool w',
        get_tool_schema (O := Sample.answering "") Sample.wf_client
          "start_workflow" Sample.with_wf = (inr (Some tool), w') ->
        exists result listed entries fields,
          session_post (Outside := Sample.answering "")
            (history Sample.with_wf) 0
            (MCPClient.mcp_endpoint Sample.wf_client) tools_list_request
          = inr result
          /\ py_in (O := Sample.answering "") "error" result = inr false
          /\ and_then
               (py_get (O := Sample.answering "") result "result" (JObj []))
               (fun res =>
                  py_get (O := Sample.answering "") res "tools" (JArr []))
             = inr listed
          /\ list_tools (O := Sample.answering "") Sample.wf_client
               Sample.with_wf = (inr listed, w')
          /\ w' = sent Sample.with_wf
                    [Posted 0 (MCPClient.mcp_endpoint Sample.wf_client)
                       tools_list_request]
          /\ py_iter (O := Sample.answering "") listed = inr entries
          /\ In tool entries
          /\ (exists before after,
                entries = (before ++ tool :: after)%list
                /\ forall earlier, In earlier before ->
                     exists n,
                       py_get (O := Sample.answering "") earlier "name" JNull
                       = inr n
                       /\ is_str "start_workflow" n = false)
          /\ tool = JObj fields
          /\ dict_get "name" fields = Some (JStr "start_workflow"))
  /\ (forall e,
        session_post (Outside := Sample.answering "") (history Sample.with_wf) 0
          (MCPClient.mcp_endpoint Sample.wf_client) tools_list_request = inl e ->
        fst (get_tool_schema (O := Sample.answering "") Sample.wf_client
               "start_workflow" Sample.with_wf) = inr None).
Proof.
  split; [reflexivity |].
  apply (get_tool_schema_returns_the_named_tool (O := Sample.answering "")
           Sample.wf_client 0 "start_workflow" Sample.with_wf).
  reflexivity.
Defined.

(** The tool the sample provider lists is found by its name. *)
Example get_tool_schema_run :
  get_tool_schema (O := Sample.answering "") Sample.wf_client "start_workflow"
    Sample.with_wf
  = (inr (Some (JObj [("name", JStr "start_workflow");
                      ("description", JStr "Start a workflow");
                      ("inputSchema", JObj [])])), Sample.listed).
Proof. vm_compute. reflexivity. Qed.

Lemma non_object_answer_is_a_selection_error_witness :
  json_loads (Outside := Sample.answering "") (clean_response "[1, 2]")
  = inr (JArr [JInt 1; JInt 2])
  /\ (forall fields, JArr [JInt 1; JInt 2] <> JObj fields)
  /\ selection_of (O := Sample.answering "") "[1, 2]"
     = (JStr ("Error in tool selection: "
              ++ Ref.fault_str (NoAttribute (type_name (JArr [JInt 1; JInt 2]))
                                  "get")), []).
Proof.
  assert (Hl : json_loads (Outside := Sample.answering "") (clean_response "[1, 2]")
               = inr (JArr [JInt 1; JInt 2])) by (vm_compute; reflexivity).
  assert (Hno : forall fields, JArr [JInt 1; JInt 2] <> JObj fields)
    by (intros fields; discriminate).
  split; [exact Hl |]. split; [exact Hno |].
  exact (non_object_answer_is_a_selection_error (O := Sample.answering "")
           "[1, 2]" (JArr [JInt 1; JInt 2]) Hl Hno).
Defined.

Lemma missing_tool_calls_means_no_call_witness :
  json_loads (Outside := Sample.answering "") (clean_response "{}") = inr (JObj [])
  /\ dict_get "tool_calls" (@nil (string * json)) = None
  /\ selection_of (O := Sample.answering "") "{}"
     = (match dict_get "reasoning" (@nil (string * json)) with
        | Some reasoning => reasoning
        | None => JStr ""
        end, []).
Proof.
  assert (Hl : json_loads (Outside := Sample.answering "") (clean_response "{}")
               = inr (JObj [])) by (vm_compute; reflexivity).
  split; [exact Hl |]. split; [reflexivity |].
  exact (missing_tool_calls_means_no_call (O := Sample.answering "") "{}" []
           Hl eq_refl).
Defined.

Lemma executed_outcomes_are_consistent_witness :
  _execute_tool_calls (O := Sample.answering "")
    [Sample.the_call; Sample.ghost_call] Sample.with_wf
  = (inr [Sample.started_outcome;
          failed Sample.ghost_call "Connector 'ghost' not found"],
     sent Sample.with_wf [Sample.posted Sample.the_call])
  /\ Forall consistent
       [Sample.started_outcome;
        failed Sample.ghost_call "Connector 'ghost' not found"].
Proof.
  assert (Hrun : _execute_tool_calls (O := Sample.answering "")
                   [Sample.the_call; Sample.ghost_call] Sample.with_wf
                 = (inr [Sample.started_outcome;
                         failed Sample.ghost_call "Connector 'ghost' not found"],
                    sent Sample.with_wf [Sample.posted Sample.the_call]))
    by (vm_compute; reflexivity).
  split; [exact Hrun |].
  exact (executed_outcomes_are_consistent (O := Sample.answering "") _ _ _ _ Hrun).
Defined.

Lemma returned_result_is_complete_witness :
  (AIAgentDebug.gemini_model Sample.agent <> None
   \/ AIAgentDebug.anthropic_client Sample.agent <> None)
  /\ process_request (O := Sample.once) Sample.agent Sample.query Sample.with_wf
     = (inr (RequestResult.Build true (JStr "one step") [Sample.the_call]
               Sample.started (Some "Error generating summary: quota exceeded")),
        snd (process_request (O := Sample.once) Sample.agent Sample.query
               Sample.with_wf))
  /\ RequestResult.success
       (RequestResult.Build true (JStr "one step") [Sample.the_call]
          Sample.started (Some "Error generating summary: quota exceeded")) = true
  /\ RequestResult.summary
       (RequestResult.Build true (JStr "one step") [Sample.the_call]
          Sample.started (Some "Error generating summary: quota exceeded")) <> None
  /\ map Outcome.tool_call
       (RequestResult.results
          (RequestResult.Build true (JStr "one step") [Sample.the_call]
             Sample.started (Some "Error generating summary: quota exceeded")))
     = RequestResult.tool_calls
         (RequestResult.Build true (JStr "one step") [Sample.the_call]
            Sample.started (Some "Error generating summary: quota exceeded")).
Proof.
  assert (Hb : AIAgentDebug.gemini_model Sample.agent <> None
               \/ AIAgentDebug.anthropic_client Sample.agent <> None)
    by (left; discriminate).
  assert (Hrun : process_request (O := Sample.once) Sample.agent Sample.query
                   Sample.with_wf
                 = (inr (RequestResult.Build true (JStr "one step")
                           [Sample.the_call] Sample.started
                           (Some "Error generating summary: quota exceeded")),
                    snd (process_request (O := Sample.once) Sample.agent
                           Sample.query Sample.with_wf)))
    by (vm_compute; reflexivity).
  split; [exact Hb |]. split; [exact Hrun |].
  exact (returned_result_is_complete (O := Sample.once) _ _ _ _ _ Hb Hrun).
Defined.

Lemma gemini_is_preferred_to_anthropic_witness :
  AIAgentDebug.gemini_model Sample.agent <> None
  /\ only_adds not_anthropic
       (process_request (O := Sample.once) Sample.agent Sample.query).
Proof.
  assert (Hg : AIAgentDebug.gemini_model Sample.agent <> None) by discriminate.
  split; [exact Hg |].
  exact (gemini_is_preferred_to_anthropic (O := Sample.once) Sample.agent
           Sample.query Hg).
Defined.

Lemma listed_non_object_makes_the_request_raise_witness :
  list_all_tools (O := Sample.sloppy) Sample.with_wf
  = (inr [("wf", JArr [JStr "oops"])], Sample.listed)
  /\ In ("wf", JArr [JStr "oops"]) [("wf", JArr [JStr "oops"])]
  /\ In (JStr "oops") [JStr "oops"]
  /\ (forall fields, JStr "oops" <> JObj fields)
  /\ exists e : exn,
       process_request (O := Sample.sloppy) Sample.agent "hi" Sample.with_wf
       = (inl e, Sample.listed).
Proof.
  assert (Hl : list_all_tools (O := Sample.sloppy) Sample.with_wf
               = (inr [("wf", JArr [JStr "oops"])], Sample.listed))
    by reflexivity.
  assert (Hentry : In ("wf", JArr [JStr "oops"]) [("wf", JArr [JStr "oops"])])
    by (left; reflexivity).
  assert (Hitem : In (JStr "oops") [JStr "oops"]) by (left; reflexivity).
  assert (Hno : forall fields, JStr "oops" <> JObj fields)
    by (intros fields; discriminate).
  split; [exact Hl |]. split; [exact Hentry |]. split; [exact Hitem |].
  split; [exact Hno |].
  exact (listed_non_object_makes_the_request_raise (O := Sample.sloppy)
           Sample.agent "hi" Sample.with_wf Sample.listed _ "wf" _ _
           Hl Hentry Hitem Hno).
Defined.

(** The same request, evaluated: the fault of [tool.get] leaves
    [process_request]. *)
Example listed_non_object_run :
  fst (process_request (O := Sample.sloppy) Sample.agent "hi" Sample.with_wf)
  = inl (Exn AttributeError "'str' object has no attribute 'get'").
Proof. vm_compute. reflexivity. Qed.

Lemma descriptors_name_registered_connectors_witness :
  _get_available_tools (O := Sample.answering "") Sample.with_wf
  = (inr [Sample.start_tool], Sample.listed)
  /\ Forall (fun tool =>
               In (AITool.connector_name tool) (dict_keys (connectors Sample.with_wf)))
       [Sample.start_tool].
Proof.
  assert (Hc : _get_available_tools (O := Sample.answering "") Sample.with_wf
               = (inr [Sample.start_tool], Sample.listed)) by reflexivity.
  split; [exact Hc |].
  exact (descriptors_name_registered_connectors (O := Sample.answering "")
           Sample.with_wf Sample.listed [Sample.start_tool] Hc).
Defined.

Lemma json_fence_is_stripped_witness :
  all_space " " = true /\ all_space nl = true
  /\ all_space (nl ++ " ") = true /\ all_space nl = true
  /\ starts_clean Sample.one_call = true
  /\ rstrip Sample.one_call = Sample.one_call
  /\ clean_response (" " ++ "```json" ++ nl ++ Sample.one_call ++ (nl ++ " ")
                     ++ "```" ++ nl) = Sample.one_call.
Proof.
  split; [reflexivity |]. split; [reflexivity |]. split; [reflexivity |].
  split; [reflexivity |]. split; [reflexivity |].
  split; [vm_compute; reflexivity |].
  apply (json_fence_is_stripped " " nl (nl ++ " ") nl Sample.one_call);
    reflexivity.
Defined.

Lemma tools_summary_lists_every_tool_witness :
  _get_available_tools (O := Sample.answering "") Sample.with_wf
  = (inr [Sample.start_tool], Sample.listed)
  /\ exists text : string,
       get_available_tools_summary (O := Sample.answering "") Sample.with_wf
       = (inr text, Sample.listed)
       /\ ([Sample.start_tool] = [] -> text = "No tools are currently available.")
       /\ ([Sample.start_tool] <> [] ->
           startswith text ("Available tools:" ++ nl ++ nl) = true
           /\ forall tool,
                In tool [Sample.start_tool] ->
                mentions text (summary_heading (AITool.connector_name tool))
                /\ mentions text (summary_line tool)).
Proof.
  assert (Hc : _get_available_tools (O := Sample.answering "") Sample.with_wf
               = (inr [Sample.start_tool], Sample.listed)) by reflexivity.
  split; [exact Hc |].
  exact (tools_summary_lists_every_tool (O := Sample.answering "")
           Sample.with_wf Sample.listed [Sample.start_tool] Hc).
Defined.

(** The summary of the sample catalogue. *)
Example tools_summary_run :
  fst (get_available_tools_summary (O := Sample.answering "") Sample.with_wf)
  = inr ("Available tools:" ++ nl ++ nl ++ "**wf**" ++ nl
         ++ "- start_workflow: Start a workflow" ++ nl ++ nl).
Proof. vm_compute. reflexivity. Qed.

(** The summary prompt for one entry whose result holds two blocks shows
    the first block and not the second. *)
Example two_block_summary_prompt_run :
  _create_summary_prompt (O := Sample.once) Sample.query (JStr "one step")
    [succeeded_with Sample.the_call
       [[("type", JStr "text"); ("text", JStr "Workflow started")];
        [("type", JStr "text"); ("text", JStr "Second block")]] None None]
  = inr (summary_text (O := Sample.once) Sample.query (JStr "one step")
           ["Tool 1: start_workflow - Success" ++ nl
            ++ "Result: Workflow started"])
  /\ is_substring "Second block"
       (summary_text (O := Sample.once) Sample.query (JStr "one step")
          ["Tool 1: start_workflow - Success" ++ nl
           ++ "Result: Workflow started"]) = false.
Proof. split; vm_compute; reflexivity. Qed.

(** The summary prompt for one entry whose result holds no block shows
    the marker and no result text. *)
Example empty_result_summary_prompt_run :
  _create_summary_prompt (O := Sample.once) Sample.query (JStr "one step")
    [succeeded_with Sample.the_call [] None None]
  = inr (summary_text (O := Sample.once) Sample.query (JStr "one step")
           ["Tool 1: start_workflow - Success (no content)"])
  /\ is_substring "Result: "
       (summary_text (O := Sample.once) Sample.query (JStr "one step")
          ["Tool 1: start_workflow - Success (no content)"]) = false.
Proof. split; vm_compute; reflexivity. Qed.
